(** * Device-driver adapters of the smart-home script repository

    A shallow embedding of the driver scripts (the esp-pwm driver, its
    pin/neopixel sibling, the shutter driver, the zigbee driver and the
    FritzBox add-on) together with the properties their specification
    states about them.

    JavaScript values are modelled by [jsval]; numbers are IEEE-754 binary64
    values (Rocq's primitive floats), so arithmetic and comparisons on them
    are the ones the engine performs.  Engine built-ins that convert between
    strings and numbers, and [JSON.parse], are not part of the repository:
    they are the fields of the class [JsRuntime], and every general theorem
    holds for all of its instances. *)

From Stdlib Require Import PrimFloat Floats Uint63 ZArith String Ascii List Bool Lia.
From stdpp Require Import base option gmap strings list fin_maps pretty.
Import ListNotations.
Local Open Scope Z_scope.

(** A decimal literal such as [0.1] stands for the nearest binary64 value,
    as it does in the engine. *)
Set Warnings "-inexact-float".
Local Open Scope string_scope.

(** ** JavaScript values *)

Module Js.

Inductive jsval : Type :=
  | JUndefined
  | JNull
  | JBool (b : bool)
  | JNum (x : float)
  | JStr (s : string).

Definition isNaN (x : float) : bool := PrimFloat.is_nan x.

(** [ToBoolean]. *)
Definition truthy (v : jsval) : bool :=
    match v with
    | JUndefined | JNull => false
    | JBool b => b
    | JNum x => negb (PrimFloat.eqb x 0%float || isNaN x)
    | JStr s => negb (String.eqb s EmptyString)
    end.

(** [a === b] on primitive values ([NaN] differs from itself, the two
      zeroes are equal). *)
Definition strictEq (a b : jsval) : bool :=
    match a, b with
    | JUndefined, JUndefined => true
    | JNull, JNull => true
    | JBool x, JBool y => Bool.eqb x y
    | JNum x, JNum y => PrimFloat.eqb x y
    | JStr x, JStr y => String.eqb x y
    | _, _ => false
    end.

(** [v == undefined] (also [v == null]). *)
Definition isNullish (v : jsval) : bool :=
    match v with
    | JUndefined | JNull => true
    | _ => false
    end.

(** A property read [obj[k]] on a plain object: [undefined] when absent. *)
Definition getProp (o : gmap string jsval) (k : string) : jsval :=
    default JUndefined (o !! k).

(** Parsed device info ([infoMessage.mac], ...). *)
Record InfoMessage : Type := {
    info_mac : jsval;
    info_ip : jsval;
    info_firmware : jsval;
    info_model : jsval;
    info_chipID : jsval
  }.

(** The engine built-ins the drivers call. *)
Class JsRuntime : Type := {
(** [parseFloat(s)] *)
    parseFloat : string -> float;
(** [parseInt(s)], no radix argument *)
    parseIntStr : string -> float;
(** [parseInt(s, 16)] *)
    parseIntHex : string -> float;
(** [Number(s)] on a string *)
    stringToNumber : string -> float;
(** [String(x)] on a number *)
    numberToString : float -> string;
(** [JSON.parse(s).tempID] as it is interpolated into a topic:
        [None] when parsing or the property read throws, [Some None] when
        the property is falsy. *)
    jsonTempID : string -> option (option string);
(** [JSON.parse(s)] read as a device-info object: [None] when parsing
        throws, [Some None] when the result is falsy or not an object. *)
    jsonInfo : string -> option (option InfoMessage)
  }.

Section Conversions.
Context `{JsRuntime}.

(** [String(v)], also template interpolation. *)
Definition toString (v : jsval) : string :=
      match v with
      | JUndefined => "undefined"
      | JNull => "null"
      | JBool true => "true"
      | JBool false => "false"
      | JNum x => numberToString x
      | JStr s => s
      end.

(** [ToNumber]. *)
Definition toNumber (v : jsval) : float :=
      match v with
      | JUndefined => nan
      | JNull => 0%float
      | JBool true => 1%float
      | JBool false => 0%float
      | JNum x => x
      | JStr s => stringToNumber s
      end.

(** [parseInt(v)]: the argument is converted to a string first. *)
Definition parseInt (v : jsval) : float := parseIntStr (toString v).

(** [v == false] (abstract equality against a boolean). *)
Definition looseEqFalse (v : jsval) : bool :=
      match v with
      | JUndefined | JNull => false
      | _ => PrimFloat.eqb (toNumber v) 0%float
      end.
End Conversions.

End Js.
Export Js.

(** ** The host interface shared by the drivers

    The device record the host hands over, the intents a driver posts back
    through [parentPort.postMessage], the timers of the event loop, and the
    monad the handlers run in. *)

Module Host.

(** *** Strings *)

(** [s.startsWith(p)] *)
Definition startsWith (s p : string) : bool := String.prefix p s.

(** [arr.includes(x)] on an array of strings. *)
Definition includes (arr : list string) (x : string) : bool :=
  existsb (String.eqb x) arr.

(** [\d] *)
Definition isDigit (c : ascii) : bool :=
  (48 <=? nat_of_ascii c)%nat && (nat_of_ascii c <=? 57)%nat.

Fixpoint takeDigits (s : string) : string :=
  match s with
  | String c r => if isDigit c then String c (takeDigits r) else EmptyString
  | EmptyString => EmptyString
  end.

(** The rest of [s] after the prefix [p]. *)
Fixpoint dropPrefix (p s : string) : option string :=
  match p, s with
  | EmptyString, _ => Some s
  | String a p', String b s' => if Ascii.eqb a b then dropPrefix p' s' else None
  | String _ _, EmptyString => None
  end.

(** The line terminators the dot of a regular expression does not match
    (the ASCII ones). *)
Definition isLineTerminator (c : ascii) : bool :=
  (nat_of_ascii c =? 10)%nat || (nat_of_ascii c =? 13)%nat.

(** [\s] on ASCII text. *)
Definition isSpace (c : ascii) : bool :=
  let n := nat_of_ascii c in
  ((9 <=? n)%nat && (n <=? 13)%nat) || (n =? 32)%nat.

(** *** Device records *)

Inductive Category : Type := sensor | action.

Definition Category_eqb (a b : Category) : bool :=
  match a, b with
  | sensor, sensor | action, action => true
  | _, _ => false
  end.

(** [interface Feature].  A feature a driver pushes or proposes itself has
    no [_id] yet; the shutter templates carry a stray [type] key. *)
Record Feature : Type := {
  _id : option string;
  name : string;
  category : Category;
  verifyvalue : string;
  types : list string;
  unit_ : option string;
  icon : option string;
  type_ : option string
}.

(** [interface DeviceConfiguration]: the [topics] array and every other
    key. *)
Record DeviceConfiguration : Type := {
  topics : option (list string);
  props : gmap string jsval
}.

(** [Object.keys(conf).length] *)
Definition confKeys (c : DeviceConfiguration) : nat :=
  (if topics c is Some _ then 1 else 0)%nat + size (props c).

(** [interface DeviceDocument], the fields the drivers read. *)
Record DeviceDocument : Type := {
  dev_id : string;
  dev_icon : string;
  conf : option DeviceConfiguration;
  features : list Feature
}.

Definition withFeatures (d : DeviceDocument) (fs : list Feature) : DeviceDocument :=
  {| dev_id := dev_id d; dev_icon := dev_icon d; conf := conf d; features := fs |}.

(** [device.conf?.key] *)
Definition confProp (d : DeviceDocument) (k : string) : jsval :=
  match conf d with
  | Some c => getProp (props c) k
  | None => JUndefined
  end.

(** *** The feature directory

    [featureExists], [findFeatureId] and [getFeatureByTypeOrNameOrId] have
    the same text in every driver that declares them. *)

(** [featuresArray.some((feature) => feature.types.includes(featureName))] *)
Definition featureExists (featuresArray : list Feature) (featureName : string) : bool :=
  existsb (fun feature => includes (types feature) featureName) featuresArray.

(** [feature._id == searchString] *)
Definition idEquals (feature : Feature) (searchString : string) : bool :=
  match _id feature with
  | Some i => String.eqb i searchString
  | None => false
  end.

(** The predicate of the first search:
    [feature.types.includes(searchString) || feature._id == searchString]. *)
Definition matchesTypeOrId (searchString : string) (feature : Feature) : bool :=
  includes (types feature) searchString || idEquals feature searchString.

(** The predicate of the second search: [feature.name === searchString]. *)
Definition matchesName (searchString : string) (feature : Feature) : bool :=
  String.eqb (name feature) searchString.

Definition getFeatureByTypeOrNameOrId (device : DeviceDocument) (searchString : string)
  : option Feature :=
  match List.find (matchesTypeOrId searchString) (features device) with
  | Some feature => Some feature
  | None => List.find (matchesName searchString) (features device)
  end.

(** The resolution as the specification words it, for comparison: the three
    criteria one after the other, type tag first, then identifier, then
    display name, each over the whole list. *)
Definition resolveInPriorityOrder (device : DeviceDocument) (query : string)
  : option Feature :=
  match List.find (fun feature => includes (types feature) query) (features device) with
  | Some feature => Some feature
  | None =>
      match List.find (fun feature => idEquals feature query) (features device) with
      | Some feature => Some feature
      | None => List.find (matchesName query) (features device)
      end
  end.

(** [getFeatureByTypeOrNameOrId(device, s)?._id] *)
Definition featureIdOf (device : DeviceDocument) (searchString : string) : option string :=
  match getFeatureByTypeOrNameOrId device searchString with
  | Some feature => _id feature
  | None => None
  end.

(** Truthiness of an optional string ([undefined] and the empty string are
    falsy). *)
Definition truthyId (i : option string) : bool :=
  match i with
  | Some s => negb (String.eqb s EmptyString)
  | None => false
  end.

(** *** Intents posted to the host *)

(** The [message] of a [publishMessage]: a literal text, or an object or
    value handed to [JSON.stringify] (kept as the value that is
    serialised). *)
Inductive Payload : Type :=
| PText (s : string)
| PObject (fields : list (string * jsval))
| PValue (v : jsval).

Record ConfUpdate : Type := {
  cu_topics : list string;
  cu_searching : bool;
  cu_extra : list (string * jsval)
}.

(** The [update] of an [editDevice]: an optional [conf], an optional
    [features] list and top-level metadata keys. *)
Record Update : Type := {
  upd_conf : option ConfUpdate;
  upd_features : option (list Feature);
  upd_meta : list (string * jsval)
}.

Inductive Intent : Type :=
| SetData (storeInDB : option bool) (status : option string)
          (feature : list (string * jsval))
| EditDevice (update : Update) (preventRestart : bool)
| PublishMessage (topic : string) (message : Payload)
| RestartDeviceDriver.

(** An intent that makes the host restart the driver: the restart request
    itself, and an [editDevice] that does not carry [preventRestart] (the
    pairing handlers note "Restarts the driver after this call" on theirs;
    the edits that must not restart set the flag). *)
Definition restarts (i : Intent) : bool :=
  match i with
  | RestartDeviceDriver => true
  | EditDevice _ preventRestart => negb preventRestart
  | _ => false
  end.

(** The features an intent asks the host to add. *)
Definition addedFeatures (i : Intent) : list Feature :=
  match i with
  | EditDevice update _ => default [] (upd_features update)
  | _ => []
  end.

(** *** Messages from the host

    [init] with the device record and the last known feature values,
    [mqtt] with the topic and the payload text the broker delivered,
    [redis] with the changed features in the order [Object.entries] lists
    them ([None] when the update has no [feature] key), and any other
    type. *)

Inductive Message : Type :=
| Init (device : DeviceDocument) (values : option (list (string * jsval)))
| Mqtt (topic : string) (message : string)
| Redis (feature : option (list (string * jsval)))
| Unknown (type : string).

(** *** A JavaScript [Map] with string keys

    Entries stay in insertion order; [set] on a present key replaces its
    value in place. *)

Fixpoint Map_get (m : list (string * jsval)) (k : string) : jsval :=
  match m with
  | [] => JUndefined
  | (k', v) :: m' => if String.eqb k' k then v else Map_get m' k
  end.

Fixpoint Map_has (m : list (string * jsval)) (k : string) : bool :=
  match m with
  | [] => false
  | (k', _) :: m' => String.eqb k' k || Map_has m' k
  end.

Fixpoint Map_set (m : list (string * jsval)) (k : string) (v : jsval)
  : list (string * jsval) :=
  match m with
  | [] => [(k, v)]
  | (k', v') :: m' =>
      if String.eqb k' k then (k, v) :: m' else (k', v') :: Map_set m' k v
  end.

(** *** Timers of the event loop *)

(** The closures the drivers hand to [setTimeout]: the status probe, the
    offline declaration, and the delayed restart (which captures the device
    it was created for). *)
Inductive Callback : Type :=
| RequestStatusCb
| SetOfflineCb
| RestartCb (deviceId : string).

(** Same closure kind. *)
Definition Callback_eqb (a b : Callback) : bool :=
  match a, b with
  | RequestStatusCb, RequestStatusCb
  | SetOfflineCb, SetOfflineCb
  | RestartCb _, RestartCb _ => true
  | _, _ => false
  end.

Record Timer : Type := {
  timer_id : nat;
  due : Z;
  cb : Callback
}.

(** What the driver sees of the outside: the clock (milliseconds), the
    scheduled timers in creation order, and the intents posted so far. *)
Record Env : Type := {
  now : Z;
  next_timer : nat;
  pending : list Timer;
  outbox : list Intent
}.

Definition env0 (t : Z) : Env :=
  {| now := t; next_timer := 0; pending := []; outbox := [] |}.

(** The environment once [i] has been posted. *)
Definition posted (i : Intent) (e : Env) : Env :=
  {| now := now e; next_timer := next_timer e;
     pending := pending e; outbox := outbox e ++ [i] |}.

(** *** The handler monad: module state, environment, exceptions *)

Inductive Exn : Type :=
| TypeError (msg : string)
| Error (msg : string).

Inductive Outcome (A : Type) : Type :=
| Returned (a : A)
| Thrown (e : Exn).
Arguments Returned {A} a.
Arguments Thrown {A} e.

Definition M (St A : Type) : Type := St * Env -> Outcome A * (St * Env).

Section Monad.
Context {St : Type}.

Definition ret {A} (a : A) : M St A := fun w => (Returned a, w).

Definition bind {A B} (m : M St A) (k : A -> M St B) : M St B :=
  fun w =>
    match m w with
    | (Returned a, w') => k a w'
    | (Thrown e, w') => (Thrown e, w')
    end.

Definition throw {A} (e : Exn) : M St A := fun w => (Thrown e, w).

(** [try { m } catch { h }] *)
Definition tryCatch {A} (m : M St A) (h : Exn -> M St A) : M St A :=
  fun w =>
    match m w with
    | (Returned a, w') => (Returned a, w')
    | (Thrown e, w') => h e w'
    end.

Definition getState : M St St := fun w => (Returned (fst w), w).

Definition modify (f : St -> St) : M St unit :=
  fun w => (Returned tt, (f (fst w), snd w)).

Definition when (b : bool) (m : M St unit) : M St unit :=
  if b then m else ret tt.

(** [parentPort?.postMessage(i)] *)
Definition post (i : Intent) : M St unit :=
  fun w => (Returned tt, (fst w, posted i (snd w))).

(** [setTimeout(cb, delay)]: a fresh handle. *)
Definition setTimeout (c : Callback) (delay : Z) : M St nat :=
  fun w =>
    let e := snd w in
    (Returned (next_timer e),
     (fst w, {| now := now e; next_timer := S (next_timer e);
                pending := pending e ++
                  [{| timer_id := next_timer e; due := now e + delay; cb := c |}];
                outbox := outbox e |})).

(** [clearTimeout(h)]: nothing happens for [undefined] or a timer that
    already ran. *)
Definition clearTimeout (h : option nat) : M St unit :=
  fun w =>
    let e := snd w in
    match h with
    | None => (Returned tt, w)
    | Some i =>
        (Returned tt,
         (fst w, {| now := now e; next_timer := next_timer e;
                    pending := List.filter (fun t => negb (Nat.eqb (timer_id t) i)) (pending e);
                    outbox := outbox e |}))
    end.

End Monad.

Declare Scope handler_scope.
Delimit Scope handler_scope with handler.
Notation "x <- c1 ;; c2" := (bind c1 (fun x => c2))
  (at level 100, c1 at next level, c2 at level 200, right associativity)
  : handler_scope.
Notation "c1 ;; c2" := (bind c1 (fun _ => c2))
  (at level 100, c2 at level 200, right associativity) : handler_scope.

(** Messages handled one after the other; an exception that leaves a
    handler ends the run. *)
Fixpoint deliverAll {St} (onMessage : Message -> M St unit) (ms : list Message)
  : M St unit :=
  match ms with
  | [] => ret tt
  | m :: rest => (onMessage m;; deliverAll onMessage rest)%handler
  end.

(** The timer the event loop runs next: the earliest due, the first
    created among equals. *)
Fixpoint nextDue (ts : list Timer) : option Timer :=
  match ts with
  | [] => None
  | t :: ts' =>
      match nextDue ts' with
      | Some u => if (due u <? due t)%Z then Some u else Some t
      | None => Some t
      end
  end.

(** The event loop takes the next timer off the list and moves the clock to
    its due time (the clock never goes back). *)
Definition popTimer (e : Env) : option (Timer * Env) :=
  match nextDue (pending e) with
  | None => None
  | Some t =>
      Some (t, {| now := Z.max (now e) (due t);
                  next_timer := next_timer e;
                  pending := List.filter (fun u => negb (Nat.eqb (timer_id u) (timer_id t))) (pending e);
                  outbox := outbox e |})
  end.

(** The clock moves on while nothing runs. *)
Definition elapse (ms : Z) (e : Env) : Env :=
  {| now := now e + ms; next_timer := next_timer e;
     pending := pending e; outbox := outbox e |}.

(** The timers scheduled with a given closure. *)
Definition scheduled (c : Callback) (e : Env) : list Timer :=
  List.filter (fun t => Callback_eqb (cb t) c) (pending e).

End Host.
Export Host.

(** ** Text shared by the two ESP drivers

    src/esp-pwm-driver/index.ts and its pin/neopixel sibling
    (src/unnamed/part_001) declare the same module-level variables and have
    the same text for the searching phase and for the body of the
    temperature and humidity branches. *)

Module Esp.
Local Open Scope handler_scope.

Section Shared.
Context `{JsRuntime}.

(** The module-level variables. *)
Record State : Type := {
  searching : bool;
  deviceStatus : string;
  device : DeviceDocument;
  setOffineTimeout : option nat;
  requestStatusTimeout : option nat;
  addFeatureProcess : list string;
  featureValue : list (string * jsval)
}.

Definition requestStatusTimeoutTime : Z := 3 * 60 * 1000.
Definition setOffineTimeoutTime : Z := 5 * 60 * 1000.

(** The module as loaded, once the host has supplied the device. *)
Definition loaded (d : DeviceDocument) : State :=
  {| searching := true; deviceStatus := EmptyString; device := d;
     setOffineTimeout := None; requestStatusTimeout := None;
     addFeatureProcess := []; featureValue := [] |}.

Definition set_searching (b : bool) (s : State) : State :=
  {| searching := b; deviceStatus := deviceStatus s; device := device s;
     setOffineTimeout := setOffineTimeout s;
     requestStatusTimeout := requestStatusTimeout s;
     addFeatureProcess := addFeatureProcess s; featureValue := featureValue s |}.

Definition set_deviceStatus (x : string) (s : State) : State :=
  {| searching := searching s; deviceStatus := x; device := device s;
     setOffineTimeout := setOffineTimeout s;
     requestStatusTimeout := requestStatusTimeout s;
     addFeatureProcess := addFeatureProcess s; featureValue := featureValue s |}.

Definition set_device (d : DeviceDocument) (s : State) : State :=
  {| searching := searching s; deviceStatus := deviceStatus s; device := d;
     setOffineTimeout := setOffineTimeout s;
     requestStatusTimeout := requestStatusTimeout s;
     addFeatureProcess := addFeatureProcess s; featureValue := featureValue s |}.

Definition set_setOffineTimeout (h : option nat) (s : State) : State :=
  {| searching := searching s; deviceStatus := deviceStatus s; device := device s;
     setOffineTimeout := h;
     requestStatusTimeout := requestStatusTimeout s;
     addFeatureProcess := addFeatureProcess s; featureValue := featureValue s |}.

Definition set_requestStatusTimeout (h : option nat) (s : State) : State :=
  {| searching := searching s; deviceStatus := deviceStatus s; device := device s;
     setOffineTimeout := setOffineTimeout s;
     requestStatusTimeout := h;
     addFeatureProcess := addFeatureProcess s; featureValue := featureValue s |}.

Definition set_addFeatureProcess (l : list string) (s : State) : State :=
  {| searching := searching s; deviceStatus := deviceStatus s; device := device s;
     setOffineTimeout := setOffineTimeout s;
     requestStatusTimeout := requestStatusTimeout s;
     addFeatureProcess := l; featureValue := featureValue s |}.

Definition set_featureValue (m : list (string * jsval)) (s : State) : State :=
  {| searching := searching s; deviceStatus := deviceStatus s; device := device s;
     setOffineTimeout := setOffineTimeout s;
     requestStatusTimeout := requestStatusTimeout s;
     addFeatureProcess := addFeatureProcess s; featureValue := m |}.

(** [`/device/${device._id}/<suffix>`] *)
Definition deviceTopic (d : DeviceDocument) (suffix : string) : string :=
  "/device/" +:+ dev_id d +:+ "/" +:+ suffix.

Definition initSearching (d : DeviceDocument) : M State unit :=
  post (SetData None (Some "searching") []);;
  when (match conf d with
        | None => true
        | Some c =>
            match topics c with
            | None => true
            | Some ts => negb (includes ts "/newdevice/#")
            end
        end)
       (post (EditDevice
                {| upd_conf := Some {| cu_topics := ["/newdevice/#"; deviceTopic d "#"];
                                       cu_searching := true; cu_extra := [] |};
                   upd_features := None; upd_meta := [] |}
                false)).

(** *** Searching *)

Definition handleNewDeviceMessage (message : string) (d : DeviceDocument) : M State unit :=
  when (negb (String.eqb message EmptyString))
    match jsonTempID message with
    | Some (Some tempID) =>
        post (PublishMessage ("/newdevice/" +:+ tempID) (PText (dev_id d)))
    | _ => ret tt
    end.

Definition pwmVerify : string := "^(?:25[0-5]|2[0-4][0-9]|[01]?[0-9][0-9]?)$".

Definition channelFeature (n : string) : Feature :=
  {| _id := None; name := "Channel " +:+ n; category := action;
     verifyvalue := pwmVerify; types := ["channel" +:+ n; "8bit"; "pwm"];
     unit_ := Some EmptyString; icon := Some "mdi-pulse"; type_ := None |}.

Definition handleRegisteredDeviceMessage (message : string) (d : DeviceDocument)
  : M State unit :=
  when (negb (String.eqb message EmptyString))
    (let tempExists := featureExists (features d) "temperature" in
     let pwmExists := featureExists (features d) "pwm" in
     let anyFeatureMissing := negb pwmExists in
     post (EditDevice
             {| upd_conf := Some {| cu_topics := [deviceTopic d "#"];
                                    cu_searching := false;
                                    cu_extra := [("fadetime", JNum 500%float)] |};
                upd_features :=
                  if anyFeatureMissing
                  then Some [channelFeature "1"; channelFeature "2"; channelFeature "3"]
                  else None;
                upd_meta := [] |}
             false)).

(** *** Registered device: transport messages *)

Definition temperatureFeature : Feature :=
  {| _id := None; name := "Temperature"; category := sensor;
     verifyvalue := "^-?(30(.00?)?|100(.00?)?|([0-9]|[1-9][0-9])(.d{2})?)$";
     types := ["temperature"]; unit_ := Some "°C";
     icon := Some "eva-thermometer"; type_ := None |}.

Definition humidityFeature : Feature :=
  {| _id := None; name := "Humidity"; category := sensor;
     verifyvalue := "^(100(.0{1,2})?|[0-9]{1,2}(.[0-9]{1,2})?)$";
     types := ["humidity"]; unit_ := Some "%";
     icon := Some "sym_o_humidity_percentage"; type_ := None |}.

(** [oldTempValue !== undefined ? Math.abs(oldTempValue - temp) : Infinity] *)
Definition readingDelta (oldTempValue : jsval) (temp : float) : float :=
  if negb (strictEq oldTempValue JUndefined)
  then PrimFloat.abs (PrimFloat.sub (toNumber oldTempValue) temp)
  else infinity.

(** The body shared by the temperature and the humidity branch; they differ
    in the type tag, the feature that is added when the tag is unknown, and
    the significance threshold. *)
Definition handleReading (tag : string) (template : Feature) (threshold : float)
    (message : string) : M State unit :=
  when (negb (String.eqb message EmptyString) && negb (isNaN (parseFloat message)))
    (let temp := parseFloat message in
     s <- getState;;
     let feature_id := featureIdOf (device s) tag in
     when (negb (truthyId feature_id) && negb (includes (addFeatureProcess s) tag))
       (modify (set_addFeatureProcess (addFeatureProcess s ++ [tag]));;
        modify (fun s => set_device (withFeatures (device s)
                                       (features (device s) ++ [template])) s);;
        s' <- getState;;
        post (EditDevice {| upd_conf := None;
                            upd_features := Some (features (device s'));
                            upd_meta := [] |} true);;
        _ <- setTimeout (RestartCb (dev_id (device s'))) 1500;;
        ret tt);;
     match feature_id with
     | Some fid =>
         when (truthyId feature_id)
           (s <- getState;;
            let oldTempValue := Map_get (featureValue s) fid in
            let tempDelta := readingDelta oldTempValue temp in
            modify (fun s => set_featureValue (Map_set (featureValue s) fid (JNum temp)) s);;
            post (SetData (Some (PrimFloat.ltb threshold tempDelta)) None
                          [(fid, JNum temp)]))
     | None => ret tt
     end).

(** *** Registered device: state updates from the host *)

(** [str.match(/channel(\d+)/)]: the first capture of the leftmost match. *)
Fixpoint matchChannel (str : string) : option string :=
  let here :=
    match dropPrefix "channel" str with
    | Some r =>
        match takeDigits r with
        | EmptyString => None
        | ds => Some ds
        end
    | None => None
    end in
  match here with
  | Some ds => Some ds
  | None =>
      match str with
      | String _ r => matchChannel r
      | EmptyString => None
      end
  end.

Definition extractNumberFromArray (array : list string) : list float :=
  flat_map (fun str =>
              match matchChannel str with
              | Some ds => [parseIntStr ds]
              | None => []
              end) array.

(** [typeof value === "boolean" || value === "true" || value === "false"] *)
Definition booleanLike (value : jsval) : bool :=
  match value with
  | JBool _ => true
  | JStr s => String.eqb s "true" || String.eqb s "false"
  | _ => false
  end.

(** [value === true || value === "true"] *)
Definition isTrue (value : jsval) : bool :=
  match value with
  | JBool b => b
  | JStr s => String.eqb s "true"
  | _ => false
  end.

(** *** The liveness timers *)

Definition isNone {A} (o : option A) : bool :=
  match o with
  | None => true
  | Some _ => false
  end.

End Shared.
End Esp.

(** ** The esp-pwm driver (src/esp-pwm-driver/index.ts) *)

Module EspPwm.
Import Esp.
Local Open Scope handler_scope.

Section Driver.
Context `{JsRuntime}.

Definition handleInitMessage (d : DeviceDocument)
    (deviceValues : option (list (string * jsval))) : M State bool :=
  if match conf d with
     | None => true
     | Some c =>
         Nat.eqb (confKeys c) 0
         || negb (looseEqFalse (getProp (props c) "searching"))
     end
  then initSearching d;; ret true
  else ret false.

Definition sendDeviceSettings : M State unit :=
  s <- getState;;
  post (PublishMessage (deviceTopic (device s) "request") (PText "infos")).

(** *** Searching *)

Definition handleSearchingMqttMessage (topic message : string) (d : DeviceDocument)
  : M State unit :=
  if startsWith topic "/newdevice/esp_pwm" then handleNewDeviceMessage message d
  else if startsWith topic (deviceTopic d "registered")
       then handleRegisteredDeviceMessage message d
       else ret tt.

(** *** Registered device: transport messages

    The handlers are called with the module's own [device] object; the
    branches read it from the state, the topic tests from the argument. *)

Definition handleInfo (message : string) : M State unit :=
  match jsonInfo message with
  | None => ret tt
  | Some None => ret tt
  | Some (Some infoMessage) =>
      post (EditDevice
              {| upd_conf := None; upd_features := None;
                 upd_meta :=
                   [("mac", info_mac infoMessage);
                    ("ip", info_ip infoMessage);
                    ("firmwareVersion", info_firmware infoMessage);
                    ("deviceModel",
                      if truthy (info_model infoMessage) then info_model infoMessage
                      else JStr "NO MODEL");
                    ("chipID", info_chipID infoMessage)] |}
              true);;
      s <- getState;;
      when (negb (String.eqb (deviceStatus s) "online"))
        (post (PublishMessage (deviceTopic (device s) "request") (PText "status")))
  end.

Definition handleStatus (message : string) : M State unit :=
  s <- getState;;
  when (negb (String.eqb (deviceStatus s) message) && String.eqb message "online")
    sendDeviceSettings;;
  modify (set_deviceStatus (if String.eqb message EmptyString then "error" else message));;
  s <- getState;;
  post (SetData None (Some (deviceStatus s)) []).

Definition handleMqttMessage (topic message : string) (d : DeviceDocument)
  : M State unit :=
  if startsWith topic (deviceTopic d "temperature")
  then handleReading "temperature" temperatureFeature 0.45%float message
  else if startsWith topic (deviceTopic d "humidity")
  then handleReading "humidity" humidityFeature 0.65%float message
  else if startsWith topic (deviceTopic d "info")
  then handleInfo message
  else if startsWith topic (deviceTopic d "status")
  then handleStatus message
  else ret tt.

(** *** Registered device: state updates from the host *)

Definition getPWMFadeTime (d : DeviceDocument) (channelNumber : float) : M State jsval :=
  let defaultFadeTime :=
    let v := confProp d "fadetime" in
    if isNullish v then JNum 500%float else v in
  let propertyName := "fade_channel_" +:+ numberToString channelNumber in
  match conf d with
  | None => throw (TypeError "Cannot use 'in' operator to search for a key in undefined")
  | Some c =>
      match props c !! propertyName with
      | Some v => ret v
      | None => ret defaultFadeTime
      end
  end.

(** One turn of the loop over [Object.entries(redisData.feature)]. *)
Definition redisEntry (d : DeviceDocument) (id : string) (value : jsval) : M State unit :=
  match getFeatureByTypeOrNameOrId d id with
  | None => ret tt
  | Some feature =>
      match extractNumberFromArray (types feature) with
      | [] => ret tt
      | pwm_number :: _ =>
          if truthy (JNum pwm_number) then
            let publish (pwm_value : float) (fade_time : jsval) :=
              post (PublishMessage
                      (deviceTopic d "pwm/" +:+ numberToString pwm_number)
                      (PObject [("value", JNum pwm_value); ("fade", fade_time)])) in
            if booleanLike value then
              publish (if isTrue value then 255%float else 0%float) (JNum 0%float)
            else
              let pwm_value := PrimFloat.mul 2.5%float (parseInt value) in
              if isNaN pwm_value then ret tt
              else (fade_time <- getPWMFadeTime d pwm_number;;
                    publish pwm_value fade_time)
          else ret tt
      end
  end.

Fixpoint redisLoop (d : DeviceDocument) (entries : list (string * jsval)) : M State unit :=
  match entries with
  | [] => ret tt
  | (id, value) :: rest => redisEntry d id value;; redisLoop d rest
  end.

Definition handleRedisMessage (feature : option (list (string * jsval)))
    (d : DeviceDocument) : M State unit :=
  match feature with
  | Some entries => redisLoop d entries
  | None => ret tt
  end.

(** *** The liveness timers

    A variable that holds a timer keeps its handle when the timer has run:
    nothing resets it but a clearing call. *)

Definition offlineTimeoutStart (clear : bool) : M State unit :=
  when clear
    (s <- getState;;
     clearTimeout (setOffineTimeout s);;
     modify (set_setOffineTimeout None);;
     clearTimeout (requestStatusTimeout s);;
     modify (set_requestStatusTimeout None));;
  s <- getState;;
  when (isNone (requestStatusTimeout s))
    (h <- setTimeout RequestStatusCb requestStatusTimeoutTime;;
     modify (set_requestStatusTimeout (Some h)));;
  s <- getState;;
  when (isNone (setOffineTimeout s))
    (h <- setTimeout SetOfflineCb setOffineTimeoutTime;;
     modify (set_setOffineTimeout (Some h))).

(** The bodies of the closures handed to [setTimeout]. *)
Definition runCallback (c : Callback) : M State unit :=
  match c with
  | RequestStatusCb =>
      s <- getState;;
      post (PublishMessage (deviceTopic (device s) "request") (PText "status"));;
      offlineTimeoutStart false
  | SetOfflineCb =>
      post (SetData None (Some "offline") []);;
      offlineTimeoutStart false
  | RestartCb deviceId =>
      post (PublishMessage ("/device/" +:+ deviceId +:+ "/request") (PText "restart"));;
      post RestartDeviceDriver
  end.

(** *** The main process: [parentPort.on("message", ...)] *)

Definition onMessage (message : Message) : M State unit :=
  match message with
  | Init d values =>
      modify (set_device d);;
      b <- handleInitMessage d values;;
      modify (set_searching b)
  | _ =>
      s <- getState;;
      if searching s then
        match message with
        | Mqtt topic payload => handleSearchingMqttMessage topic payload (device s)
        | _ => ret tt
        end
      else
        (match message with
         | Mqtt topic payload =>
             handleMqttMessage topic payload (device s);;
             offlineTimeoutStart true
         | _ => ret tt
         end);;
        (match message with
         | Redis feature =>
             s <- getState;;
             handleRedisMessage feature (device s)
         | _ => ret tt
         end);;
        offlineTimeoutStart false
  end.

(** The event loop runs the next timer, if one is scheduled. *)
Definition fireNext (w : State * Env) : option (Outcome unit * (State * Env)) :=
  match popTimer (snd w) with
  | None => None
  | Some (t, e) => Some (runCallback (cb t) (fst w, e))
  end.

End Driver.
End EspPwm.

(** ** The pin/neopixel ESP driver (src/unnamed/part_001) *)

Module EspPin.
Import Esp.
Local Open Scope handler_scope.

Section Driver.
Context `{JsRuntime}.

(** The first loop of the [else] branch of [handleInitMessage]:
    [featureValue.set(featureKey, deviceValues?.feature?.[featureKey])]. *)
Definition loadValues (values : list (string * jsval)) (m : list (string * jsval))
  : list (string * jsval) :=
  fold_left (fun m kv => Map_set m (fst kv) (snd kv)) values m.

(** The second loop: every feature without a value gets [undefined].  The
    features the host supplies at initialisation carry an identifier; one
    without is passed over here. *)
Definition fillMissing (fs : list Feature) (m : list (string * jsval))
  : list (string * jsval) :=
  fold_left (fun m feature =>
               match _id feature with
               | Some i => if Map_has m i then m else Map_set m i JUndefined
               | None => m
               end) fs m.

Definition handleInitMessage (d : DeviceDocument)
    (deviceValues : option (list (string * jsval))) : M State bool :=
  if match conf d with
     | None => true
     | Some c =>
         Nat.eqb (confKeys c) 0
         || negb (looseEqFalse (getProp (props c) "searching"))
     end
  then initSearching d;; ret true
  else
    modify (fun s => set_featureValue
                       (loadValues (default [] deviceValues) (featureValue s)) s);;
    modify (fun s => set_featureValue (fillMissing (features d) (featureValue s)) s);;
    ret false.

(** *** Colours *)

(** [hex.replace(/(.)/g, "$1$1")] *)
Fixpoint doubleChars (s : string) : string :=
  match s with
  | EmptyString => EmptyString
  | String c r =>
      if isLineTerminator c then String c (doubleChars r)
      else String c (String c (doubleChars r))
  end.

(** [hex.replace(/^#?/, "")] *)
Definition stripHash (s : string) : string :=
  match s with
  | String c r => if Ascii.eqb c "#"%char then r else s
  | EmptyString => s
  end.

(** [hex.slice(a, b)] for [0 <= a <= b]. *)
Definition slice (s : string) (a b : nat) : string :=
  String.substring a (b - a) s.

(** [hexToRgb]: the three components, or the exception it raises.  A value
    that is not a string has no [replace] method.  Lengths count bytes,
    which is the engine's length on ASCII text. *)
Definition hexToRgb (hex : jsval) : M State (float * float * float) :=
  match hex with
  | JStr s =>
      let hex := stripHash s in
      let hex := if (String.length hex =? 3)%nat then doubleChars hex else hex in
      if negb (String.length hex =? 6)%nat
      then throw (Error "Invalid hex color string")
      else
        let r := parseIntHex (slice hex 0 2) in
        let g := parseIntHex (slice hex 2 4) in
        let b := parseIntHex (slice hex 4 6) in
        ret (r, g, b)
  | _ => throw (TypeError "hex.replace is not a function")
  end.

Definition rgbFields (c : float * float * float) : list (string * jsval) :=
  let '(r, g, b) := c in [("r", JNum r); ("g", JNum g); ("b", JNum b)].

(** *** Pins *)

(** [types.find((type) => type.startsWith(p))?.replace(p, "")] *)
Definition findSuffix (p : string) (ts : list string) : option string :=
  match List.find (fun type => startsWith type p) ts with
  | Some type => dropPrefix p type
  | None => None
  end.

Definition getPWMFadeTime (d : DeviceDocument) (channelNumber : string) : M State jsval :=
  let defaultFadeTime :=
    let v := confProp d "fadetime" in
    if isNullish v then JNum 500%float else v in
  let propertyName := "fade_channel_" +:+ channelNumber in
  match conf d with
  | None => throw (TypeError "Cannot use 'in' operator to search for a key in undefined")
  | Some c =>
      match props c !! propertyName with
      | Some v => ret v
      | None => ret defaultFadeTime
      end
  end.

(** The PWM command for a pin; [false] is returned when the value is not a
    number and the loop goes on with the next entry ([continue]). *)
Definition publishPwm (d : DeviceDocument) (pin : string) (value : jsval) : M State bool :=
  let publish (pwm_value : float) (fade_time : jsval) :=
    post (PublishMessage (deviceTopic d "pwm/" +:+ pin)
            (PObject [("value", JNum pwm_value); ("fade", fade_time)])) in
  if booleanLike value then
    publish (if isTrue value then 255%float else 0%float) (JNum 0%float);; ret true
  else
    let pwm_value := PrimFloat.mul 2.5%float (parseInt value) in
    if isNaN pwm_value then ret false
    else (fade_time <- getPWMFadeTime d pin;;
          publish pwm_value fade_time;; ret true).

Definition isNeopixel (feature : Feature) : bool :=
  includes (types feature) "color"
  && existsb (fun type => startsWith type "neopixel:" || String.eqb type "neopixel")
             (types feature).

(** The colour command of a neopixel feature. *)
Definition publishColor (d : DeviceDocument) (feature : Feature) (value : jsval)
  : M State unit :=
  match findSuffix "neopixel:" (types feature) with
  | Some pixel =>
      if negb (String.eqb pixel EmptyString) then
        c <- hexToRgb value;;
        post (PublishMessage (deviceTopic d "pixel/" +:+ pixel) (PObject (rgbFields c)))
      else
        c <- hexToRgb value;;
        post (PublishMessage (deviceTopic d "rgb")
                (PObject (rgbFields c ++ [("fade", JNum 1000%float)])))
  | None =>
      c <- hexToRgb value;;
      post (PublishMessage (deviceTopic d "rgb")
              (PObject (rgbFields c ++ [("fade", JNum 1000%float)])))
  end.

Definition publishBrightness (d : DeviceDocument) (value : jsval) : M State unit :=
  post (PublishMessage (deviceTopic d "config/neopixel")
          (PObject [("brightness", value)])).

(** One turn of the loop of [sendDeviceSettings] over [featureValue]. *)
Definition settingsEntry (d : DeviceDocument) (key : string) (value : jsval) : M State unit :=
  match getFeatureByTypeOrNameOrId d key with
  | None => ret tt
  | Some feature =>
      let pin := findSuffix "pin:" (types feature) in
      when (truthyId pin)
        (when (includes (types feature) "state")
           (post (PublishMessage (deviceTopic d "config/pin")
                    (PObject [(default EmptyString pin, JStr "switch")])));;
         when (includes (types feature) "pwm")
           (post (PublishMessage (deviceTopic d "config/pin")
                    (PObject [(default EmptyString pin, JStr "channel")]))));;
      if negb (Category_eqb (category feature) action) then ret tt
      else
        when (isNeopixel feature) (publishColor d feature value);;
        go_on <- (if truthyId pin
                  then publishPwm d (default EmptyString pin) value
                  else ret true);;
        when (go_on && includes (types feature) "neopixel_brightness")
          (publishBrightness d value)
  end.

Fixpoint settingsLoop (d : DeviceDocument) (entries : list (string * jsval)) : M State unit :=
  match entries with
  | [] => ret tt
  | (key, value) :: rest => settingsEntry d key value;; settingsLoop d rest
  end.

Definition sendDeviceSettings : M State unit :=
  s <- getState;;
  let d := device s in
  match conf d with
  | None => throw (TypeError "Cannot read properties of undefined (reading 'ledConfig')")
  | Some c =>
      when (negb (strictEq (getProp (props c) "ledConfig") JUndefined))
        (post (PublishMessage (deviceTopic d "config/led")
                 (PValue (getProp (props c) "ledConfig"))));;
      when (negb (strictEq (getProp (props c) "neopixelConfig") JUndefined))
        (post (PublishMessage (deviceTopic d "config/neopixel")
                 (PValue (getProp (props c) "neopixelConfig"))));;
      settingsLoop d (featureValue s);;
      post (PublishMessage (deviceTopic d "request") (PText "infos"))
  end.

(** *** The liveness timers *)

Definition offlineTimeoutStart (clear : bool) : M State unit :=
  when clear
    (s <- getState;;
     clearTimeout (setOffineTimeout s);;
     modify (set_setOffineTimeout None);;
     clearTimeout (requestStatusTimeout s);;
     modify (set_requestStatusTimeout None));;
  s <- getState;;
  when (isNone (requestStatusTimeout s))
    (h <- setTimeout RequestStatusCb requestStatusTimeoutTime;;
     modify (set_requestStatusTimeout (Some h)));;
  s <- getState;;
  when (isNone (setOffineTimeout s))
    (h <- setTimeout SetOfflineCb setOffineTimeoutTime;;
     modify (set_setOffineTimeout (Some h))).

(** The bodies of the closures handed to [setTimeout]; the offline closure
    of this driver rearms with clearing. *)
Definition runCallback (c : Callback) : M State unit :=
  match c with
  | RequestStatusCb =>
      s <- getState;;
      post (PublishMessage (deviceTopic (device s) "request") (PText "status"));;
      offlineTimeoutStart false
  | SetOfflineCb =>
      post (SetData None (Some "offline") []);;
      offlineTimeoutStart true
  | RestartCb deviceId =>
      post (PublishMessage ("/device/" +:+ deviceId +:+ "/request") (PText "restart"));;
      post RestartDeviceDriver
  end.

(** *** Searching *)

Definition handleSearchingMqttMessage (topic message : string) (d : DeviceDocument)
  : M State unit :=
  (if startsWith topic "/newdevice/esp_pwm" then handleNewDeviceMessage message d
   else if startsWith topic (deviceTopic d "registered")
        then handleRegisteredDeviceMessage message d
        else ret tt);;
  offlineTimeoutStart true.

(** *** Registered device: transport messages *)

(** The temperature template as this file has it. *)
Definition temperatureFeature : Feature :=
  {| _id := None; name := "Temperature"; category := sensor;
     verifyvalue := "^-?(30(.00?)?|100(.00?)?|([0-9]|[1-9][0-9])(.d{2})?)$";
     types := ["temperature"]; unit_ := Some "Â°C";
     icon := Some "eva-thermometer"; type_ := None |}.

(** The capture of [/switch/(\d+)] at its last position inside a run of
    non-blank characters. *)
Fixpoint lastSwitch (r : string) : option string :=
  match r with
  | EmptyString => None
  | String c r' =>
      if isSpace c then None
      else
        match lastSwitch r' with
        | Some ds => Some ds
        | None =>
            match dropPrefix "/switch/" r with
            | Some t =>
                match takeDigits t with
                | EmptyString => None
                | ds => Some ds
                end
            | None => None
            end
        end
  end.

(** [topic.match(/\/device\/\S+\/switch\/(\d+)/)]: the capture of the
    leftmost match, [\S+] taking as much as it can.  Blank characters are
    the ASCII ones. *)
Fixpoint matchSwitch (topic : string) : option string :=
  let here :=
    match dropPrefix "/device/" topic with
    | Some (String c r) => if isSpace c then None else lastSwitch r
    | _ => None
    end in
  match here with
  | Some ds => Some ds
  | None =>
      match topic with
      | String _ r => matchSwitch r
      | EmptyString => None
      end
  end.

Definition handleSwitch (topic message : string) : M State unit :=
  match matchSwitch topic with
  | None => ret tt
  | Some ds =>
      let pin := parseIntStr ds in
      let messageValue := String.eqb message "true" in
      s <- getState;;
      let feature_id := featureIdOf (device s) ("pin:" +:+ numberToString pin) in
      match feature_id with
      | Some fid =>
          when (truthyId feature_id)
            (modify (fun s => set_featureValue
                                (Map_set (featureValue s) fid (JBool messageValue)) s);;
             post (SetData None None [(fid, JBool messageValue)]))
      | None => ret tt
      end
  end.

Definition handleInfo (message : string) : M State unit :=
  match jsonInfo message with
  | None => ret tt
  | Some parsed =>
      offlineTimeoutStart true;;
      match parsed with
      | None => ret tt
      | Some infoMessage =>
          post (EditDevice
                  {| upd_conf := None; upd_features := None;
                     upd_meta :=
                       [("mac", info_mac infoMessage);
                        ("ip", info_ip infoMessage);
                        ("firmwareVersion", info_firmware infoMessage);
                        ("deviceModel",
                          if truthy (info_model infoMessage) then info_model infoMessage
                          else JStr "NO MODEL");
                        ("chipID", info_chipID infoMessage)] |}
                  true);;
          s <- getState;;
          when (negb (String.eqb (deviceStatus s) "online"))
            (post (PublishMessage (deviceTopic (device s) "request") (PText "status")))
      end
  end.

Definition handleStatus (message : string) : M State unit :=
  offlineTimeoutStart true;;
  s <- getState;;
  when (negb (String.eqb (deviceStatus s) message) && String.eqb message "online")
    sendDeviceSettings;;
  modify (set_deviceStatus (if String.eqb message EmptyString then "error" else message));;
  s <- getState;;
  post (SetData None (Some (deviceStatus s)) []).

Definition handleMqttMessage (topic message : string) (d : DeviceDocument)
  : M State unit :=
  if startsWith topic (deviceTopic d "temperature")
  then handleReading "temperature" temperatureFeature 0.1%float message
  else if startsWith topic (deviceTopic d "humidity")
  then handleReading "humidity" humidityFeature 0.25%float message
  else if startsWith topic (deviceTopic d "switch")
  then handleSwitch topic message
  else if startsWith topic (deviceTopic d "info")
  then handleInfo message
  else if startsWith topic (deviceTopic d "status")
  then handleStatus message
  else ret tt.

(** *** Registered device: state updates from the host *)

(** One turn of the loop over [Object.entries(redisData.feature)]. *)
Definition redisEntry (d : DeviceDocument) (id : string) (value : jsval) : M State unit :=
  match getFeatureByTypeOrNameOrId d id with
  | None => ret tt
  | Some feature =>
      if negb (Category_eqb (category feature) action) then ret tt
      else if includes (types feature) "pwm" then
        match findSuffix "pin:" (types feature) with
        | Some pin =>
            if negb (String.eqb pin EmptyString)
            then (_ <- publishPwm d pin value;; ret tt)
            else ret tt
        | None => ret tt
        end
      else if isNeopixel feature then publishColor d feature value
      else if includes (types feature) "neopixel_brightness"
      then publishBrightness d value
      else ret tt
  end.

Fixpoint redisLoop (d : DeviceDocument) (entries : list (string * jsval)) : M State unit :=
  match entries with
  | [] => ret tt
  | (id, value) :: rest => redisEntry d id value;; redisLoop d rest
  end.

Definition handleRedisMessage (feature : option (list (string * jsval)))
    (d : DeviceDocument) : M State unit :=
  match feature with
  | Some entries => redisLoop d entries
  | None => ret tt
  end.

(** *** The main process: [parentPort.on("message", ...)] *)

Definition onMessage (message : Message) : M State unit :=
  match message with
  | Init d values =>
      modify (set_device d);;
      b <- handleInitMessage d values;;
      modify (set_searching b);;
      offlineTimeoutStart true;;
      post (PublishMessage (deviceTopic d "request") (PText "status"))
  | Mqtt topic payload =>
      s <- getState;;
      if searching s then handleSearchingMqttMessage topic payload (device s)
      else handleMqttMessage topic payload (device s)
  | Redis feature =>
      s <- getState;;
      handleRedisMessage feature (device s)
  | Unknown _ => ret tt
  end.

(** The event loop runs the next timer, if one is scheduled. *)
Definition fireNext (w : State * Env) : option (Outcome unit * (State * Env)) :=
  match popTimer (snd w) with
  | None => None
  | Some (t, e) => Some (runCallback (cb t) (fst w, e))
  end.

End Driver.
End EspPin.

(** ** The shutter driver (src/unnamed/part_002): pairing *)

Module Shutter.
Local Open Scope handler_scope.

Section Driver.
Context {St : Type}.

Definition temperatureFeature : Feature :=
  {| _id := None; name := "Temperature"; category := sensor;
     verifyvalue := "^-?(30(.00?)?|100(.00?)?|([0-9]|[1-9][0-9])(.d{2})?)$";
     types := ["temperature"]; unit_ := Some "°C";
     icon := Some "eva-thermometer"; type_ := None |}.

Definition shutterYFeature : Feature :=
  {| _id := None; name := "ShutterY"; category := action;
     verifyvalue := "^(100|0|[1-9][0-9]?)$";
     types := ["percent"; "shutter"; "movement"; "shutterY"; "updown"];
     unit_ := None; icon := Some "sym_o_blinds"; type_ := Some "switch" |}.

Definition shutterTiltFeature : Feature :=
  {| _id := None; name := "ShutterTilt"; category := action;
     verifyvalue := "^(100|0|[1-9][0-9]?)$";
     types := ["percent"; "shutter"; "movement"; "shutterTilt"; "tilt"];
     unit_ := None; icon := Some "sym_o_filter_tilt_shift"; type_ := Some "switch" |}.

Definition handleRegisteredDeviceMessage (message : string) (d : DeviceDocument)
  : M St unit :=
  when (negb (String.eqb message EmptyString))
    (let tempExists := featureExists (features d) "temperature" in
     let shutterYExists := featureExists (features d) "shutterY" in
     let shutterTiltExists := featureExists (features d) "shutterTilt" in
     let anyFeatureMissing := negb (tempExists && shutterYExists && shutterTiltExists) in
     post (EditDevice
             {| upd_conf := Some {| cu_topics := ["/device/" +:+ dev_id d +:+ "/#"];
                                    cu_searching := false;
                                    cu_extra := [("shutterMovementTime", JNum 10000%float);
                                                 ("tiltMovementTime", JNum 2000%float)] |};
                upd_features :=
                  if anyFeatureMissing
                  then Some [temperatureFeature; shutterYFeature; shutterTiltFeature]
                  else None;
                upd_meta := [] |}
             false)).

End Driver.
End Shutter.

(** ** The zigbee driver (src/unnamed/part_000): state updates from the host *)

Module Zigbee.
Local Open Scope handler_scope.

Section Driver.
Context `{JsRuntime}.

(** The module-level variables the handler reads and writes. *)
Record State : Type := {
  device : DeviceDocument;
  featureValue : list (string * jsval)
}.

Definition set_featureValue (m : list (string * jsval)) (s : State) : State :=
  {| device := device s; featureValue := m |}.

(** [`zigbee2mqtt/${device?.conf?.friendly_name}/set`] *)
Definition setTopic (d : DeviceDocument) : string :=
  "zigbee2mqtt/" +:+ toString (confProp d "friendly_name") +:+ "/set".

(** [value ? "ON" : "OFF"] *)
Definition onOff (value : jsval) : jsval :=
  JStr (if truthy value then "ON" else "OFF").

(** [device.conf?.transition || 0] *)
Definition transition (d : DeviceDocument) : jsval :=
  let t := confProp d "transition" in
  if truthy t then t else JNum 0%float.

(** [v != b] for a boolean [b]. *)
Definition looseNeqBool (v : jsval) (b : bool) : bool :=
  match v with
  | JUndefined | JNull => true
  | _ => negb (PrimFloat.eqb (toNumber v) (if b then 1%float else 0%float))
  end.

(** The commands for one changed feature of an initialised device: the
    [switch (device.conf?.type)]. *)
Definition translate (d : DeviceDocument) (feature : Feature) (value : jsval)
  : M State unit :=
  let type := confProp d "type" in
  if strictEq type (JStr "E2204") then
    when (includes (types feature) "switch")
      (post (PublishMessage (setTopic d) (PObject [("state", onOff value)])))
  else if strictEq type (JStr "LED1835C6") then
    if includes (types feature) "state" then
      post (PublishMessage (setTopic d)
              (PObject [("state", onOff value);
                        ("transition",
                          if truthy (confProp d "state_skip_transition")
                          then JNum 0%float else transition d)]))
    else if includes (types feature) "brightness" then
      let state_feature_id := featureIdOf d "state" in
      post (PublishMessage (setTopic d)
              (PObject [("brightness", value); ("transition", transition d)]));;
      s <- getState;;
      match state_feature_id with
      | Some sid =>
          when (truthyId state_feature_id
                && looseNeqBool (Map_get (featureValue s) sid) (truthy value))
            (post (SetData None None [(sid, JBool (truthy value))]))
      | None => ret tt
      end
    else if includes (types feature) "color_temp" then
      let mapped_value :=
        PrimFloat.add
          (PrimFloat.mul (PrimFloat.div (toNumber value) 255%float)
                         (PrimFloat.sub 454%float 250%float))
          250%float in
      post (PublishMessage (setTopic d)
              (PObject [("color_temp", JNum mapped_value);
                        ("transition", transition d)]))
    else ret tt
  else ret tt.

(** The loop over [Object.entries(redisData.feature)].  An entry whose
    value is the cached one ends the handler ([return]); the result tells
    whether the loop ran to its end ([true]) or was left that way
    ([false]). *)
Fixpoint redisLoop (d : DeviceDocument) (entries : list (string * jsval)) : M State bool :=
  match entries with
  | [] => ret true
  | (id, value) :: rest =>
      s <- getState;;
      let oldValue := Map_get (featureValue s) id in
      if negb (isNullish oldValue) && strictEq oldValue value then ret false
      else
        modify (fun s => set_featureValue (Map_set (featureValue s) id value) s);;
        match getFeatureByTypeOrNameOrId d id with
        | Some feature =>
            if negb (Category_eqb (category feature) action)
               || negb (truthy (confProp d "type"))
            then ret tt
            else translate d feature value
        | None => ret tt
        end;;
        redisLoop d rest
  end.

Definition handleRedisMessage (feature : option (list (string * jsval)))
    (d : DeviceDocument) : M State unit :=
  match feature with
  | Some entries => _ <- redisLoop d entries;; ret tt
  | None => ret tt
  end.

End Driver.
End Zigbee.

(** ** The FritzBox add-on (src/unnamed/part_004): login *)

Module Fritzbox.

(** [let sid; let lastLoginTry; let loginTryCount; let lastLoginSuccsess]:
    declared without a value.  Times are [Date.now()] milliseconds. *)
Record State : Type := {
  sid : option string;
  lastLoginTry : option Z;
  loginTryCount : jsval;
  lastLoginSuccsess : option Z
}.

(** The variables as the module leaves them when it is loaded. *)
Definition loaded : State :=
  {| sid := None; lastLoginTry := None; loginTryCount := JUndefined;
     lastLoginSuccsess := None |}.

(** What the two requests to [login_sid.lua] answer ([response.text()]). *)
Record Network : Type := {
  data : string;
  dataWithCredentials : string
}.

(** How a call ends: the promise resolves, or the process exits. *)
Inductive Result : Type :=
| Resolved (b : bool)
| Exited.

(** What a call did on the network. *)
Inductive Attempt : Type :=
| NoRequest
| Requested.

(** [(.*?)] followed by [close]: the shortest run without a line
    terminator. *)
Fixpoint lazyUntil (close s : string) : option string :=
  match dropPrefix close s with
  | Some _ => Some EmptyString
  | None =>
      match s with
      | String c r =>
          if isLineTerminator c then None
          else match lazyUntil close r with
               | Some t => Some (String c t)
               | None => None
               end
      | EmptyString => None
      end
  end.

(** [s.match(/<open>(.*?)<close>/)?.[1]] *)
Fixpoint matchBetween (open close s : string) : option string :=
  let here :=
    match dropPrefix open s with
    | Some r => lazyUntil close r
    | None => None
    end in
  match here with
  | Some t => Some t
  | None =>
      match s with
      | String _ r => matchBetween open close r
      | EmptyString => None
      end
  end.

Definition maxLoginInterval : Z := 30 * 1000.

Definition zeroSid : string := "0000000000000000".

Section Login.
Context `{JsRuntime}.

(** [lastLoginTry && currentTime - lastLoginTry < maxLoginInterval] *)
Definition recentTry (s : State) (currentTime : Z) : bool :=
  match lastLoginTry s with
  | Some t => negb (t =? 0)%Z && (currentTime - t <? maxLoginInterval)%Z
  | None => false
  end.

(** [loginTryCount >= 20] *)
Definition ceilingReached (s : State) : bool :=
  PrimFloat.leb 20%float (toNumber (loginTryCount s)).

(** [getFritzBoxSID]: the result, whether a request went out, and the
    variables afterwards. *)
Definition getFritzBoxSID (currentTime : Z) (net : Network) (s : State)
  : Result * Attempt * State :=
  if recentTry s currentTime then (Resolved false, NoRequest, s)
  else if ceilingReached s then (Exited, NoRequest, s)
  else
    let s1 := {| sid := sid s; lastLoginTry := Some currentTime;
                 loginTryCount :=
                   JNum (PrimFloat.add (toNumber (loginTryCount s)) 1%float);
                 lastLoginSuccsess := lastLoginSuccsess s |} in
    if String.eqb (data net) EmptyString then (Resolved false, Requested, s1)
    else
      let tempSid := default EmptyString (matchBetween "<SID>" "</SID>" (data net)) in
      if String.eqb tempSid zeroSid then
        match matchBetween "<Challenge>" "</Challenge>" (data net) with
        | None | Some EmptyString => (Resolved false, Requested, s1)
        | Some (String _ _) =>
            let newSid :=
              match matchBetween "<SID>" "</SID>" (dataWithCredentials net) with
              | None | Some EmptyString => tempSid
              | Some x => x
              end in
            let s2 := {| sid := Some newSid; lastLoginTry := lastLoginTry s1;
                         loginTryCount := loginTryCount s1;
                         lastLoginSuccsess := lastLoginSuccsess s1 |} in
            if String.eqb newSid zeroSid then (Resolved false, Requested, s2)
            else
              (Resolved true, Requested,
               {| sid := sid s2; lastLoginTry := lastLoginTry s2;
                  loginTryCount := loginTryCount s2;
                  lastLoginSuccsess := Some currentTime |})
        end
      else (Resolved false, Requested, s1).

(** Calls one after the other, each with its time and what the network
    answers; the run stops when the process exits. *)
Fixpoint calls (cs : list (Z * Network)) (s : State) : list (Result * Attempt) * State :=
  match cs with
  | [] => ([], s)
  | (t, net) :: rest =>
      match getFritzBoxSID t net s with
      | (Exited, a, s') => ([(Exited, a)], s')
      | (r, a, s') =>
          let '(out, s'') := calls rest s' in ((r, a) :: out, s'')
      end
  end.

End Login.
End Fritzbox.

(** ** A reference runtime

    An instance of [JsRuntime] for evaluating the drivers on concrete
    inputs.  It agrees with the engine on the inputs the examples use:
    decimal literals with an optional sign and fraction and at most fifteen
    digits ([parseFloat], [parseInt], [Number]), pairs of hexadecimal digits
    ([parseInt(s, 16)]), whole numbers below [2^53] ([String]), and a
    [{ tempID: ... }] object with a plain string value.  No payload is read
    as a device-info object. *)

Module Reference.

Fixpoint digitsValue (s : string) (acc : Z) : Z :=
  match s with
  | EmptyString => acc
  | String c r => digitsValue r (10 * acc + (Z.of_nat (nat_of_ascii c) - 48))
  end.

(** A whole number below [2^53] as a float (exact). *)
Definition ofZ (z : Z) : float :=
  if (0 <=? z)%Z && (z <? 2 ^ 53)%Z then PrimFloat.of_uint63 (Uint63.of_Z z) else nan.

Definition signed (negative : bool) (x : float) : float :=
  if negative then PrimFloat.opp x else x.

(** Sign and the rest. *)
Definition splitSign (s : string) : bool * string :=
  match s with
  | String "-" r => (true, r)
  | String "+" r => (false, r)
  | _ => (false, s)
  end.

Fixpoint dropDigits (s : string) : string :=
  match s with
  | String c r => if isDigit c then dropDigits r else s
  | EmptyString => EmptyString
  end.

(** The decimal literal at the start of [s]: its value and what follows. *)
Definition decimalPrefix (s : string) : option (float * string) :=
  let '(negative, s1) := splitSign s in
  let int := takeDigits s1 in
  let rest := dropDigits s1 in
  let '(frac, rest') :=
    match rest with
    | String "." r => (takeDigits r, dropDigits r)
    | _ => (EmptyString, rest)
    end in
  let digits := int +:+ frac in
  if (String.length digits =? 0)%nat || (15 <? String.length digits)%nat then None
  else
    Some (signed negative
            (PrimFloat.div (ofZ (digitsValue digits 0))
                           (ofZ (10 ^ Z.of_nat (String.length frac)))),
          rest').

Definition refParseFloat (s : string) : float :=
  match decimalPrefix s with
  | Some (x, _) => x
  | None => nan
  end.

Definition refParseInt (s : string) : float :=
  let '(negative, s1) := splitSign s in
  let int := takeDigits s1 in
  if (String.length int =? 0)%nat || (15 <? String.length int)%nat then nan
  else signed negative (ofZ (digitsValue int 0)).

Definition hexDigit (c : ascii) : option Z :=
  let n := Z.of_nat (nat_of_ascii c) in
  if (48 <=? n)%Z && (n <=? 57)%Z then Some (n - 48)
  else if (97 <=? n)%Z && (n <=? 102)%Z then Some (n - 87)
  else if (65 <=? n)%Z && (n <=? 70)%Z then Some (n - 55)
  else None.

Fixpoint hexValue (s : string) (acc : option Z) : option Z :=
  match s with
  | EmptyString => acc
  | String c r =>
      match hexDigit c with
      | Some d => hexValue r (Some (16 * default 0 acc + d))
      | None => acc
      end
  end.

Definition refParseIntHex (s : string) : float :=
  match hexValue s None with
  | Some v => ofZ v
  | None => nan
  end.

Definition refStringToNumber (s : string) : float :=
  match s with
  | EmptyString => 0%float
  | _ =>
      match decimalPrefix s with
      | Some (x, EmptyString) => x
      | _ => nan
      end
  end.

(** The whole number a float holds, if it holds one. *)
Definition toZ (x : float) : option Z :=
  match FloatOps.Prim2SF x with
  | SpecFloat.S754_zero _ => Some 0
  | SpecFloat.S754_finite s m e =>
      let v := if (0 <=? e)%Z then Some (Z.pos m * 2 ^ e)
               else if (Z.pos m mod 2 ^ (- e) =? 0)%Z then Some (Z.pos m / 2 ^ (- e))
               else None in
      match v with
      | Some n => Some (if s then - n else n)
      | None => None
      end
  | _ => None
  end.

Definition refNumberToString (x : float) : string :=
  match toZ x with
  | Some n => pretty n
  | None => "NaN"
  end.

Definition quote : string := String (ascii_of_nat 34) EmptyString.

Fixpoint plainUntilQuote (s : string) : option (string * string) :=
  match s with
  | EmptyString => None
  | String c r =>
      if (nat_of_ascii c =? 34)%nat then Some (EmptyString, r)
      else if (nat_of_ascii c =? 92)%nat then None
      else match plainUntilQuote r with
           | Some (t, rest) => Some (String c t, rest)
           | None => None
           end
  end.

Definition refJsonTempID (s : string) : option (option string) :=
  match dropPrefix ("{" +:+ quote +:+ "tempID" +:+ quote +:+ ":" +:+ quote) s with
  | Some r =>
      match plainUntilQuote r with
      | Some (EmptyString, "}") => Some None
      | Some (t, "}") => Some (Some t)
      | _ => None
      end
  | None => None
  end.

#[export] Instance runtime : JsRuntime :=
  {| parseFloat := refParseFloat;
     parseIntStr := refParseInt;
     parseIntHex := refParseIntHex;
     stringToNumber := refStringToNumber;
     numberToString := refNumberToString;
     jsonTempID := refJsonTempID;
     jsonInfo := fun _ => None |}.

End Reference.

(** ** The shutter driver (src/unnamed/part_002): the registered device *)

Module ShutterDriver.
Local Open Scope handler_scope.

(** One value of [device_features]. *)
Record Entry : Type := {
  entry_id : option string;
  entry_value : jsval;
  entry_command : option string;
  entry_initCommand : option string
}.

(** The keys of [device_features], in the order of the object literal. *)
Inductive Key : Type := temperature | shutterY | shutterTilt.

Definition keyName (k : Key) : string :=
  match k with
  | temperature => "temperature"
  | shutterY => "shutterY"
  | shutterTilt => "shutterTilt"
  end.

Definition keys : list Key := [temperature; shutterY; shutterTilt].

Record DeviceFeatures : Type := {
  at_temperature : Entry;
  at_shutterY : Entry;
  at_shutterTilt : Entry
}.

Definition getEntry (fs : DeviceFeatures) (k : Key) : Entry :=
  match k with
  | temperature => at_temperature fs
  | shutterY => at_shutterY fs
  | shutterTilt => at_shutterTilt fs
  end.

Definition setEntry (k : Key) (en : Entry) (fs : DeviceFeatures) : DeviceFeatures :=
  match k with
  | temperature =>
      {| at_temperature := en; at_shutterY := at_shutterY fs;
         at_shutterTilt := at_shutterTilt fs |}
  | shutterY =>
      {| at_temperature := at_temperature fs; at_shutterY := en;
         at_shutterTilt := at_shutterTilt fs |}
  | shutterTilt =>
      {| at_temperature := at_temperature fs; at_shutterY := at_shutterY fs;
         at_shutterTilt := en |}
  end.

Definition withId (i : option string) (en : Entry) : Entry :=
  {| entry_id := i; entry_value := entry_value en;
     entry_command := entry_command en; entry_initCommand := entry_initCommand en |}.

Definition withValue (v : jsval) (en : Entry) : Entry :=
  {| entry_id := entry_id en; entry_value := v;
     entry_command := entry_command en; entry_initCommand := entry_initCommand en |}.

Record State : Type := {
  device_features : DeviceFeatures;
  searching : bool;
  deviceStatus : string;
  device : DeviceDocument;
  setOffineTimeout : option nat;
  requestStatusTimeout : option nat
}.

Definition requestStatusTimeoutTime : Z := 3 * 60 * 1000.
Definition setOffineTimeoutTime : Z := 5 * 60 * 1000.

(** The module as loaded, once the host has supplied the device. *)
Definition loaded (d : DeviceDocument) : State :=
  {| device_features :=
       {| at_temperature :=
            {| entry_id := Some EmptyString; entry_value := JNum 0%float;
               entry_command := None; entry_initCommand := None |};
          at_shutterY :=
            {| entry_id := Some EmptyString; entry_value := JNum 0%float;
               entry_command := Some "setShutterPositionPercentageTarget";
               entry_initCommand := Some "setShutterPositionPercentage" |};
          at_shutterTilt :=
            {| entry_id := Some EmptyString; entry_value := JNum 0%float;
               entry_command := Some "setTiltPercentageTarget";
               entry_initCommand := Some "setShutterPositionPercentage" |} |};
     searching := true; deviceStatus := EmptyString; device := d;
     setOffineTimeout := None; requestStatusTimeout := None |}.

Definition set_device_features (fs : DeviceFeatures) (s : State) : State :=
  {| device_features := fs; searching := searching s; deviceStatus := deviceStatus s;
     device := device s; setOffineTimeout := setOffineTimeout s;
     requestStatusTimeout := requestStatusTimeout s |}.

Definition set_searching (b : bool) (s : State) : State :=
  {| device_features := device_features s; searching := b;
     deviceStatus := deviceStatus s; device := device s;
     setOffineTimeout := setOffineTimeout s;
     requestStatusTimeout := requestStatusTimeout s |}.

Definition set_deviceStatus (x : string) (s : State) : State :=
  {| device_features := device_features s; searching := searching s;
     deviceStatus := x; device := device s;
     setOffineTimeout := setOffineTimeout s;
     requestStatusTimeout := requestStatusTimeout s |}.

Definition set_device (d : DeviceDocument) (s : State) : State :=
  {| device_features := device_features s; searching := searching s;
     deviceStatus := deviceStatus s; device := d;
     setOffineTimeout := setOffineTimeout s;
     requestStatusTimeout := requestStatusTimeout s |}.

Definition set_setOffineTimeout (h : option nat) (s : State) : State :=
  {| device_features := device_features s; searching := searching s;
     deviceStatus := deviceStatus s; device := device s;
     setOffineTimeout := h; requestStatusTimeout := requestStatusTimeout s |}.

Definition set_requestStatusTimeout (h : option nat) (s : State) : State :=
  {| device_features := device_features s; searching := searching s;
     deviceStatus := deviceStatus s; device := device s;
     setOffineTimeout := setOffineTimeout s; requestStatusTimeout := h |}.

(** [device_features[k].id = i] and [device_features[k].value = v]: the
    entries are shared objects, written in place. *)
Definition assignId (k : Key) (i : option string) (s : State) : State :=
  set_device_features
    (setEntry k (withId i (getEntry (device_features s) k)) (device_features s)) s.

Definition assignValue (k : Key) (v : jsval) (s : State) : State :=
  set_device_features
    (setEntry k (withValue v (getEntry (device_features s) k)) (device_features s)) s.

Section Driver.
Context `{JsRuntime}.

(** [`/device/${device._id.toString()}/<suffix>`] *)
Definition deviceTopic (d : DeviceDocument) (suffix : string) : string :=
  "/device/" +:+ dev_id d +:+ "/" +:+ suffix.

(** The entry [findEntryById] returns, named by its key, and the key
    [findKeyById] returns: the first in the order of the object whose [id]
    is the string looked for. *)
Definition findEntryById (fs : DeviceFeatures) (idToFind : string) : option Key :=
  List.find (fun k => match entry_id (getEntry fs k) with
                      | Some i => String.eqb i idToFind
                      | None => false
                      end) keys.

Definition findKeyById (fs : DeviceFeatures) (idToFind : string) : option string :=
  option_map keyName (findEntryById fs idToFind).

Definition initSearching (d : DeviceDocument) : M State unit :=
  post (SetData None (Some "searching") []);;
  when (match conf d with
        | None => true
        | Some c =>
            match topics c with
            | None => true
            | Some ts => negb (includes ts "/newdevice/#")
            end
        end)
       (post (EditDevice
                {| upd_conf := Some {| cu_topics := ["/newdevice/#"; deviceTopic d "#"];
                                       cu_searching := true; cu_extra := [] |};
                   upd_features := None; upd_meta := [] |}
                false)).

(** [findFeatureId]: the identifier of the first feature with the type, the
    empty string when there is none. *)
Definition findFeatureId (features : list Feature) (type : string) : option string :=
  match List.find (fun feature => includes (types feature) type) features with
  | Some feature => _id feature
  | None => Some EmptyString
  end.

(** A computed property key: [undefined] reads the key "undefined". *)
Definition keyOfId (i : option string) : string := default "undefined" i.

(** [deviceValues.feature[i]]: a snapshot without [feature] has nothing to
    index. *)
Definition snapshotValue (deviceValues : option (list (string * jsval)))
    (i : option string) : M State jsval :=
  match deviceValues with
  | Some feature => ret (Map_get feature (keyOfId i))
  | None => throw (TypeError "Cannot read properties of undefined")
  end.

Definition loadEntry (d : DeviceDocument)
    (deviceValues : option (list (string * jsval))) (k : Key) : M State unit :=
  modify (assignId k (findFeatureId (features d) (keyName k)));;
  s <- getState;;
  v <- snapshotValue deviceValues (entry_id (getEntry (device_features s) k));;
  modify (assignValue k v).

Definition handleInitMessage (d : DeviceDocument)
    (deviceValues : option (list (string * jsval))) : M State bool :=
  if match conf d with
     | None => true
     | Some c =>
         Nat.eqb (confKeys c) 0
         || negb (looseEqFalse (getProp (props c) "searching"))
     end
  then initSearching d;; ret true
  else
    loadEntry d deviceValues temperature;;
    loadEntry d deviceValues shutterY;;
    loadEntry d deviceValues shutterTilt;;
    ret false.

(** [Math.min] and [Math.max] of two numbers (the sign of a zero result
    aside). *)
Definition mathMin (a b : float) : float :=
  if isNaN a || isNaN b then nan else if PrimFloat.ltb b a then b else a.

Definition mathMax (a b : float) : float :=
  if isNaN a || isNaN b then nan else if PrimFloat.ltb a b then b else a.

(** A movement time of the configuration: a string is parsed, a number is
    clamped and published, anything else is passed over. *)
Definition sendMovementTime (d : DeviceDocument) (setting : jsval) (least : float)
    (command : string) : M State unit :=
  let setting := match setting with
                 | JStr s => JNum (parseFloat s)
                 | v => v
                 end in
  match setting with
  | JNum x =>
      let x := mathMax least (mathMin 60000%float x) in
      post (PublishMessage (deviceTopic d command) (PText (numberToString x)))
  | _ => ret tt
  end.

(** One turn of the loop over [device_features] in [sendDeviceSettings]. *)
Definition sendInitValue (d : DeviceDocument) (feature : Entry) : M State unit :=
  when (truthyId (entry_id feature) && negb (isNullish (entry_value feature)))
    match entry_initCommand feature with
    | Some initCommand =>
        when (negb (String.eqb initCommand EmptyString))
          (post (PublishMessage (deviceTopic d initCommand)
                   (PValue (entry_value feature))))
    | None => ret tt
    end.

Definition sendDeviceSettings : M State unit :=
  s <- getState;;
  let d := device s in
  match conf d with
  | None =>
      throw (TypeError "Cannot read properties of undefined (reading 'shutterMovementTime')")
  | Some c =>
      sendMovementTime d (getProp (props c) "shutterMovementTime") 800%float
        "setShutterMovementTime";;
      sendMovementTime d (getProp (props c) "tiltMovementTime") 500%float
        "setTiltMovementTime";;
      sendInitValue d (getEntry (device_features s) temperature);;
      sendInitValue d (getEntry (device_features s) shutterY);;
      sendInitValue d (getEntry (device_features s) shutterTilt);;
      post (PublishMessage (deviceTopic d "request") (PText "infos"))
  end.

(** *** Searching *)

Definition handleNewDeviceMessage (message : string) (d : DeviceDocument) : M State unit :=
  when (negb (String.eqb message EmptyString))
    match jsonTempID message with
    | Some (Some tempID) =>
        post (PublishMessage ("/newdevice/" +:+ tempID) (PText (dev_id d)))
    | _ => ret tt
    end.

Definition handleSearchingMqttMessage (topic message : string) (d : DeviceDocument)
  : M State unit :=
  if startsWith topic "/newdevice/shutter" then handleNewDeviceMessage message d
  else if startsWith topic (deviceTopic d "registered")
       then Shutter.handleRegisteredDeviceMessage message d
       else ret tt.

(** *** Registered device: transport messages *)

Definition handleTemperature (message : string) : M State unit :=
  when (negb (String.eqb message EmptyString) && negb (isNaN (parseFloat message)))
    (let temp := parseFloat message in
     modify (assignValue temperature (JNum temp));;
     s <- getState;;
     post (SetData None None
             [(keyOfId (entry_id (getEntry (device_features s) temperature)),
               JNum temp)])).

Definition handleInfo (message : string) : M State unit :=
  match jsonInfo message with
  | None => ret tt
  | Some None => ret tt
  | Some (Some infoMessage) =>
      post (EditDevice
              {| upd_conf := None; upd_features := None;
                 upd_meta :=
                   [("mac", info_mac infoMessage);
                    ("ip", info_ip infoMessage);
                    ("firmwareVersion", info_firmware infoMessage);
                    ("deviceModel",
                      if truthy (info_model infoMessage) then info_model infoMessage
                      else JStr "NO MODEL?");
                    ("chipID", info_chipID infoMessage)] |}
              true);;
      s <- getState;;
      when (negb (String.eqb (deviceStatus s) "online"))
        (post (PublishMessage (deviceTopic (device s) "request") (PText "status")))
  end.

Definition handleStatus (message : string) : M State unit :=
  s <- getState;;
  when (negb (String.eqb (deviceStatus s) message) && String.eqb message "online")
    sendDeviceSettings;;
  modify (set_deviceStatus (if String.eqb message EmptyString then "error" else message));;
  s <- getState;;
  post (SetData None (Some (deviceStatus s)) []).

Definition handleMqttMessage (topic message : string) (d : DeviceDocument)
  : M State unit :=
  if startsWith topic (deviceTopic d "temperature") then handleTemperature message
  else if startsWith topic (deviceTopic d "info") then handleInfo message
  else if startsWith topic (deviceTopic d "status") then handleStatus message
  else ret tt.

(** *** Registered device: state updates from the host *)

(** [x == v] and [v == x] for a number [x]: [undefined] and [null] equal no
    number, a string or a boolean is converted first. *)
Definition looseEqNumber (x : float) (v : jsval) : bool :=
  match v with
  | JUndefined | JNull => false
  | _ => PrimFloat.eqb x (toNumber v)
  end.

(** One turn of the loop over [Object.entries(redisData.feature)]. *)
Definition redisEntry (d : DeviceDocument) (id : string) (value : jsval) : M State unit :=
  s <- getState;;
  match findEntryById (device_features s) id with
  | None => ret tt
  | Some k =>
      let feature := getEntry (device_features s) k in
      let oldFeatureValue := entry_value feature in
      let target := parseFloat (toString value) in
      when (negb (strictEq (entry_value feature) (JNum target))
            && truthyId (entry_command feature))
        (modify (assignValue k (JNum target));;
         post (PublishMessage (deviceTopic d (default EmptyString (entry_command feature)))
                 (PValue (JNum target)));;
         s <- getState;;
         when (match findKeyById (device_features s) id with
               | Some key => String.eqb key "shutterY"
               | None => false
               end
               && negb (looseEqNumber target oldFeatureValue)
               && PrimFloat.eqb target 0%float
               && negb (looseEqNumber 100%float
                          (entry_value (getEntry (device_features s) shutterTilt))))
           (post (SetData None None
                    [(keyOfId (entry_id (getEntry (device_features s) shutterTilt)),
                      JNum 100%float)])))
  end.

Fixpoint redisLoop (d : DeviceDocument) (entries : list (string * jsval)) : M State unit :=
  match entries with
  | [] => ret tt
  | (id, value) :: rest => redisEntry d id value;; redisLoop d rest
  end.

Definition handleRedisMessage (feature : option (list (string * jsval)))
    (d : DeviceDocument) : M State unit :=
  match feature with
  | Some entries => redisLoop d entries
  | None => ret tt
  end.

(** *** The liveness timers *)

Definition isNone {A} (o : option A) : bool :=
  match o with
  | None => true
  | Some _ => false
  end.

Definition offlineTimeoutStart (clear : bool) : M State unit :=
  when clear
    (s <- getState;;
     clearTimeout (setOffineTimeout s);;
     modify (set_setOffineTimeout None);;
     clearTimeout (requestStatusTimeout s);;
     modify (set_requestStatusTimeout None));;
  s <- getState;;
  when (isNone (requestStatusTimeout s))
    (h <- setTimeout RequestStatusCb requestStatusTimeoutTime;;
     modify (set_requestStatusTimeout (Some h)));;
  s <- getState;;
  when (isNone (setOffineTimeout s))
    (h <- setTimeout SetOfflineCb setOffineTimeoutTime;;
     modify (set_setOffineTimeout (Some h))).

(** The bodies of the closures handed to [setTimeout]; this driver never
    schedules a restart. *)
Definition runCallback (c : Callback) : M State unit :=
  match c with
  | RequestStatusCb =>
      s <- getState;;
      post (PublishMessage (deviceTopic (device s) "request") (PText "status"));;
      offlineTimeoutStart false
  | SetOfflineCb =>
      post (SetData None (Some "offline") []);;
      offlineTimeoutStart false
  | RestartCb _ => ret tt
  end.

(** *** The main process: [parentPort.on("message", ...)] *)

Definition onMessage (message : Message) : M State unit :=
  match message with
  | Init d values =>
      modify (set_device d);;
      b <- handleInitMessage d values;;
      modify (set_searching b);;
      offlineTimeoutStart true
  | Mqtt topic payload =>
      s <- getState;;
      if searching s then handleSearchingMqttMessage topic payload (device s)
      else handleMqttMessage topic payload (device s)
  | Redis feature =>
      s <- getState;;
      handleRedisMessage feature (device s)
  | Unknown _ => ret tt
  end.

(** The event loop runs the next timer, if one is scheduled. *)
Definition fireNext (w : State * Env) : option (Outcome unit * (State * Env)) :=
  match popTimer (snd w) with
  | None => None
  | Some (t, e) => Some (runCallback (cb t) (fst w, e))
  end.

End Driver.
End ShutterDriver.

(** ** The myStrom driver (src/mystrom-driver/index.ts): polling settings *)

Module Mystrom.

Section Driver.
Context `{JsRuntime}.

(** [let requestInterval = 30000; let serverDominateDevice = true] *)
Record State : Type := {
  requestInterval : float;
  serverDominateDevice : bool
}.

Definition loaded : State :=
  {| requestInterval := 30000%float; serverDominateDevice := true |}.

(** What [getInfo] does with the configuration before its first request:
    the polling interval is read from a string or a number and reset to
    30 s outside 1 s .. 120 s, the dominance flag from a boolean or a
    string. *)
Definition readSettings (c : gmap string jsval) (s : State) : State :=
  let tempRequestInterval := getProp c "requestInterval" in
  let requestInterval1 :=
    match tempRequestInterval with
    | JStr text => parseIntStr text
    | JNum x => x
    | _ => requestInterval s
    end in
  let requestInterval2 :=
    if PrimFloat.ltb requestInterval1 1000%float
       || PrimFloat.ltb 120000%float requestInterval1
    then 30000%float else requestInterval1 in
  let tempServerDominateDevice := getProp c "serverDominateDevice" in
  {| requestInterval := requestInterval2;
     serverDominateDevice :=
       match tempServerDominateDevice with
       | JBool b => b
       | JStr text => negb (String.eqb text "false")
       | _ => serverDominateDevice s
       end |}.

(** The period handed to [setInterval]: [requestInterval || 30000]. *)
Definition pollPeriod (s : State) : float :=
  if truthy (JNum (requestInterval s)) then requestInterval s else 30000%float.

End Driver.
End Mystrom.

(** * Properties *)

Local Open Scope list_scope.

(** ** The feature directory *)

Section Directory.

Lemma find_first_match {A} (p : A -> bool) (pre : list A) (x : A) (post : list A) :
  (forall y, In y pre -> p y = false) ->
  p x = true ->
  List.find p (pre ++ x :: post) = Some x.
Proof.
  intros Hpre Hx. induction pre as [|y pre IH]; simpl.
  - now rewrite Hx.
  - rewrite (Hpre y (or_introl eq_refl)). apply IH.
    intros z Hz. apply Hpre. now right.
Qed.

Lemma find_no_match {A} (p : A -> bool) (l : list A) :
  (forall y, In y l -> p y = false) -> List.find p l = None.
Proof.
  intros Hl. induction l as [|y l IH]; simpl; [reflexivity|].
  rewrite (Hl y (or_introl eq_refl)). apply IH.
  intros z Hz. apply Hl. now right.
Qed.

(** A device with a feature that carries the query as its identifier in
    front of a feature that carries it as a type tag. *)
Definition byId : Feature :=
  {| _id := Some "relay"; name := "First"; category := action;
     verifyvalue := EmptyString; types := ["switch"];
     unit_ := None; icon := None; type_ := None |}.

Definition byTag : Feature :=
  {| _id := Some "f2"; name := "Second"; category := action;
     verifyvalue := EmptyString; types := ["relay"; "boolean"];
     unit_ := None; icon := None; type_ := None |}.

Definition twoFeatures : DeviceDocument :=
  {| dev_id := "dev"; dev_icon := EmptyString; conf := None;
     features := [byId; byTag] |}.

(** C3, as the code has it: the directory makes two passes.  The first
    feature in list order that carries the query as a type tag or as its
    identifier is returned; only when no feature matches in either way, the
    first feature whose display name is the query; and nothing when no
    feature matches at all. *)
Theorem resolve_two_passes (device : DeviceDocument) (query : string) :
  (forall pre feature post,
      features device = pre ++ feature :: post ->
      (forall g, In g pre -> matchesTypeOrId query g = false) ->
      matchesTypeOrId query feature = true ->
      getFeatureByTypeOrNameOrId device query = Some feature)
  /\ (forall pre feature post,
      (forall g, In g (features device) -> matchesTypeOrId query g = false) ->
      features device = pre ++ feature :: post ->
      (forall g, In g pre -> matchesName query g = false) ->
      matchesName query feature = true ->
      getFeatureByTypeOrNameOrId device query = Some feature)
  /\ ((forall g, In g (features device) ->
                 matchesTypeOrId query g = false /\ matchesName query g = false) ->
      getFeatureByTypeOrNameOrId device query = None).
Proof.
  unfold getFeatureByTypeOrNameOrId. repeat split.
  - intros pre feature post -> Hpre Hf.
    now rewrite (find_first_match _ pre feature post Hpre Hf).
  - intros pre feature post Hnone Hl Hpre Hf.
    rewrite (find_no_match _ _ Hnone), Hl.
    now apply find_first_match.
  - intros Hnone.
    rewrite (find_no_match (matchesTypeOrId query)), (find_no_match (matchesName query));
      [reflexivity | |]; intros g Hg; now apply Hnone.
Qed.

(** The identifier match in front wins over the type-tag match behind it. *)
Lemma resolve_two_passes_witness :
  getFeatureByTypeOrNameOrId twoFeatures "relay" = Some byId.
Proof.
  apply (proj1 (resolve_two_passes twoFeatures "relay") [] byId [byTag]).
  - reflexivity.
  - intros g [].
  - reflexivity.
Defined.

(** C3 as stated fails: with strict priority of type tags over identifiers
    the query would resolve to the second feature, the code returns the
    first. *)
Lemma resolve_not_in_priority_order :
  getFeatureByTypeOrNameOrId twoFeatures "relay" = Some byId
  /\ resolveInPriorityOrder twoFeatures "relay" = Some byTag
  /\ getFeatureByTypeOrNameOrId twoFeatures "relay"
     <> resolveInPriorityOrder twoFeatures "relay".
Proof.
  repeat split; try reflexivity.
  vm_compute. discriminate.
Qed.

End Directory.

(** ** The inbound path: sensor readings *)

Section Inbound.
Context `{JsRuntime}.
Import Esp.

(** The [setData] intents that carry a value for the feature [fid]. *)
Definition carries (fid : string) (i : Intent) : bool :=
  match i with
  | SetData _ _ feature => existsb (fun kv => String.eqb (fst kv) fid) feature
  | _ => false
  end.

Definition setDataCount (fid : string) (out : list Intent) : nat :=
  length (List.filter (carries fid) out).

(** The [storeInDB] flags of the [setData] intents, in the order posted. *)
Definition storeFlags (out : list Intent) : list (option bool) :=
  flat_map (fun i => match i with
                     | SetData flag _ _ => [flag]
                     | _ => []
                     end) out.

(** Two topics of a device that part ways below the device prefix are not
    both a prefix of the same topic. *)
Lemma prefix_apart (a x y t : string) :
  (forall u, String.prefix x u = true -> String.prefix y u = false) ->
  String.prefix (a +:+ x) t = true -> String.prefix (a +:+ y) t = false.
Proof.
  intros Hxy. revert t. induction a as [|c a IH]; intros t; simpl.
  - apply Hxy.
  - destruct t as [|b t]; simpl; [discriminate|].
    destruct (ascii_dec c b); [apply IH | discriminate].
Qed.

Lemma topics_apart (d : DeviceDocument) (x y topic : string) :
  (forall u, String.prefix x u = true -> String.prefix y u = false) ->
  startsWith topic (deviceTopic d x) = true ->
  startsWith topic (deviceTopic d y) = false.
Proof.
  intros Hxy. unfold startsWith, deviceTopic.
  apply prefix_apart. intros u. apply prefix_apart. intros v. apply prefix_apart.
  exact Hxy.
Qed.

Lemma first_letter_apart (c1 c2 : ascii) (r1 r2 u : string) :
  c1 <> c2 ->
  String.prefix (String c1 r1) u = true -> String.prefix (String c2 r2) u = false.
Proof.
  intros Hc. destruct u as [|b u]; simpl; [discriminate|].
  destruct (ascii_dec c1 b) as [<-|]; [|discriminate].
  intros _. destruct (ascii_dec c2 c1) as [->|]; [contradiction | reflexivity].
Qed.

Lemma eqb_empty_false (s : string) : s <> EmptyString -> String.eqb s EmptyString = false.
Proof. intros Hs. now apply String.eqb_neq. Qed.

(** A valid reading for a feature the directory knows: the cache takes the
    reading and one [setData] is posted, whatever the cache held. *)
Lemma handleReading_known tag template threshold message s e fid :
  message <> EmptyString ->
  isNaN (parseFloat message) = false ->
  featureIdOf (device s) tag = Some fid ->
  fid <> EmptyString ->
  handleReading tag template threshold message (s, e) =
    (Returned tt,
     (set_featureValue (Map_set (featureValue s) fid (JNum (parseFloat message))) s,
      posted (SetData
                (Some (PrimFloat.ltb threshold
                         (readingDelta (Map_get (featureValue s) fid) (parseFloat message))))
                None [(fid, JNum (parseFloat message))]) e)).
Proof.
  intros Hm Hn Hf Hi.
  unfold handleReading.
  rewrite (eqb_empty_false _ Hm), Hn.
  cbn -[featureIdOf Map_get Map_set readingDelta String.eqb includes].
  rewrite Hf.
  cbn -[Map_get Map_set readingDelta String.eqb includes].
  rewrite (eqb_empty_false _ Hi).
  reflexivity.
Qed.

Lemma Map_get_set_same m k v : Map_get (Map_set m k v) k = v.
Proof.
  induction m as [|[k' v'] m IH]; simpl.
  - now rewrite String.eqb_refl.
  - destruct (String.eqb k' k) eqn:E; simpl.
    + now rewrite String.eqb_refl.
    + now rewrite E.
Qed.

Lemma Map_get_set_other m k k' v : k <> k' -> Map_get (Map_set m k v) k' = Map_get m k'.
Proof.
  intros Hk. induction m as [|[k0 v0] m IH]; simpl.
  - now rewrite (proj2 (String.eqb_neq k k') Hk).
  - destruct (String.eqb k0 k) eqn:E; simpl.
    + apply String.eqb_eq in E. subst k0.
      now rewrite (proj2 (String.eqb_neq k k') Hk).
    + destruct (String.eqb k0 k'); [reflexivity | exact IH].
Qed.

(** The world after a valid reading [v] for the feature [fid] under the
    significance threshold [threshold]. *)
Definition afterReading (threshold : float) (fid : string) (v : float)
    (w : State * Env) : State * Env :=
  (set_featureValue (Map_set (featureValue (fst w)) fid (JNum v)) (fst w),
   posted (SetData
             (Some (PrimFloat.ltb threshold
                      (readingDelta (Map_get (featureValue (fst w)) fid) v)))
             None [(fid, JNum v)]) (snd w)).

(** The intents two equal readings in a row add to the outbox: two
    [setData], the second flagged by the distance of the value to itself. *)
Lemma afterReading_twice_outbox threshold fid v w :
  outbox (snd (afterReading threshold fid v (afterReading threshold fid v w))) =
  outbox (snd w) ++
    [SetData (Some (PrimFloat.ltb threshold
                      (readingDelta (Map_get (featureValue (fst w)) fid) v)))
             None [(fid, JNum v)];
     SetData (Some (PrimFloat.ltb threshold (readingDelta (JNum v) v)))
             None [(fid, JNum v)]].
Proof.
  unfold afterReading; simpl. rewrite Map_get_set_same.
  now rewrite <- app_assoc.
Qed.

(** C1, as the code has it, for the temperature and the humidity branch of
    both ESP drivers: a valid reading for a feature the directory knows is
    posted whatever the value cache holds.  Feeding the same reading twice
    in a row posts two [setData] intents for the feature; the cache only
    decides the [storeInDB] flag each of them carries. *)
Theorem same_reading_posted_twice (topic message : string) (s : State) (e : Env)
    (tag : string) (pwmThreshold pinThreshold : float) (fid : string) :
  In (tag, pwmThreshold, pinThreshold)
     [("temperature", 0.45%float, 0.1%float); ("humidity", 0.65%float, 0.25%float)] ->
  startsWith topic (deviceTopic (device s) tag) = true ->
  message <> EmptyString ->
  isNaN (parseFloat message) = false ->
  featureIdOf (device s) tag = Some fid ->
  fid <> EmptyString ->
  let v := parseFloat message in
  let twice (handler : M State unit) (threshold : float) :=
    let w1 := afterReading threshold fid v (s, e) in
    let w2 := afterReading threshold fid v w1 in
    handler (s, e) = (Returned tt, w1)
    /\ handler w1 = (Returned tt, w2)
    /\ setDataCount fid (outbox (snd w2)) = (2 + setDataCount fid (outbox e))%nat in
  twice (EspPwm.handleMqttMessage topic message (device s)) pwmThreshold
  /\ twice (EspPin.handleMqttMessage topic message (device s)) pinThreshold.
Proof.
  intros Htag Ht Hm Hn Hf Hi v twice.
  assert (Hcount : forall threshold,
             setDataCount fid
               (outbox (snd (afterReading threshold fid v
                               (afterReading threshold fid v (s, e))))) =
             (2 + setDataCount fid (outbox e))%nat).
  { intros threshold. rewrite afterReading_twice_outbox. unfold setDataCount.
    rewrite List.filter_app, length_app. simpl.
    rewrite String.eqb_refl. simpl. lia. }
  assert (Hbranch :
            EspPwm.handleMqttMessage topic message (device s)
              = handleReading tag
                  (if String.eqb tag "temperature" then temperatureFeature
                   else humidityFeature) pwmThreshold message
            /\ EspPin.handleMqttMessage topic message (device s)
              = handleReading tag
                  (if String.eqb tag "temperature" then EspPin.temperatureFeature
                   else humidityFeature) pinThreshold message).
  { unfold EspPwm.handleMqttMessage, EspPin.handleMqttMessage.
    destruct Htag as [Htag | [Htag | []]]; injection Htag as <- <- <-.
    - rewrite Ht. split; reflexivity.
    - rewrite (topics_apart (device s) "humidity" "temperature" topic), Ht;
        [split; reflexivity | | exact Ht].
      intros u. now apply first_letter_apart. }
  destruct Hbranch as [-> ->].
  unfold twice. split; (split; [|split]).
  - now apply handleReading_known.
  - unfold afterReading at 2. now apply handleReading_known.
  - apply Hcount.
  - now apply handleReading_known.
  - unfold afterReading at 2. now apply handleReading_known.
  - apply Hcount.
Qed.

Lemma storeFlags_app (a b : list Intent) : storeFlags (a ++ b) = storeFlags a ++ storeFlags b.
Proof. unfold storeFlags. apply flat_map_app. Qed.

(** Two valid readings in a row through the temperature branch of the pin
    driver: the flag of the second is the distance to the first, whether or
    not the first was flagged. *)
Lemma consecutive_readings (topic m1 m2 : string) (s : State) (e : Env) (fid : string) :
  startsWith topic (deviceTopic (device s) "temperature") = true ->
  m1 <> EmptyString -> isNaN (parseFloat m1) = false ->
  m2 <> EmptyString -> isNaN (parseFloat m2) = false ->
  featureIdOf (device s) "temperature" = Some fid ->
  fid <> EmptyString ->
  let w1 := afterReading 0.1%float fid (parseFloat m1) (s, e) in
  let w2 := afterReading 0.1%float fid (parseFloat m2) w1 in
  EspPin.handleMqttMessage topic m1 (device s) (s, e) = (Returned tt, w1)
  /\ EspPin.handleMqttMessage topic m2 (device s) w1 = (Returned tt, w2)
  /\ Map_get (featureValue (fst w1)) fid = JNum (parseFloat m1)
  /\ storeFlags (outbox (snd w2)) =
       storeFlags (outbox e) ++
         [Some (PrimFloat.ltb 0.1%float
                  (readingDelta (Map_get (featureValue s) fid) (parseFloat m1)));
          Some (PrimFloat.ltb 0.1%float
                  (PrimFloat.abs (PrimFloat.sub (parseFloat m1) (parseFloat m2))))].
Proof.
  intros Ht Hm1 Hn1 Hm2 Hn2 Hf Hi w1 w2.
  unfold EspPin.handleMqttMessage. rewrite Ht.
  split; [|split; [|split]].
  - now apply handleReading_known.
  - unfold w2, w1, afterReading at 2. now apply handleReading_known.
  - unfold w1, afterReading; simpl. apply Map_get_set_same.
  - unfold w2, w1, afterReading; simpl. rewrite Map_get_set_same.
    rewrite !storeFlags_app. simpl. now rewrite <- app_assoc.
Qed.

End Inbound.

(** *** Concrete runs of the inbound path *)

Module InboundExamples.
Import Esp Reference.

Definition thermometer : Feature :=
  {| _id := Some "t1"; name := "Temperature"; category := sensor;
     verifyvalue := EmptyString; types := ["temperature"];
     unit_ := None; icon := None; type_ := None |}.

(** A registered device ([searching: false]) with one temperature sensor. *)
Definition esp1 : DeviceDocument :=
  {| dev_id := "esp1"; dev_icon := EmptyString;
     conf := Some {| topics := Some ["/device/esp1/#"];
                     props := {[ "searching" := JBool false ]} |};
     features := [thermometer] |}.

Definition temperature (reading : string) : Message :=
  Mqtt "/device/esp1/temperature" reading.

(** The esp-pwm driver after [init]. *)
Definition pwmReady : State * Env :=
  snd (EspPwm.onMessage (Init esp1 None) (loaded esp1, env0 0)).

(** The pin driver after [init] with the stored value 20.0 for the sensor. *)
Definition pinReady : State * Env :=
  snd (EspPin.onMessage (Init esp1 (Some [("t1", JNum 20%float)])) (loaded esp1, env0 0)).

(** The [storeInDB] rule as the specification words it, for comparison:
    the distance is taken to the last reading that was stored. *)
Fixpoint storeWorthyAgainstLastStored (threshold stored : float) (readings : list float)
  : list bool :=
  match readings with
  | [] => []
  | r :: rest =>
      if PrimFloat.ltb threshold (PrimFloat.abs (PrimFloat.sub stored r))
      then true :: storeWorthyAgainstLastStored threshold r rest
      else false :: storeWorthyAgainstLastStored threshold stored rest
  end.

(** The same reading twice, for the esp-pwm driver of [esp1]. *)
Lemma same_reading_posted_twice_witness :
  let s := fst pwmReady in
  let e := snd pwmReady in
  let w1 := afterReading 0.45%float "t1" (parseFloat "21.5") (s, e) in
  EspPwm.handleMqttMessage "/device/esp1/temperature" "21.5" (device s) (s, e)
    = (Returned tt, w1)
  /\ EspPwm.handleMqttMessage "/device/esp1/temperature" "21.5" (device s) w1
    = (Returned tt, afterReading 0.45%float "t1" (parseFloat "21.5") w1).
Proof.
  intros s e w1.
  assert (Htopic : startsWith "/device/esp1/temperature"
                     (deviceTopic (device s) "temperature") = true)
    by (vm_compute; reflexivity).
  assert (Hn : isNaN (parseFloat "21.5") = false) by (vm_compute; reflexivity).
  assert (Hfid : featureIdOf (device s) "temperature" = Some "t1")
    by (vm_compute; reflexivity).
  pose proof (same_reading_posted_twice "/device/esp1/temperature" "21.5"
                s e "temperature" 0.45%float 0.1%float "t1"
                (or_introl eq_refl)
                Htopic ltac:(discriminate) Hn Hfid ltac:(discriminate)) as [Hpwm _].
  destruct Hpwm as (H1 & H2 & _). split; [exact H1 | exact H2].
Defined.

(** C1 as stated fails: the same value fed twice to the esp-pwm driver is
    posted twice, not once. *)
Lemma same_reading_not_suppressed :
  let out := outbox (snd (snd (deliverAll EspPwm.onMessage
                                 [temperature "21.5"; temperature "21.5"] pwmReady))) in
  setDataCount "t1" out = 2%nat /\ setDataCount "t1" out <> 1%nat.
Proof. vm_compute. split; [reflexivity | discriminate]. Qed.

(** The flags the pin driver posts for a run of readings, the value 20.0
    being the stored one. *)
Definition pinFlags (readings : list string) : list (option bool) :=
  storeFlags (outbox (snd (snd (deliverAll EspPin.onMessage
                                  (map temperature readings) pinReady)))).

(** C2, as the code has it: of the readings 20.0, 20.05 and 20.9 under the
    0.1 threshold, the first being the stored value, only the third is
    flagged for storing; and the distance that decides the flag of a
    reading is taken to the reading just before it, which the value cache
    holds whether or not it was flagged. *)
Theorem store_flag_against_previous_reading :
  pinFlags ["20.0"; "20.05"; "20.9"] = [Some false; Some false; Some true]
  /\ forall (rt : JsRuntime) (topic m1 m2 : string) (s : State) (e : Env) (fid : string),
      startsWith topic (deviceTopic (device s) "temperature") = true ->
      m1 <> EmptyString -> isNaN (parseFloat m1) = false ->
      m2 <> EmptyString -> isNaN (parseFloat m2) = false ->
      featureIdOf (device s) "temperature" = Some fid ->
      fid <> EmptyString ->
      exists w1 w2,
        EspPin.handleMqttMessage topic m1 (device s) (s, e) = (Returned tt, w1)
        /\ EspPin.handleMqttMessage topic m2 (device s) w1 = (Returned tt, w2)
        /\ Map_get (featureValue (fst w1)) fid = JNum (parseFloat m1)
        /\ storeFlags (outbox (snd w2)) =
             storeFlags (outbox e) ++
               [Some (PrimFloat.ltb 0.1%float
                        (readingDelta (Map_get (featureValue s) fid) (parseFloat m1)));
                Some (PrimFloat.ltb 0.1%float
                        (PrimFloat.abs (PrimFloat.sub (parseFloat m1) (parseFloat m2))))].
Proof.
  split.
  - vm_compute. reflexivity.
  - intros rt topic m1 m2 s e fid Ht Hm1 Hn1 Hm2 Hn2 Hf Hi.
    eexists _, _. now apply consecutive_readings.
Qed.

(** Without a stored value the first reading is flagged as well: the
    distance to an absent cache entry counts as infinite. *)
Example first_reading_without_cache_is_flagged :
  storeFlags (outbox (snd (snd (deliverAll EspPin.onMessage
                                  (map temperature ["20.0"; "20.05"; "20.9"])
                                  (snd (EspPin.onMessage (Init esp1 None)
                                          (loaded esp1, env0 0)))))))
  = [Some true; Some false; Some true].
Proof. vm_compute. reflexivity. Qed.

(** Two readings that drift by 0.06 each: the second is 0.12 away from the
    stored 20.0 and 0.06 away from the reading before it. *)
Lemma store_flag_against_previous_reading_witness :
  exists w1 w2,
    EspPin.handleMqttMessage "/device/esp1/temperature" "20.06"
      (device (fst pinReady)) (fst pinReady, snd pinReady) = (Returned tt, w1)
    /\ EspPin.handleMqttMessage "/device/esp1/temperature" "20.12"
         (device (fst pinReady)) w1 = (Returned tt, w2)
    /\ storeFlags (outbox (snd w2)) = [Some false; Some false].
Proof.
  assert (Htopic : startsWith "/device/esp1/temperature"
                     (deviceTopic (device (fst pinReady)) "temperature") = true)
    by (vm_compute; reflexivity).
  assert (Hn1 : isNaN (parseFloat "20.06") = false) by (vm_compute; reflexivity).
  assert (Hn2 : isNaN (parseFloat "20.12") = false) by (vm_compute; reflexivity).
  assert (Hfid : featureIdOf (device (fst pinReady)) "temperature" = Some "t1")
    by (vm_compute; reflexivity).
  destruct (proj2 store_flag_against_previous_reading runtime
              "/device/esp1/temperature" "20.06" "20.12"
              (fst pinReady) (snd pinReady) "t1"
              Htopic ltac:(discriminate) Hn1 ltac:(discriminate) Hn2
              Hfid ltac:(discriminate))
    as (w1 & w2 & H1 & H2 & _ & Hflags).
  exists w1, w2. split; [exact H1 | split; [exact H2 |]].
  rewrite Hflags. vm_compute. reflexivity.
Defined.

(** C2 as stated fails: were the distance taken to the last stored value,
    the second of the two drifting readings would be flagged; the driver
    does not flag it. *)
Lemma store_flag_not_against_last_stored :
  storeWorthyAgainstLastStored 0.1%float 20%float [20.06%float; 20.12%float]
    = [false; true]
  /\ pinFlags ["20.06"; "20.12"] = [Some false; Some false]
  /\ pinFlags ["20.06"; "20.12"]
     <> map Some (storeWorthyAgainstLastStored 0.1%float 20%float
                    [20.06%float; 20.12%float]).
Proof.
  repeat split; try (vm_compute; reflexivity).
  vm_compute. discriminate.
Qed.

End InboundExamples.

(** ** The liveness timers *)

Section Liveness.
Context `{JsRuntime}.
Import Esp.

(** The esp-pwm driver of a registered device, both timers just armed by a
    clearing [offlineTimeoutStart()] at time [t0]. *)
Definition pwmArmed (d : DeviceDocument) (t0 : Z) : State * Env :=
  snd (EspPwm.offlineTimeoutStart true (set_searching false (loaded d), env0 t0)).

(** The same for the pin driver. *)
Definition pinArmed (d : DeviceDocument) (t0 : Z) : State * Env :=
  snd (EspPin.offlineTimeoutStart true (set_searching false (loaded d), env0 t0)).

Definition statusProbe (d : DeviceDocument) : Intent :=
  PublishMessage (deviceTopic d "request") (PText "status").

Definition offlineStatus : Intent := SetData None (Some "offline") [].

Lemma offline_not_before_probe (t : Z) :
  (t + setOffineTimeoutTime <? t + requestStatusTimeoutTime)%Z = false.
Proof. apply Z.ltb_ge. unfold setOffineTimeoutTime, requestStatusTimeoutTime. lia. Qed.

Lemma clock_at_probe (t : Z) :
  Z.max t (t + requestStatusTimeoutTime) = (t + requestStatusTimeoutTime)%Z.
Proof. apply Z.max_r. unfold requestStatusTimeoutTime. lia. Qed.

Lemma clock_at_offline (t : Z) :
  Z.max (t + requestStatusTimeoutTime) (t + setOffineTimeoutTime)
  = (t + setOffineTimeoutTime)%Z.
Proof. apply Z.max_r. unfold setOffineTimeoutTime, requestStatusTimeoutTime. lia. Qed.

Ltac tick :=
  cbn -[Z.add Z.ltb Z.max requestStatusTimeoutTime setOffineTimeoutTime deviceTopic];
  rewrite ?offline_not_before_probe, ?clock_at_probe, ?clock_at_offline;
  cbn -[Z.add Z.ltb Z.max requestStatusTimeoutTime setOffineTimeoutTime deviceTopic].

(** C4 on the code: once both timers are armed and nothing arrives, the
    probe of the esp-pwm driver runs once, three minutes on, and is not
    scheduled again; the offline declaration runs once, five minutes on,
    and then no timer is left.  In the pin driver the probe does not
    schedule itself again either: it comes back only when the offline
    closure, two minutes later, clears and rearms both timers. *)
Theorem probe_not_rescheduled (d : DeviceDocument) (t0 : Z) :
  (exists w1 w2,
      EspPwm.fireNext (pwmArmed d t0) = Some (Returned tt, w1)
      /\ now (snd w1) = (t0 + requestStatusTimeoutTime)%Z
      /\ outbox (snd w1) = [statusProbe d]
      /\ scheduled RequestStatusCb (snd w1) = []
      /\ EspPwm.fireNext w1 = Some (Returned tt, w2)
      /\ now (snd w2) = (t0 + setOffineTimeoutTime)%Z
      /\ outbox (snd w2) = [statusProbe d; offlineStatus]
      /\ pending (snd w2) = []
      /\ EspPwm.fireNext w2 = None)
  /\ (exists w1 w2,
      EspPin.fireNext (pinArmed d t0) = Some (Returned tt, w1)
      /\ now (snd w1) = (t0 + requestStatusTimeoutTime)%Z
      /\ outbox (snd w1) = [statusProbe d]
      /\ scheduled RequestStatusCb (snd w1) = []
      /\ EspPin.fireNext w1 = Some (Returned tt, w2)
      /\ now (snd w2) = (t0 + setOffineTimeoutTime)%Z
      /\ outbox (snd w2) = [statusProbe d; offlineStatus]
      /\ pending (snd w2) =
           [{| timer_id := 2;
               due := t0 + setOffineTimeoutTime + requestStatusTimeoutTime;
               cb := RequestStatusCb |};
            {| timer_id := 3;
               due := t0 + setOffineTimeoutTime + setOffineTimeoutTime;
               cb := SetOfflineCb |}]).
Proof.
  split.
  - unfold pwmArmed, EspPwm.fireNext, popTimer. tick.
    eexists _, _. split; [reflexivity|]. tick.
    repeat (split; [reflexivity|]). reflexivity.
  - unfold pinArmed, EspPin.fireNext, popTimer. tick.
    eexists _, _. split; [reflexivity|]. tick.
    repeat (split; [reflexivity|]). reflexivity.
Qed.

Lemma ping_is_no_device_topic (d : DeviceDocument) (suffix : string) :
  startsWith "ping" (deviceTopic d suffix) = false.
Proof. reflexivity. Qed.

(** C5 on the code: a transport message arms both timers of the esp-pwm
    driver, one each.  Once both have run, a state update from the host,
    which rearms without clearing, schedules nothing: both variables still
    hold the handles of the timers that ran, and no timer is pending. *)
Theorem rearm_after_fire_leaves_timers_unset (d : DeviceDocument) (t0 : Z) :
  exists w1 w2 w3 w4,
    EspPwm.onMessage (Mqtt "ping" "1") (set_searching false (loaded d), env0 t0)
      = (Returned tt, w1)
    /\ length (scheduled RequestStatusCb (snd w1)) = 1%nat
    /\ length (scheduled SetOfflineCb (snd w1)) = 1%nat
    /\ EspPwm.fireNext w1 = Some (Returned tt, w2)
    /\ EspPwm.fireNext w2 = Some (Returned tt, w3)
    /\ EspPwm.onMessage (Redis (Some [])) w3 = (Returned tt, w4)
    /\ requestStatusTimeout (fst w4) = Some 0%nat
    /\ setOffineTimeout (fst w4) = Some 1%nat
    /\ scheduled RequestStatusCb (snd w4) = []
    /\ scheduled SetOfflineCb (snd w4) = []
    /\ pending (snd w4) = [].
Proof.
  unfold EspPwm.onMessage, EspPwm.handleMqttMessage.
  cbn -[Z.add Z.ltb Z.max requestStatusTimeoutTime setOffineTimeoutTime deviceTopic
        startsWith].
  rewrite !ping_is_no_device_topic. tick.
  eexists _, _, _, _. split; [reflexivity|].
  split; [reflexivity|]. split; [reflexivity|].
  unfold EspPwm.fireNext, popTimer. tick.
  split; [reflexivity|]. tick.
  split; [reflexivity|]. tick.
  repeat (split; [reflexivity|]). reflexivity.
Qed.

(** *** What does hold of the rearm *)

(** Every pending liveness timer is the one its variable names. *)
Definition timersNamed (w : State * Env) : Prop :=
  forall t, In t (pending (snd w)) ->
    (cb t = RequestStatusCb -> requestStatusTimeout (fst w) = Some (timer_id t))
    /\ (cb t = SetOfflineCb -> setOffineTimeout (fst w) = Some (timer_id t)).

Lemma filter_none {A} (f : A -> bool) (l : list A) :
  (forall x, In x l -> f x = false) -> List.filter f l = [].
Proof.
  intros Hl. induction l as [|x l IH]; simpl; [reflexivity|].
  rewrite (Hl x (or_introl eq_refl)). apply IH. intros y Hy. apply Hl. now right.
Qed.

(** What [clearTimeout] leaves of the pending timers. *)
Definition cleared (h : option nat) (ts : list Timer) : list Timer :=
  match h with
  | Some i => List.filter (fun t => negb (Nat.eqb (timer_id t) i)) ts
  | None => ts
  end.

Lemma cleared_In h ts t : In t (cleared h ts) -> In t ts /\ h <> Some (timer_id t).
Proof.
  destruct h as [i|]; simpl.
  - rewrite filter_In. intros [Hin Hne]. split; [exact Hin|].
    intros [= ->]. now rewrite Nat.eqb_refl in Hne.
  - intros Hin. split; [exact Hin | discriminate].
Qed.

(** A clearing rearm followed by a rearm without clearing in the same turn,
    as the esp-pwm driver does for a transport message: whatever was
    pending before, exactly one probe and one offline timer are scheduled
    afterwards, both counted from now, and the second call changes
    nothing. *)
Lemma clearing_rearm_arms_once (w : State * Env) :
  timersNamed w ->
  exists w',
    EspPwm.offlineTimeoutStart true w = (Returned tt, w')
    /\ EspPwm.offlineTimeoutStart false w' = (Returned tt, w')
    /\ scheduled RequestStatusCb (snd w') =
         [{| timer_id := next_timer (snd w);
             due := now (snd w) + requestStatusTimeoutTime;
             cb := RequestStatusCb |}]
    /\ scheduled SetOfflineCb (snd w') =
         [{| timer_id := S (next_timer (snd w));
             due := now (snd w) + setOffineTimeoutTime;
             cb := SetOfflineCb |}]
    /\ timersNamed w'.
Proof.
  intros Hw. destruct w as [s e]. destruct s as [sg st dv so rq afp fv].
  unfold timersNamed in Hw. simpl in *.
  set (rest := cleared rq (cleared so (pending e))).
  assert (Hrest : forall t, In t rest ->
                    cb t <> RequestStatusCb /\ cb t <> SetOfflineCb).
  { intros t Ht. apply cleared_In in Ht as [Ht Hr]. apply cleared_In in Ht as [Ht Ho].
    destruct (Hw t Ht) as [H1 H2]. split; intros Hc; [now apply Hr, H1 | now apply Ho, H2]. }
  assert (Hnone : forall c, (c = RequestStatusCb \/ c = SetOfflineCb) ->
                    List.filter (fun t => Callback_eqb (cb t) c) rest = []).
  { intros c Hc. apply filter_none. intros t Ht. destruct (Hrest t Ht) as [H1 H2].
    destruct Hc as [-> | ->]; destruct (cb t); try reflexivity; congruence. }
  exists ({| searching := sg; deviceStatus := st; device := dv;
             setOffineTimeout := Some (S (next_timer e));
             requestStatusTimeout := Some (next_timer e);
             addFeatureProcess := afp; featureValue := fv |},
          {| now := now e; next_timer := S (S (next_timer e));
             pending :=
               (rest ++ [{| timer_id := next_timer e;
                            due := now e + requestStatusTimeoutTime;
                            cb := RequestStatusCb |}])
               ++ [{| timer_id := S (next_timer e);
                      due := now e + setOffineTimeoutTime;
                      cb := SetOfflineCb |}];
             outbox := outbox e |}).
  split; [|split; [|split; [|split]]].
  - subst rest. destruct so, rq; reflexivity.
  - reflexivity.
  - unfold scheduled; simpl.
    rewrite <- app_assoc, List.filter_app.
    (rewrite (Hnone RequestStatusCb) by now left); reflexivity.
  - unfold scheduled; simpl.
    rewrite <- app_assoc, List.filter_app.
    (rewrite (Hnone SetOfflineCb) by now right); reflexivity.
  - assert (Hin : forall t,
               In t (rest ++
                       [{| timer_id := next_timer e;
                           due := now e + requestStatusTimeoutTime;
                           cb := RequestStatusCb |};
                        {| timer_id := S (next_timer e);
                           due := now e + setOffineTimeoutTime;
                           cb := SetOfflineCb |}]) ->
               (cb t = RequestStatusCb -> Some (next_timer e) = Some (timer_id t))
               /\ (cb t = SetOfflineCb -> Some (S (next_timer e)) = Some (timer_id t))).
    { intros t Ht. apply in_app_or in Ht as [Ht | [<- | [<- | []]]].
      - destruct (Hrest t Ht). split; intros; contradiction.
      - split; [reflexivity | discriminate].
      - split; [discriminate | reflexivity]. }
    unfold timersNamed; simpl.
    intros t Ht. rewrite <- app_assoc in Ht. apply (Hin t Ht).
Qed.

End Liveness.

(** ** Pairing: the "registered" confirmation *)

Section Pairing.
Context `{JsRuntime}.

(** The edit the esp drivers post on a confirmation when the PWM channels
    are already there. *)
Definition espConfirmEdit (d : DeviceDocument) : Intent :=
  EditDevice
    {| upd_conf := Some {| cu_topics := [Esp.deviceTopic d "#"];
                           cu_searching := false;
                           cu_extra := [("fadetime", JNum 500%float)] |};
       upd_features := None; upd_meta := [] |}
    false.

(** The edit the shutter driver posts when its three features are there. *)
Definition shutterConfirmEdit (d : DeviceDocument) : Intent :=
  EditDevice
    {| upd_conf := Some {| cu_topics := ["/device/" +:+ dev_id d +:+ "/#"];
                           cu_searching := false;
                           cu_extra := [("shutterMovementTime", JNum 10000%float);
                                        ("tiltMovementTime", JNum 2000%float)] |};
       upd_features := None; upd_meta := [] |}
    false.

(** C6, as the code has it: a "registered" confirmation that finds the
    required features present asks for no feature to be added and posts no
    [restartDeviceDriver], and it leaves the module state as it was; but
    every such confirmation posts the configuration edit again, without
    [preventRestart], so the edit that restarts the driver is repeated on
    every replay. *)
Theorem registered_replay_reposts_edit (message : string) (d : DeviceDocument) :
  message <> EmptyString ->
  (featureExists (features d) "pwm" = true ->
   forall w : Esp.State * Env,
     let w1 := (fst w, posted (espConfirmEdit d) (snd w)) in
     Esp.handleRegisteredDeviceMessage message d w = (Returned tt, w1)
     /\ Esp.handleRegisteredDeviceMessage message d w1
        = (Returned tt, (fst w, posted (espConfirmEdit d) (snd w1))))
  /\ (featureExists (features d) "temperature" = true ->
      featureExists (features d) "shutterY" = true ->
      featureExists (features d) "shutterTilt" = true ->
      forall (St : Type) (w : St * Env),
        let w1 := (fst w, posted (shutterConfirmEdit d) (snd w)) in
        Shutter.handleRegisteredDeviceMessage message d w = (Returned tt, w1)
        /\ Shutter.handleRegisteredDeviceMessage message d w1
           = (Returned tt, (fst w, posted (shutterConfirmEdit d) (snd w1))))
  /\ addedFeatures (espConfirmEdit d) = []
  /\ addedFeatures (shutterConfirmEdit d) = []
  /\ restarts (espConfirmEdit d) = true
  /\ restarts (shutterConfirmEdit d) = true.
Proof.
  intros Hm. apply String.eqb_neq in Hm.
  split; [|split; [|repeat split]].
  - intros Hpwm w w1.
    unfold Esp.handleRegisteredDeviceMessage, espConfirmEdit, when.
    rewrite Hm, Hpwm. split; reflexivity.
  - intros Ht Hy Htilt St w w1.
    unfold Shutter.handleRegisteredDeviceMessage, shutterConfirmEdit, when.
    rewrite Hm, Ht, Hy, Htilt. split; reflexivity.
Qed.

(** Once the esp-pwm driver has left the searching phase, a confirmation
    that is replayed reaches [handleMqttMessage], which has no branch for
    it: nothing is posted and the module state stays as it is. *)
Lemma registered_dropped_once_paired (topic message : string) (d : DeviceDocument)
    (w : Esp.State * Env) :
  startsWith topic (Esp.deviceTopic d "registered") = true ->
  EspPwm.handleMqttMessage topic message d w = (Returned tt, w).
Proof.
  intros Ht. unfold EspPwm.handleMqttMessage.
  rewrite !(topics_apart d "registered" _ topic) by
    (try exact Ht; intros u; now apply first_letter_apart).
  reflexivity.
Qed.

End Pairing.

Module PairingExamples.
Import Esp Reference.

Definition channel (i n : string) : Feature :=
  {| _id := Some i; name := "Channel " +:+ n; category := action;
     verifyvalue := pwmVerify; types := ["channel" +:+ n; "8bit"; "pwm"];
     unit_ := Some EmptyString; icon := Some "mdi-pulse"; type_ := None |}.

(** A device that went through pairing once: the three channels are there,
    the driver is in the searching phase again. *)
Definition paired : DeviceDocument :=
  {| dev_id := "esp1"; dev_icon := EmptyString;
     conf := Some {| topics := Some ["/newdevice/#"; "/device/esp1/#"];
                     props := {[ "searching" := JBool true ]} |};
     features := [channel "c1" "1"; channel "c2" "2"; channel "c3" "3"] |}.

Definition searchingAgain : State * Env :=
  snd (EspPwm.onMessage (Init paired None) (loaded paired, env0 0)).

Definition registered : Message := Mqtt "/device/esp1/registered" "1".

Lemma registered_replay_reposts_edit_witness :
  Esp.handleRegisteredDeviceMessage "1" paired (loaded paired, env0 0)
  = (Returned tt, (loaded paired, posted (espConfirmEdit paired) (env0 0))).
Proof.
  exact (proj1 (proj1 (registered_replay_reposts_edit "1" paired ltac:(discriminate))
                  eq_refl (loaded paired, env0 0))).
Defined.

(** C6 as stated fails: the confirmation replayed to the searching esp-pwm
    driver of a device whose channels are complete posts the restarting
    edit once more. *)
Lemma registered_replay_restarts_again :
  let afterFirst := snd (EspPwm.onMessage registered searchingAgain) in
  let afterReplay := snd (EspPwm.onMessage registered afterFirst) in
  outbox (snd afterReplay) = outbox (snd afterFirst) ++ [espConfirmEdit paired]
  /\ restarts (espConfirmEdit paired) = true
  /\ existsb restarts [espConfirmEdit paired] <> false.
Proof. vm_compute. repeat split. discriminate. Qed.

End PairingExamples.

(** ** The outbound path: state updates from the host *)

Section Outbound.
Context `{JsRuntime}.
Import Esp.
Local Open Scope handler_scope.

(** [parseInt(value)] scaled as the handlers scale it is not a number. *)
Definition notANumber (value : jsval) : bool :=
  isNaN (PrimFloat.mul 2.5%float (parseInt value)).

Lemma pwm_redisLoop_app d (a b : list (string * jsval)) (w : State * Env) :
  EspPwm.redisLoop d (a ++ b) w = (EspPwm.redisLoop d a;; EspPwm.redisLoop d b) w.
Proof.
  revert w. induction a as [|[id value] a IH]; intros w; simpl.
  - reflexivity.
  - unfold bind. destruct (EspPwm.redisEntry d id value w) as [[[]|ex] w'].
    + rewrite IH. reflexivity.
    + reflexivity.
Qed.

Lemma pin_redisLoop_app d (a b : list (string * jsval)) (w : State * Env) :
  EspPin.redisLoop d (a ++ b) w = (EspPin.redisLoop d a;; EspPin.redisLoop d b) w.
Proof.
  revert w. induction a as [|[id value] a IH]; intros w; simpl.
  - reflexivity.
  - unfold bind. destruct (EspPin.redisEntry d id value w) as [[[]|ex] w'].
    + rewrite IH. reflexivity.
    + reflexivity.
Qed.

(** An entry whose value is neither boolean-like nor a number does nothing
    in the esp-pwm driver, whatever feature it names. *)
Lemma pwm_redisEntry_invalid d id value (w : State * Env) :
  booleanLike value = false ->
  notANumber value = true ->
  EspPwm.redisEntry d id value w = (Returned tt, w).
Proof.
  intros Hb Hn. unfold EspPwm.redisEntry, notANumber in *.
  destruct (getFeatureByTypeOrNameOrId d id) as [feature|]; [|reflexivity].
  destruct (extractNumberFromArray (types feature)) as [|n ns]; [reflexivity|].
  destruct (truthy (JNum n)); [|reflexivity].
  rewrite Hb, Hn. reflexivity.
Qed.

(** The same in the pin driver for an entry that names a PWM feature (or
    no command feature at all). *)
Lemma pin_redisEntry_invalid d id value (w : State * Env) :
  (forall feature, getFeatureByTypeOrNameOrId d id = Some feature ->
                   category feature = action ->
                   includes (types feature) "pwm" = true) ->
  booleanLike value = false ->
  notANumber value = true ->
  EspPin.redisEntry d id value w = (Returned tt, w).
Proof.
  intros Hpwm Hb Hn. unfold EspPin.redisEntry, EspPin.publishPwm, notANumber in *.
  destruct (getFeatureByTypeOrNameOrId d id) as [feature|]; [|reflexivity].
  destruct (category feature) eqn:Hc; simpl; [reflexivity|].
  rewrite (Hpwm feature eq_refl Hc).
  destruct (EspPin.findSuffix "pin:" (types feature)) as [pin|]; [|reflexivity].
  destruct (negb (String.eqb pin EmptyString)); [|reflexivity].
  rewrite Hb, Hn. reflexivity.
Qed.

(** The command the esp-pwm driver publishes for a channel. *)
Definition pwmCommand (d : DeviceDocument) (channel : float) (value fade : jsval) : Intent :=
  PublishMessage (deviceTopic d "pwm/" +:+ numberToString channel)
                 (PObject [("value", value); ("fade", fade)]).

(** C7, as the code has it: in a batch of changed features, an entry for a
    PWM feature (any feature of the esp-pwm driver, a [pwm] feature of the
    pin driver) whose value is neither boolean-like nor parses to a number
    is skipped without a command, and the batch is handled exactly as if
    the entry were not in it, so the entries around it are translated and
    published as they would be without it; an entry with a boolean-like or
    numeric value for a channel feature of a configured device publishes
    its command. *)
Theorem invalid_value_skipped_alone (d : DeviceDocument)
    (pre post : list (string * jsval)) (id : string) (value : jsval) (w : State * Env) :
  booleanLike value = false ->
  notANumber value = true ->
  EspPwm.handleRedisMessage (Some (pre ++ (id, value) :: post)) d w
    = EspPwm.handleRedisMessage (Some (pre ++ post)) d w
  /\ ((forall feature, getFeatureByTypeOrNameOrId d id = Some feature ->
                       category feature = action ->
                       includes (types feature) "pwm" = true) ->
      EspPin.handleRedisMessage (Some (pre ++ (id, value) :: post)) d w
        = EspPin.handleRedisMessage (Some (pre ++ post)) d w)
  /\ (forall id' value' feature channel rest c,
         getFeatureByTypeOrNameOrId d id' = Some feature ->
         extractNumberFromArray (types feature) = channel :: rest ->
         truthy (JNum channel) = true ->
         conf d = Some c ->
         (booleanLike value' = true \/ notANumber value' = false) ->
         exists pwm_value fade,
           EspPwm.redisEntry d id' value' w
             = (Returned tt,
                (fst w, posted (pwmCommand d channel (JNum pwm_value) fade) (snd w)))).
Proof.
  intros Hb Hn. split; [|split].
  - simpl. rewrite !pwm_redisLoop_app. unfold bind.
    destruct (EspPwm.redisLoop d pre w) as [[[]|ex] w']; [|reflexivity].
    simpl. unfold bind at 1. now rewrite pwm_redisEntry_invalid.
  - intros Hpwm. simpl. rewrite !pin_redisLoop_app. unfold bind.
    destruct (EspPin.redisLoop d pre w) as [[[]|ex] w']; [|reflexivity].
    simpl. unfold bind at 1. now rewrite pin_redisEntry_invalid.
  - intros id' value' feature channel rest c Hf Hx Ht Hc Hv.
    unfold EspPwm.redisEntry, pwmCommand. rewrite Hf, Hx, Ht.
    destruct (booleanLike value') eqn:Hb'.
    + eexists _, _. destruct w. reflexivity.
    + destruct Hv as [Hv|Hv]; [discriminate|].
      unfold notANumber in Hv. rewrite Hv.
      unfold EspPwm.getPWMFadeTime. rewrite Hc.
      destruct w as [s e].
      destruct (props c !! ("fade_channel_" +:+ numberToString channel)) as [v|];
        eexists _, _; reflexivity.
Qed.

(** *** The zigbee driver *)

(** The loop over a batch in two parts: the second part runs only when the
    first ran to its end. *)
Lemma zigbee_redisLoop_app d (a b : list (string * jsval)) (w : Zigbee.State * Env) :
  Zigbee.redisLoop d (a ++ b) w =
  match Zigbee.redisLoop d a w with
  | (Returned true, w') => Zigbee.redisLoop d b w'
  | r => r
  end.
Proof.
  revert w. induction a as [|[id value] a IH]; intros w; simpl.
  - reflexivity.
  - unfold bind, getState, modify; simpl.
    destruct (negb (isNullish (Map_get (Zigbee.featureValue (fst w)) id))
              && strictEq (Map_get (Zigbee.featureValue (fst w)) id) value);
      [reflexivity|].
    match goal with
    | |- context [match ?m ?x with _ => _ end] => destruct (m x) as [[[]|ex] w']
    end.
    + apply IH.
    + reflexivity.
Qed.

(** C10, as the code has it: an entry of the batch whose value is strictly
    equal to the cached value of its identifier, that value being neither
    [undefined] nor [null], ends the zigbee handler at once.  When the
    entries before it were handled to the end, the handler stops in the
    state they left: no entry behind it is cached, translated or
    published. *)
Theorem unchanged_entry_ends_batch (d : DeviceDocument)
    (pre post : list (string * jsval)) (id : string) (value : jsval)
    (w w1 : Zigbee.State * Env) :
  Zigbee.redisLoop d pre w = (Returned true, w1) ->
  isNullish (Map_get (Zigbee.featureValue (fst w1)) id) = false ->
  strictEq (Map_get (Zigbee.featureValue (fst w1)) id) value = true ->
  Zigbee.redisLoop d (pre ++ (id, value) :: post) w = (Returned false, w1)
  /\ Zigbee.handleRedisMessage (Some (pre ++ (id, value) :: post)) d w = (Returned tt, w1)
  /\ Zigbee.handleRedisMessage (Some (pre ++ [(id, value)])) d w = (Returned tt, w1).
Proof.
  intros Hpre Hnull Heq.
  assert (Hloop : forall rest,
             Zigbee.redisLoop d (pre ++ (id, value) :: rest) w = (Returned false, w1)).
  { intros rest. rewrite zigbee_redisLoop_app, Hpre. simpl.
    unfold bind, getState; simpl. now rewrite Hnull, Heq. }
  split; [apply Hloop|].
  split; simpl; unfold bind; now rewrite Hloop.
Qed.

End Outbound.

(** *** Concrete runs of the outbound path *)

Module OutboundExamples.
Import Esp Reference.

(** A registered esp-pwm device with three channels. *)
Definition dimmer : DeviceDocument :=
  {| dev_id := "esp1"; dev_icon := EmptyString;
     conf := Some {| topics := Some ["/device/esp1/#"];
                     props := {[ "searching" := JBool false;
                                 "fadetime" := JNum 500%float ]} |};
     features := [PairingExamples.channel "c1" "1";
                  PairingExamples.channel "c2" "2";
                  PairingExamples.channel "c3" "3"] |}.

Definition dimmerReady : State * Env :=
  snd (EspPwm.onMessage (Init dimmer None) (loaded dimmer, env0 0)).

(** One value that is no number between two valid ones. *)
Lemma invalid_value_skipped_alone_witness :
  EspPwm.handleRedisMessage
    (Some [("c1", JStr "50"); ("c2", JStr "abc"); ("c3", JBool true)]) dimmer dimmerReady
  = EspPwm.handleRedisMessage
      (Some [("c1", JStr "50"); ("c3", JBool true)]) dimmer dimmerReady.
Proof.
  exact (proj1 (invalid_value_skipped_alone dimmer [("c1", JStr "50")]
                  [("c3", JBool true)] "c2" (JStr "abc") dimmerReady eq_refl eq_refl)).
Defined.

(** The batch with the invalid value publishes the two valid commands. *)
Example batch_of_three_publishes_two :
  outbox (snd (snd (EspPwm.onMessage
                      (Redis (Some [("c1", JStr "50"); ("c2", JStr "abc");
                                    ("c3", JBool true)]))
                      dimmerReady)))
  = [pwmCommand dimmer 1%float (JNum 125%float) (JNum 500%float);
     pwmCommand dimmer 3%float (JNum 255%float) (JNum 0%float)].
Proof. vm_compute. reflexivity. Qed.

(** A registered pin driver device: a neopixel strip and a PWM pin. *)
Definition strip : Feature :=
  {| _id := Some "rgb1"; name := "Strip"; category := action;
     verifyvalue := EmptyString; types := ["color"; "neopixel"];
     unit_ := None; icon := None; type_ := None |}.

Definition lamp : Feature :=
  {| _id := Some "p1"; name := "Lamp"; category := action;
     verifyvalue := EmptyString; types := ["pwm"; "pin:5"];
     unit_ := None; icon := None; type_ := None |}.

Definition dimming : Feature :=
  {| _id := Some "br1"; name := "Brightness"; category := action;
     verifyvalue := EmptyString; types := ["neopixel_brightness"];
     unit_ := None; icon := None; type_ := None |}.

Definition board : DeviceDocument :=
  {| dev_id := "esp2"; dev_icon := EmptyString;
     conf := Some {| topics := Some ["/device/esp2/#"];
                     props := {[ "searching" := JBool false ]} |};
     features := [strip; lamp; dimming] |}.

Definition boardReady (rt : JsRuntime) : State * Env :=
  snd (EspPin.onMessage (Init board None) (loaded board, env0 0)).

(** The two features handled alone, and a valid colour in front of the
    lamp: every command is published. *)
Example valid_colour_and_lamp_published :
  skipn 1 (outbox (snd (snd (EspPin.onMessage
                      (Redis (Some [("rgb1", JStr "#0a141e"); ("p1", JStr "50")]))
                      (boardReady runtime)))))
  = [PublishMessage "/device/esp2/rgb"
       (PObject [("r", JNum 10%float); ("g", JNum 20%float); ("b", JNum 30%float);
                 ("fade", JNum 1000%float)]);
     PublishMessage "/device/esp2/pwm/5"
       (PObject [("value", JNum 125%float); ("fade", JNum 500%float)])].
Proof. vm_compute. reflexivity. Qed.

(** C7 as stated fails in the pin driver: the brightness of the strip is
    published with a value that is neither boolean-like nor a number; only
    the PWM path checks the value. *)
Lemma invalid_brightness_published :
  booleanLike (JStr "abc") = false
  /\ notANumber (JStr "abc") = true
  /\ outbox (snd (snd (EspPin.onMessage (Redis (Some [("br1", JStr "abc")]))
                                        (boardReady runtime))))
     = outbox (snd (boardReady runtime))
       ++ [PublishMessage "/device/esp2/config/neopixel"
             (PObject [("brightness", JStr "abc")])].
Proof. vm_compute. repeat split. Qed.

(** C8 on the code: a colour string of five digits makes [hexToRgb] throw;
    nothing catches the exception, it leaves the state-update handler and
    the message listener, and the valid entry behind it is never
    published.  This holds whatever the engine's conversions are. *)
Theorem invalid_colour_throws_out_of_handler (rt : JsRuntime) :
  EspPin.onMessage (Redis (Some [("rgb1", JStr "12345"); ("p1", JStr "50")]))
                   (boardReady rt)
  = (Thrown (Error "Invalid hex color string"), boardReady rt)
  /\ EspPin.onMessage (Redis (Some [("rgb1", JNum 5%float); ("p1", JStr "50")]))
                      (boardReady rt)
     = (Thrown (TypeError "hex.replace is not a function"), boardReady rt).
Proof. split; vm_compute; reflexivity. Qed.

(** A zigbee bulb with a state and a brightness feature; the cached state
    is [true]. *)
Definition bulbState : Feature :=
  {| _id := Some "s1"; name := "State"; category := action;
     verifyvalue := EmptyString; types := ["state"; "switch"; "boolean"];
     unit_ := None; icon := None; type_ := None |}.

Definition bulbBrightness : Feature :=
  {| _id := Some "b1"; name := "Brightness"; category := action;
     verifyvalue := EmptyString; types := ["brightness"; "8bit"; "percent"];
     unit_ := None; icon := None; type_ := None |}.

Definition bulb : DeviceDocument :=
  {| dev_id := "z1"; dev_icon := EmptyString;
     conf := Some {| topics := Some ["zigbee2mqtt/bulb/#"];
                     props := {[ "friendly_name" := JStr "bulb";
                                 "type" := JStr "LED1835C6";
                                 "inited" := JBool true ]} |};
     features := [bulbState; bulbBrightness] |}.

Definition bulbOn : Zigbee.State * Env :=
  ({| Zigbee.device := bulb; Zigbee.featureValue := [("s1", JBool true)] |}, env0 0).

(** The unchanged state in front of a new brightness: nothing is published
    and the brightness is not cached. *)
Lemma unchanged_entry_ends_batch_witness :
  Zigbee.handleRedisMessage (Some [("s1", JBool true); ("b1", JNum 100%float)]) bulb bulbOn
  = (Returned tt, bulbOn).
Proof.
  exact (proj1 (proj2 (unchanged_entry_ends_batch bulb [] [("b1", JNum 100%float)]
                         "s1" (JBool true) bulbOn bulbOn eq_refl eq_refl eq_refl))).
Defined.

(** The same brightness alone is published. *)
Example brightness_alone_published :
  outbox (snd (snd (Zigbee.handleRedisMessage (Some [("b1", JNum 100%float)]) bulb bulbOn)))
  = [PublishMessage "zigbee2mqtt/bulb/set"
       (PObject [("brightness", JNum 100%float); ("transition", JNum 0%float)])].
Proof. vm_compute. reflexivity. Qed.

End OutboundExamples.

(** ** The FritzBox login *)

Section Login.
Context `{JsRuntime}.
Import Fritzbox.

(** The attempt counter holds no number: it was never given a value, or it
    was incremented from that. *)
Definition countLost (s : State) : Prop :=
  loginTryCount s = JUndefined \/ loginTryCount s = JNum nan.

Lemma countLost_no_ceiling s : countLost s -> ceilingReached s = false.
Proof. intros [Hc|Hc]; unfold ceilingReached; rewrite Hc; reflexivity. Qed.

Lemma countLost_kept t net s :
  countLost s ->
  fst (fst (getFritzBoxSID t net s)) <> Exited
  /\ countLost (snd (getFritzBoxSID t net s)).
Proof.
  intros Hs. unfold getFritzBoxSID.
  rewrite (countLost_no_ceiling s Hs).
  assert (Hnext : JNum (PrimFloat.add (toNumber (loginTryCount s)) 1%float) = JNum nan)
    by (destruct Hs as [Hc|Hc]; rewrite Hc; reflexivity).
  rewrite Hnext.
  repeat match goal with
         | |- context [if ?b then _ else _] => destruct b
         | |- context [match matchBetween ?a ?b ?c with _ => _ end] =>
             destruct (matchBetween a b c) as [[|? ?]|]
         end;
    simpl; (split; [discriminate | first [exact Hs | right; reflexivity]]).
Qed.

Lemma calls_never_exit cs s :
  countLost s ->
  Forall (fun ra => fst ra <> Exited) (fst (calls cs s)).
Proof.
  revert s. induction cs as [|[t net] cs IH]; intros s Hs; simpl.
  - constructor.
  - destruct (countLost_kept t net s Hs) as [Hne Hs'].
    destruct (getFritzBoxSID t net s) as [[r a] s']; simpl in *.
    specialize (IH s' Hs').
    destruct r as [b|]; [|congruence].
    destruct (calls cs s') as [out s'']. simpl in *.
    constructor; [simpl; discriminate | exact IH].
Qed.

(** A call that is not in the cooldown window of the one before goes out
    to the network as long as the counter holds no number. *)
Lemma call_goes_out t net s :
  countLost s ->
  recentTry s t = false ->
  snd (fst (getFritzBoxSID t net s)) = Requested.
Proof.
  intros Hs Hr. unfold getFritzBoxSID.
  rewrite Hr, (countLost_no_ceiling s Hs).
  repeat match goal with
         | |- context [if ?b then _ else _] => destruct b
         | |- context [match matchBetween ?a ?b ?c with _ => _ end] =>
             destruct (matchBetween a b c) as [[|? ?]|]
         end; reflexivity.
Qed.

End Login.

Module LoginExamples.
Import Fritzbox Reference.

(** The box answers with a challenge and rejects the response. *)
Definition rejecting : Network :=
  {| data := "<SID>0000000000000000</SID><Challenge>1234567z</Challenge>";
     dataWithCredentials := "<SID>0000000000000000</SID>" |}.

(** [n] calls, forty seconds apart. *)
Fixpoint spaced (n : nat) (t : Z) : list (Z * Network) :=
  match n with
  | O => []
  | S n' => (t, rejecting) :: spaced n' (t + 40000)
  end.

(** C9 on the code: the attempt counter is declared without a value, so
    the first increment makes it [NaN] and the comparison with the ceiling
    is never true.  No run of calls makes the process exit; twenty-five
    rejected logins, forty seconds apart, all go out to the network, the
    twenty-first to the twenty-fifth included.  The cooldown holds: a call
    less than thirty seconds after an attempt resolves to [false] without a
    request. *)
Theorem login_ceiling_never_reached :
  (forall (rt : JsRuntime) (cs : list (Z * Network)),
      Forall (fun ra => fst ra <> Exited) (fst (calls cs loaded)))
  /\ fst (calls (spaced 25 1000) loaded)
     = repeat (Resolved false, Requested) 25
  /\ loginTryCount (snd (calls (spaced 25 1000) loaded)) = JNum nan
  /\ (forall (rt : JsRuntime) (t : Z) (net : Network) (s : State),
         recentTry s t = true ->
         getFritzBoxSID t net s = (Resolved false, NoRequest, s)).
Proof.
  split; [|split; [|split]].
  - intros rt cs. apply calls_never_exit. now left.
  - vm_compute. reflexivity.
  - vm_compute. reflexivity.
  - intros rt t net s Hr. unfold getFritzBoxSID. now rewrite Hr.
Qed.

Lemma login_ceiling_never_reached_witness :
  getFritzBoxSID 20000 rejecting
    (snd (getFritzBoxSID 1000 rejecting loaded))
  = (Resolved false, NoRequest, snd (getFritzBoxSID 1000 rejecting loaded)).
Proof.
  exact (proj2 (proj2 (proj2 login_ceiling_never_reached)) runtime 20000 rejecting
           (snd (getFritzBoxSID 1000 rejecting loaded)) eq_refl).
Defined.

End LoginExamples.

(** *** A cached [null] *)

Module NullEntryExamples.
Import Reference.

(** The bulb of the outbound examples after a state update that carried
    [null] for its state: the cache holds [null]. *)
Definition bulbNull : Zigbee.State * Env :=
  snd (Zigbee.handleRedisMessage (Some [("s1", JNull)]) OutboundExamples.bulb
         ({| Zigbee.device := OutboundExamples.bulb; Zigbee.featureValue := [] |}, env0 0)).

(** C10 as stated fails: the cached value of the state is [null] and the
    incoming value is strictly equal to it, yet the handler does not
    return.  The guard tests [oldValue != undefined] first, which a cached
    [null] does not pass: the entry is translated again, and the
    brightness behind it is cached and published. *)
Lemma null_entry_does_not_end_batch :
  let batch := [("s1", JNull); ("b1", JNum 100%float)] in
  let result := Zigbee.handleRedisMessage (Some batch) OutboundExamples.bulb bulbNull in
  Map_get (Zigbee.featureValue (fst bulbNull)) "s1" = JNull
  /\ strictEq (Map_get (Zigbee.featureValue (fst bulbNull)) "s1") JNull = true
  /\ result <> (Returned tt, bulbNull)
  /\ Map_get (Zigbee.featureValue (fst (snd result))) "b1" = JNum 100%float
  /\ outbox (snd (snd result))
     = outbox (snd bulbNull)
       ++ [PublishMessage "zigbee2mqtt/bulb/set"
             (PObject [("state", JStr "OFF"); ("transition", JNum 0%float)]);
           PublishMessage "zigbee2mqtt/bulb/set"
             (PObject [("brightness", JNum 100%float); ("transition", JNum 0%float)]);
           SetData None None [("s1", JBool true)]].
Proof.
  vm_compute. repeat split; try reflexivity. discriminate.
Qed.

End NullEntryExamples.

(** * Further properties of the drivers *)

(** ** The esp-pwm driver: what every run keeps *)

Section PwmInvariants.
Context `{JsRuntime}.
Import Esp.
Local Open Scope handler_scope.

(** A timer that is neither the probe nor the offline declaration. *)
Definition otherTimer (t : Timer) : Prop :=
  cb t <> RequestStatusCb /\ cb t <> SetOfflineCb.

(** What the handlers of the esp-pwm driver other than
    [offlineTimeoutStart] and [init] may change: they post intents, write
    the status, the value cache, the feature list and the add-feature
    list, and schedule delayed restarts.  The phase, the configuration, the
    two timer variables, the clock and the timers already pending stay. *)
Definition Benign (w w' : State * Env) : Prop :=
  searching (fst w') = searching (fst w)
  /\ conf (device (fst w')) = conf (device (fst w))
  /\ setOffineTimeout (fst w') = setOffineTimeout (fst w)
  /\ requestStatusTimeout (fst w') = requestStatusTimeout (fst w)
  /\ now (snd w') = now (snd w)
  /\ exists extra,
       pending (snd w') = pending (snd w) ++ extra
       /\ Forall otherTimer extra
       /\ map timer_id extra = seq (next_timer (snd w)) (length extra)
       /\ next_timer (snd w') = (next_timer (snd w) + length extra)%nat.

Lemma Benign_refl w : Benign w w.
Proof.
  repeat split. exists []. rewrite app_nil_r. simpl. repeat split; auto.
Qed.

Lemma Benign_trans w1 w2 w3 : Benign w1 w2 -> Benign w2 w3 -> Benign w1 w3.
Proof.
  intros (Hs & Hc & Ho & Hr & Hn & x1 & Hp1 & Hf1 & Hi1 & Hk1)
         (Hs' & Hc' & Ho' & Hr' & Hn' & x2 & Hp2 & Hf2 & Hi2 & Hk2).
  repeat split; try congruence.
  exists (x1 ++ x2). repeat split.
  - rewrite Hp2, Hp1. now rewrite app_assoc.
  - apply Forall_app; now split.
  - rewrite map_app, length_app, seq_app, Hi1, Hi2, Hk1. reflexivity.
  - rewrite Hk2, Hk1, length_app. lia.
Qed.

(** A computation that returns and changes the world benignly. *)
Definition Quiet {A} (m : M State A) : Prop :=
  forall w, exists a w', m w = (Returned a, w') /\ Benign w w'.

Lemma Quiet_ret {A} (a : A) : Quiet (ret a).
Proof. intros w. exists a, w. split; [reflexivity | apply Benign_refl]. Qed.

Lemma Quiet_bind {A B} (m : M State A) (k : A -> M State B) :
  Quiet m -> (forall a, Quiet (k a)) -> Quiet (bind m k).
Proof.
  intros Hm Hk w. destruct (Hm w) as (a & w1 & E1 & B1).
  destruct (Hk a w1) as (b & w2 & E2 & B2).
  exists b, w2. unfold bind. rewrite E1. split; [exact E2 | eapply Benign_trans; eauto].
Qed.

Lemma Quiet_when (b : bool) (m : M State unit) : Quiet m -> Quiet (when b m).
Proof. intros Hm. destruct b; [exact Hm | apply Quiet_ret]. Qed.

Lemma Quiet_getState : Quiet (@getState State).
Proof. intros w. exists (fst w), w. split; [reflexivity | apply Benign_refl]. Qed.

Lemma Quiet_post (i : Intent) : Quiet (@post State i).
Proof.
  intros [s e]. eexists tt, _. split; [reflexivity|].
  repeat split. exists []. simpl. rewrite app_nil_r. repeat split; auto.
Qed.

(** A write to a module variable other than the phase, the timer variables
    and the device configuration. *)
Definition sideWrite (f : State -> State) : Prop :=
  forall s, searching (f s) = searching s
            /\ conf (device (f s)) = conf (device s)
            /\ setOffineTimeout (f s) = setOffineTimeout s
            /\ requestStatusTimeout (f s) = requestStatusTimeout s.

Lemma Quiet_modify (f : State -> State) : sideWrite f -> Quiet (modify f).
Proof.
  intros Hf [s e]. eexists tt, _. split; [reflexivity|].
  destruct (Hf s) as (H1 & H2 & H3 & H4). simpl.
  repeat split; auto. exists []. rewrite app_nil_r. simpl. repeat split; auto.
Qed.

Lemma Quiet_restart_timer (deviceId : string) (delay : Z) :
  Quiet (@setTimeout State (RestartCb deviceId) delay).
Proof.
  intros [s e]. eexists _, _. split; [reflexivity|]. simpl.
  repeat split.
  exists [{| timer_id := next_timer e; due := now e + delay; cb := RestartCb deviceId |}].
  simpl. repeat split; auto.
  - constructor; [|constructor]. split; discriminate.
  - lia.
Qed.

Ltac quiet :=
  repeat first
    [ apply Quiet_ret
    | apply Quiet_getState
    | apply Quiet_post
    | apply Quiet_restart_timer
    | apply Quiet_when
    | apply Quiet_modify; intros ?; simpl; tauto
    | apply Quiet_bind; [|intros ?]
    | match goal with
      | |- Quiet (match ?x with _ => _ end) => destruct x
      | |- Quiet (if ?x then _ else _) => destruct x
      | |- Quiet (let _ := _ in _) => cbv zeta
      end ].

Lemma Quiet_handleReading tag template threshold message :
  Quiet (handleReading tag template threshold message).
Proof. unfold handleReading. quiet. Qed.

Lemma Quiet_handleMqttMessage topic message d :
  Quiet (EspPwm.handleMqttMessage topic message d).
Proof.
  unfold EspPwm.handleMqttMessage, EspPwm.handleInfo, EspPwm.handleStatus,
    EspPwm.sendDeviceSettings.
  pose proof Quiet_handleReading. quiet; auto.
Qed.

Lemma Quiet_handleSearchingMqttMessage topic message d :
  Quiet (EspPwm.handleSearchingMqttMessage topic message d).
Proof.
  unfold EspPwm.handleSearchingMqttMessage, handleNewDeviceMessage,
    handleRegisteredDeviceMessage.
  quiet.
Qed.

Lemma Quiet_redisEntry d id value :
  conf d <> None -> Quiet (EspPwm.redisEntry d id value).
Proof.
  intros Hc. unfold EspPwm.redisEntry, EspPwm.getPWMFadeTime.
  destruct (conf d) as [c|]; [|contradiction]. quiet.
Qed.

Lemma Quiet_handleRedisMessage feature d :
  conf d <> None -> Quiet (EspPwm.handleRedisMessage feature d).
Proof.
  intros Hc. destruct feature as [entries|]; simpl; [|apply Quiet_ret].
  induction entries as [|[id value] entries IH]; simpl.
  - apply Quiet_ret.
  - apply Quiet_bind; [now apply Quiet_redisEntry | intros _; exact IH].
Qed.

(** *** The invariant *)

(** What holds of the esp-pwm driver in every state it reaches: a
    registered device has a configuration; the pending timers have distinct
    handles, all handed out already; and every pending probe or offline
    timer is the one its variable names. *)
Record PwmInv (w : State * Env) : Prop := {
  inv_conf : searching (fst w) = false -> conf (device (fst w)) <> None;
  inv_nodup : NoDup (map timer_id (pending (snd w)));
  inv_fresh : forall t, In t (pending (snd w)) -> (timer_id t < next_timer (snd w))%nat;
  inv_named : timersNamed w
}.

Lemma PwmInv_loaded (d : DeviceDocument) (t : Z) : PwmInv (loaded d, env0 t).
Proof.
  split; simpl.
  - discriminate.
  - constructor.
  - intros t' [].
  - intros t' [].
Qed.

Lemma seq_not_below (a n x : nat) : In x (seq a n) -> (a <= x)%nat.
Proof. rewrite in_seq. lia. Qed.

Lemma PwmInv_Benign w w' : PwmInv w -> Benign w w' -> PwmInv w'.
Proof.
  intros [Hc Hd Hf Hn] (Hs & Hcf & Ho & Hr & _ & extra & Hp & Hx & Hi & Hk).
  split.
  - rewrite Hs, Hcf. exact Hc.
  - rewrite Hp, map_app, Hi. apply NoDup_app. repeat split.
    + exact Hd.
    + intros x Hx1 Hx2. apply list_elem_of_In in Hx1, Hx2.
      apply seq_not_below in Hx2.
      apply in_map_iff in Hx1 as (t & <- & Ht). specialize (Hf t Ht). lia.
    + apply NoDup_seq.
  - intros t Ht. rewrite Hp in Ht. rewrite Hk.
    apply in_app_or in Ht as [Ht|Ht].
    + specialize (Hf t Ht). lia.
    + assert (In (timer_id t) (map timer_id extra)) as Hin by now apply in_map.
      rewrite Hi in Hin. apply in_seq in Hin. lia.
  - intros t Ht. rewrite Hp in Ht. rewrite Ho, Hr.
    apply in_app_or in Ht as [Ht|Ht].
    + exact (Hn t Ht).
    + rewrite List.Forall_forall in Hx. destruct (Hx t Ht) as [H1 H2].
      split; intros; contradiction.
Qed.

(** A computation that returns and keeps the invariant, the phase and the
    configuration. *)
Definition Keeps {A} (m : M State A) : Prop :=
  forall w, PwmInv w ->
    exists a w', m w = (Returned a, w') /\ PwmInv w'
                 /\ searching (fst w') = searching (fst w)
                 /\ conf (device (fst w')) = conf (device (fst w)).

Lemma Keeps_Quiet {A} (m : M State A) : Quiet m -> Keeps m.
Proof.
  intros Hm w Hw. destruct (Hm w) as (a & w' & E & B).
  exists a, w'. split; [exact E|]. split; [eapply PwmInv_Benign; eauto|].
  destruct B as (Hs & Hc & _). now split.
Qed.

Lemma Keeps_bind {A B} (m : M State A) (k : A -> M State B) :
  Keeps m -> (forall a, Keeps (k a)) -> Keeps (bind m k).
Proof.
  intros Hm Hk w Hw. destruct (Hm w Hw) as (a & w1 & E1 & I1 & S1 & C1).
  destruct (Hk a w1 I1) as (b & w2 & E2 & I2 & S2 & C2).
  exists b, w2. unfold bind. rewrite E1.
  split; [exact E2|]. split; [exact I2|]. split; congruence.
Qed.

Lemma NoDup_ids_filter (f : Timer -> bool) (ts : list Timer) :
  NoDup (map timer_id ts) -> NoDup (map timer_id (List.filter f ts)).
Proof.
  induction ts as [|t ts IH]; simpl; intros Hd; [constructor|].
  inversion Hd as [|x l Hx Hl]; subst.
  destruct (f t); simpl; [|now apply IH].
  constructor; [|now apply IH].
  intros Hin. apply Hx. apply list_elem_of_In. apply list_elem_of_In in Hin.
  apply in_map_iff in Hin as (u & Hu & Hin).
  apply filter_In in Hin as [Hin _]. apply in_map_iff. now exists u.
Qed.

Lemma cleared_NoDup h ts :
  NoDup (map timer_id ts) -> NoDup (map timer_id (cleared h ts)).
Proof. destruct h; simpl; [apply NoDup_ids_filter | auto]. Qed.

(** The clearing half of [offlineTimeoutStart]. *)
Lemma Keeps_clear (clear : bool) :
  Keeps (when clear
           (s <- @getState State;;
            clearTimeout (setOffineTimeout s);;
            modify (set_setOffineTimeout None);;
            clearTimeout (requestStatusTimeout s);;
            modify (set_requestStatusTimeout None))).
Proof.
  destruct clear; [|apply Keeps_Quiet, Quiet_ret].
  intros [s e] [Hc Hd Hf Hn]. destruct s as [sg st dv so rq afp fv].
  destruct e as [nw nt ts ob]. unfold timersNamed in Hn. simpl in *.
  exists tt,
    ({| searching := sg; deviceStatus := st; device := dv;
        setOffineTimeout := None; requestStatusTimeout := None;
        addFeatureProcess := afp; featureValue := fv |},
     {| now := nw; next_timer := nt;
        pending := cleared rq (cleared so ts); outbox := ob |}).
  split; [destruct so, rq; reflexivity|].
  split; [|split; reflexivity].
  split; simpl.
  - exact Hc.
  - now apply cleared_NoDup, cleared_NoDup.
  - intros t Ht. apply cleared_In in Ht as [Ht _]. apply cleared_In in Ht as [Ht _].
    now apply Hf.
  - intros t Ht. simpl in Ht.
    apply cleared_In in Ht as [Ht Hr]. apply cleared_In in Ht as [Ht Ho].
    destruct (Hn t Ht) as [H1 H2].
    split; intros Hcb; [now apply H1 in Hcb | now apply H2 in Hcb].
Qed.

(** Arming one of the two timers when its variable is empty. *)
Lemma Keeps_arm_probe :
  Keeps (s <- @getState State;;
         when (isNone (requestStatusTimeout s))
           (h <- setTimeout RequestStatusCb requestStatusTimeoutTime;;
            modify (set_requestStatusTimeout (Some h)))).
Proof.
  intros [s e] [Hc Hd Hf Hn]. destruct s as [sg st dv so rq afp fv].
  destruct e as [nw nt ts ob]. unfold timersNamed in Hn. simpl in *.
  destruct rq as [h|].
  - eexists tt, _. split; [reflexivity|]. split; [|split; reflexivity].
    split; assumption.
  - eexists tt, _. split; [reflexivity|]. split; [|split; reflexivity].
    split; simpl.
    + exact Hc.
    + rewrite map_app. simpl. apply NoDup_app. repeat split; [exact Hd | |].
      * intros x Hx1 Hx2. apply list_elem_of_In in Hx1, Hx2.
        destruct Hx2 as [<-|[]].
        apply in_map_iff in Hx1 as (t & Ht & Hin). specialize (Hf t Hin). lia.
      * constructor; [intros Hin; apply list_elem_of_In in Hin; destruct Hin | constructor].
    + intros t Ht. apply in_app_or in Ht as [Ht | [<- | []]]; simpl.
      * specialize (Hf t Ht). lia.
      * lia.
    + intros t Ht. simpl in Ht. apply in_app_or in Ht as [Ht | [<- | []]]; simpl.
      * destruct (Hn t Ht) as [H1 H2]. split; [|exact H2].
        intros Hcb. apply H1 in Hcb. discriminate.
      * split; [reflexivity | discriminate].
Qed.

Lemma Keeps_arm_offline :
  Keeps (s <- @getState State;;
         when (isNone (setOffineTimeout s))
           (h <- setTimeout SetOfflineCb setOffineTimeoutTime;;
            modify (set_setOffineTimeout (Some h)))).
Proof.
  intros [s e] [Hc Hd Hf Hn]. destruct s as [sg st dv so rq afp fv].
  destruct e as [nw nt ts ob]. unfold timersNamed in Hn. simpl in *.
  destruct so as [h|].
  - eexists tt, _. split; [reflexivity|]. split; [|split; reflexivity].
    split; assumption.
  - eexists tt, _. split; [reflexivity|]. split; [|split; reflexivity].
    split; simpl.
    + exact Hc.
    + rewrite map_app. simpl. apply NoDup_app. repeat split; [exact Hd | |].
      * intros x Hx1 Hx2. apply list_elem_of_In in Hx1, Hx2.
        destruct Hx2 as [<-|[]].
        apply in_map_iff in Hx1 as (t & Ht & Hin). specialize (Hf t Hin). lia.
      * constructor; [intros Hin; apply list_elem_of_In in Hin; destruct Hin | constructor].
    + intros t Ht. apply in_app_or in Ht as [Ht | [<- | []]]; simpl.
      * specialize (Hf t Ht). lia.
      * lia.
    + intros t Ht. simpl in Ht. apply in_app_or in Ht as [Ht | [<- | []]]; simpl.
      * destruct (Hn t Ht) as [H1 H2]. split; [exact H1|].
        intros Hcb. apply H2 in Hcb. discriminate.
      * split; [discriminate | reflexivity].
Qed.

Lemma Keeps_offlineTimeoutStart (clear : bool) : Keeps (EspPwm.offlineTimeoutStart clear).
Proof.
  unfold EspPwm.offlineTimeoutStart.
  apply Keeps_bind; [apply Keeps_clear | intros _].
  change (Keeps (bind (s <- @getState State;;
                       when (isNone (requestStatusTimeout s))
                         (h <- setTimeout RequestStatusCb requestStatusTimeoutTime;;
                          modify (set_requestStatusTimeout (Some h))))
                      (fun _ =>
                         s <- @getState State;;
                         when (isNone (setOffineTimeout s))
                           (h <- setTimeout SetOfflineCb setOffineTimeoutTime;;
                            modify (set_setOffineTimeout (Some h)))))).
  apply Keeps_bind; [apply Keeps_arm_probe | intros _; apply Keeps_arm_offline].
Qed.

Lemma init_keeps (d : DeviceDocument) (values : option (list (string * jsval)))
    (w : State * Env) :
  PwmInv w ->
  exists w', EspPwm.onMessage (Init d values) w = (Returned tt, w') /\ PwmInv w'.
Proof.
  intros [Hc Hd Hf Hn]. destruct w as [s e]. destruct s as [sg st dv so rq afp fv].
  destruct e as [nw nt ts ob]. unfold timersNamed in Hn. simpl in *.
  unfold EspPwm.onMessage, EspPwm.handleInitMessage, initSearching.
  destruct (conf d) as [c|] eqn:Hconf.
  - destruct (Nat.eqb (confKeys c) 0
              || negb (looseEqFalse (getProp (props c) "searching"))).
    + destruct (topics c) as [tl|]; [destruct (negb (includes tl "/newdevice/#"))|];
        (eexists; split; [unfold bind, modify, post, when, ret; simpl; rewrite ?Hconf;
                          reflexivity|]);
        (split; simpl; [discriminate | assumption | assumption | exact Hn]).
    + eexists. split; [reflexivity|].
      split; simpl; [intros _; rewrite Hconf; discriminate | assumption | assumption
                     | exact Hn].
  - eexists. split; [unfold bind, modify, post, when, ret; simpl; rewrite ?Hconf;
                     reflexivity|].
    split; simpl; [discriminate | assumption | assumption | exact Hn].
Qed.

(** The esp-pwm driver handles every message from every state that
    satisfies the invariant without an exception, and the invariant holds
    again afterwards. *)
Lemma onMessage_keeps (m : Message) (w : State * Env) :
  PwmInv w ->
  exists w', EspPwm.onMessage m w = (Returned tt, w') /\ PwmInv w'.
Proof.
  intros Hw.
  assert (Hdone : forall (k : M State unit), Keeps k ->
            exists w', k w = (Returned tt, w') /\ PwmInv w').
  { intros k Hk. destruct (Hk w Hw) as ([] & w' & E & I & _). now exists w'. }
  destruct m as [d values | topic payload | feature | type].
  - now apply init_keeps.
  - unfold EspPwm.onMessage. unfold bind at 1. unfold getState. cbv beta iota.
    destruct (searching (fst w)).
    + apply Hdone, Keeps_Quiet, Quiet_handleSearchingMqttMessage.
    + apply Hdone.
      apply Keeps_bind;
        [apply Keeps_bind;
           [apply Keeps_Quiet, Quiet_handleMqttMessage
           | intros _; apply Keeps_offlineTimeoutStart]
        | intros _].
      apply Keeps_bind;
        [apply Keeps_Quiet, Quiet_ret | intros _; apply Keeps_offlineTimeoutStart].
  - unfold EspPwm.onMessage. unfold bind at 1. unfold getState. cbv beta iota.
    destruct (searching (fst w)) eqn:Hs.
    + apply Hdone, Keeps_Quiet, Quiet_ret.
    + pose proof (inv_conf w Hw Hs) as Hconf.
      unfold bind at 1. unfold ret at 1. cbv beta iota.
      unfold bind at 1. unfold bind at 1. unfold getState. cbv beta iota.
      destruct (Quiet_handleRedisMessage feature (device (fst w)) Hconf w)
        as ([] & w1 & E1 & B1).
      rewrite E1.
      destruct (Keeps_offlineTimeoutStart false w1 (PwmInv_Benign w w1 Hw B1))
        as ([] & w2 & E2 & I2 & _).
      exists w2. now split.
  - unfold EspPwm.onMessage. unfold bind at 1. unfold getState. cbv beta iota.
    destruct (searching (fst w)).
    + apply Hdone, Keeps_Quiet, Quiet_ret.
    + apply Hdone.
      apply Keeps_bind; [apply Keeps_Quiet, Quiet_ret | intros _].
      apply Keeps_bind;
        [apply Keeps_Quiet, Quiet_ret | intros _; apply Keeps_offlineTimeoutStart].
Qed.

Lemma Keeps_runCallback (c : Callback) : Keeps (EspPwm.runCallback c).
Proof.
  destruct c as [| | deviceId]; unfold EspPwm.runCallback.
  - apply Keeps_bind; [apply Keeps_Quiet, Quiet_getState | intros s].
    apply Keeps_bind; [apply Keeps_Quiet, Quiet_post | intros _].
    apply Keeps_offlineTimeoutStart.
  - apply Keeps_bind; [apply Keeps_Quiet, Quiet_post | intros _].
    apply Keeps_offlineTimeoutStart.
  - apply Keeps_Quiet. apply Quiet_bind; [apply Quiet_post | intros _; apply Quiet_post].
Qed.

Lemma popTimer_keeps (s : State) (e e' : Env) (t : Timer) :
  PwmInv (s, e) -> popTimer e = Some (t, e') -> PwmInv (s, e').
Proof.
  intros [Hc Hd Hf Hn]. unfold popTimer.
  destruct (nextDue (pending e)) as [u|]; [|discriminate].
  intros [= <- <-]. unfold timersNamed in Hn. simpl in *.
  split; simpl.
  - exact Hc.
  - now apply NoDup_ids_filter.
  - intros x Hx. apply filter_In in Hx as [Hx _]. now apply Hf.
  - intros x Hx. simpl in Hx. apply filter_In in Hx as [Hx _]. exact (Hn x Hx).
Qed.

(** The event loop runs a timer from a state that satisfies the invariant
    without an exception, and the invariant holds again afterwards. *)
Lemma fireNext_keeps (w : State * Env) :
  PwmInv w ->
  EspPwm.fireNext w = None
  \/ exists w', EspPwm.fireNext w = Some (Returned tt, w') /\ PwmInv w'.
Proof.
  intros Hw. unfold EspPwm.fireNext. destruct w as [s e]. simpl.
  destruct (popTimer e) as [[t e']|] eqn:Hp; [right | now left].
  pose proof (popTimer_keeps s e e' t Hw Hp) as Hw'.
  destruct (Keeps_runCallback (cb t) (s, e') Hw') as ([] & w' & E & I & _).
  exists w'. rewrite E. now split.
Qed.

(** The states the driver reaches once the host has sent [init]: by
    messages, by timers the event loop runs, and by time that passes. *)
Inductive Reachable : State * Env -> Prop :=
| reach_init d values t w :
    EspPwm.onMessage (Init d values) (loaded d, env0 t) = (Returned tt, w) ->
    Reachable w
| reach_message w m w' :
    Reachable w -> EspPwm.onMessage m w = (Returned tt, w') -> Reachable w'
| reach_timer w w' :
    Reachable w -> EspPwm.fireNext w = Some (Returned tt, w') -> Reachable w'
| reach_elapse w ms :
    Reachable w -> 0 <= ms -> Reachable (fst w, elapse ms (snd w)).

Lemma Reachable_PwmInv (w : State * Env) : Reachable w -> PwmInv w.
Proof.
  induction 1 as [d values t w E | w m w' _ IH E | w w' _ IH E | w ms _ IH _].
  - destruct (init_keeps d values (loaded d, env0 t) (PwmInv_loaded d t)) as (w' & E' & I).
    rewrite E in E'. now injection E' as ->.
  - destruct (onMessage_keeps m w IH) as (w1 & E' & I).
    rewrite E in E'. now injection E' as ->.
  - destruct (fireNext_keeps w IH) as [E' | (w1 & E' & I)]; rewrite E in E'.
    + discriminate.
    + now injection E' as ->.
  - destruct IH as [Hc Hd Hf Hn]. split; simpl; assumption.
Qed.

Lemma at_most_one_named (f : Timer -> bool) (h : nat) (ts : list Timer) :
  NoDup (map timer_id ts) ->
  (forall t, In t ts -> f t = true -> timer_id t = h) ->
  (length (List.filter f ts) <= 1)%nat.
Proof.
  induction ts as [|t ts IH]; simpl; intros Hd Hh; [lia|].
  inversion Hd as [|x l Hx Hl]; subst.
  destruct (f t) eqn:Hft; simpl.
  - rewrite (filter_none f ts); [simpl; lia|].
    intros u Hu. destruct (f u) eqn:Hfu; [|reflexivity].
    exfalso. apply Hx. apply list_elem_of_In. apply in_map_iff. exists u.
    split; [|exact Hu].
    rewrite (Hh u (or_intror Hu) Hfu). symmetry. now apply Hh; [left|].
  - apply IH; [exact Hl|]. intros u Hu. apply Hh. now right.
Qed.

Lemma PwmInv_one_each (w : State * Env) :
  PwmInv w ->
  (length (scheduled RequestStatusCb (snd w)) <= 1)%nat
  /\ (length (scheduled SetOfflineCb (snd w)) <= 1)%nat.
Proof.
  intros [Hc Hd Hf Hn]. unfold scheduled. split.
  - apply (at_most_one_named _ (default 0%nat (requestStatusTimeout (fst w)))); [exact Hd|].
    intros t Ht Hcb. destruct (Hn t Ht) as [H1 _].
    destruct (cb t); try discriminate. now rewrite H1.
  - apply (at_most_one_named _ (default 0%nat (setOffineTimeout (fst w)))); [exact Hd|].
    intros t Ht Hcb. destruct (Hn t Ht) as [_ H2].
    destruct (cb t); try discriminate. now rewrite H2.
Qed.

(** *** What follows for every run *)

(** X1.  No exception leaves the message listener or a timer closure of
    the esp-pwm driver on messages that carry the fields of their type:
    [init] with a device, [mqtt] with a topic and a payload text, [redis]
    with a message object whose [feature], when it is there, is an object
    of values, and messages of any other type.  In every state the driver
    reaches after [init] by such messages, by timers and by time that
    passes, every such message is handled to the end, and so is the next
    timer.  (The listener has no guard for an [mqtt] message without a
    topic, or for a [redis] message without a message object or with a
    [feature] that is [null]: those raise a TypeError and are no value of
    [Message].) *)
Theorem pwm_driver_never_throws (w : State * Env) :
  Reachable w ->
  (forall m, exists w', EspPwm.onMessage m w = (Returned tt, w') /\ Reachable w')
  /\ (EspPwm.fireNext w = None
      \/ exists w', EspPwm.fireNext w = Some (Returned tt, w') /\ Reachable w').
Proof.
  intros Hw. pose proof (Reachable_PwmInv w Hw) as Hinv. split.
  - intros m. destruct (onMessage_keeps m w Hinv) as (w' & E & _).
    exists w'. split; [exact E | now apply (reach_message w m)].
  - destruct (fireNext_keeps w Hinv) as [E | (w' & E & _)]; [now left | right].
    exists w'. split; [exact E | now apply (reach_timer w)].
Qed.

(** X2.  In every state the esp-pwm driver reaches, at most one probe
    timer and at most one offline timer are pending: no message and no
    timer ever schedules a second one for the same variable. *)
Theorem one_timer_per_slot (w : State * Env) :
  Reachable w ->
  (length (scheduled RequestStatusCb (snd w)) <= 1)%nat
  /\ (length (scheduled SetOfflineCb (snd w)) <= 1)%nat.
Proof. intros Hw. now apply PwmInv_one_each, Reachable_PwmInv. Qed.

(** X3.  A transport message to a registered esp-pwm driver restarts both
    liveness timers, whatever was pending: afterwards exactly one probe
    timer is scheduled, three minutes from now, and exactly one offline
    timer, five minutes from now. *)
Theorem transport_message_resets_timers (w : State * Env) (topic payload : string) :
  Reachable w ->
  searching (fst w) = false ->
  exists w' h1 h2,
    EspPwm.onMessage (Mqtt topic payload) w = (Returned tt, w')
    /\ scheduled RequestStatusCb (snd w') =
         [{| timer_id := h1; due := now (snd w) + requestStatusTimeoutTime;
             cb := RequestStatusCb |}]
    /\ scheduled SetOfflineCb (snd w') =
         [{| timer_id := h2; due := now (snd w) + setOffineTimeoutTime;
             cb := SetOfflineCb |}].
Proof.
  intros Hw Hs. pose proof (Reachable_PwmInv w Hw) as Hinv.
  destruct (Quiet_handleMqttMessage topic payload (device (fst w)) w)
    as ([] & w1 & E1 & B1).
  pose proof (PwmInv_Benign w w1 Hinv B1) as Hinv1.
  destruct (clearing_rearm_arms_once w1 (inv_named w1 Hinv1))
    as (w2 & E2 & E3 & Hp & Ho & _).
  destruct B1 as (_ & _ & _ & _ & Hnow & _).
  exists w2, (next_timer (snd w1)), (S (next_timer (snd w1))).
  split; [|split].
  - unfold EspPwm.onMessage, bind, getState, ret. cbv beta iota.
    rewrite Hs, E1, E2. exact E3.
  - rewrite Hp, Hnow. reflexivity.
  - rewrite Ho, Hnow. reflexivity.
Qed.

End PwmInvariants.

(** ** The esp drivers: initialisation, unknown sensors, channel commands *)

Section PwmMore.
Context `{JsRuntime}.
Import Esp.
Local Open Scope handler_scope.

(** *** A sensor the device does not declare *)







(** *** Initialisation *)

Definition postedAll (l : list Intent) (e : Env) : Env :=
  {| now := now e; next_timer := next_timer e;
     pending := pending e; outbox := outbox e ++ l |}.

Lemma postedAll_nil (e : Env) : postedAll [] e = e.
Proof. destruct e. unfold postedAll. simpl. now rewrite app_nil_r. Qed.

Lemma postedAll_app (l k : list Intent) (e : Env) :
  postedAll k (postedAll l e) = postedAll (l ++ k) e.
Proof. unfold postedAll. simpl. now rewrite app_assoc. Qed.

Lemma posted_postedAll (i : Intent) (e : Env) : posted i e = postedAll [i] e.
Proof. reflexivity. Qed.

Definition searchingEdit (d : DeviceDocument) : Intent :=
  EditDevice
    {| upd_conf := Some {| cu_topics := ["/newdevice/#"; deviceTopic d "#"];
                           cu_searching := true; cu_extra := [] |};
       upd_features := None; upd_meta := [] |}
    false.

Lemma searching_key_counts (c : DeviceConfiguration) (b : bool) :
  getProp (props c) "searching" = JBool b -> Nat.eqb (confKeys c) 0 = false.
Proof.
  intros Hp. apply Nat.eqb_neq. unfold confKeys. intros Hz.
  assert (Hs : size (props c) = 0%nat) by (destruct (topics c); simpl in Hz; lia).
  apply map_size_empty_iff in Hs. unfold getProp in Hp. rewrite Hs in Hp.
  rewrite lookup_empty in Hp. discriminate.
Qed.

(** X5.  What the esp-pwm driver does at [init] is decided by the device
    configuration alone.  With [conf.searching] false it posts nothing and
    becomes registered.  With [conf.searching] true it reports the status
    "searching" and stays searching; the edit that subscribes the device to
    the pairing topics (which restarts the driver) is posted only while
    "/newdevice/#" is not among the topics, so the restarted driver does not
    ask for it again.  No timer is scheduled and nothing but the device and
    the phase is stored. *)
Theorem init_edit_only_until_subscribed (d : DeviceDocument)
    (values : option (list (string * jsval))) (c : DeviceConfiguration)
    (ts : list string) (b : bool) (s : State) (e : Env) :
  conf d = Some c -> topics c = Some ts ->
  getProp (props c) "searching" = JBool b ->
  EspPwm.onMessage (Init d values) (s, e) =
  (Returned tt,
   (set_searching b (set_device d s),
    postedAll (if b
               then SetData None (Some "searching") []
                    :: (if includes ts "/newdevice/#" then [] else [searchingEdit d])
               else []) e)).
Proof.
  intros Hc Ht Hp. unfold EspPwm.onMessage, EspPwm.handleInitMessage, initSearching.
  rewrite Hc, Ht, (searching_key_counts c b Hp), Hp.
  destruct b.
  - destruct (includes ts "/newdevice/#"); destruct e; unfold postedAll;
      cbn -[app deviceTopic]; unfold modify, posted; cbn -[app deviceTopic];
      rewrite <- ?app_assoc; reflexivity.
  - rewrite postedAll_nil. reflexivity.
Qed.

(** *** Channel commands *)

Definition channelCommand (d : DeviceDocument) (i : Intent) : Prop :=
  exists (n value : float) (fade : jsval),
    i = PublishMessage (deviceTopic d "pwm/" +:+ numberToString n)
                       (PObject [("value", JNum value); ("fade", fade)]).

Lemma pwm_entry_commands (d : DeviceDocument) (id : string) (value : jsval) :
  conf d <> None ->
  exists cmds, (length cmds <= 1)%nat /\ Forall (channelCommand d) cmds /\
    forall (s : State) (e : Env),
      EspPwm.redisEntry d id value (s, e) = (Returned tt, (s, postedAll cmds e)).
Proof.
  intros Hc. unfold EspPwm.redisEntry.
  assert (Hnone : exists cmds : list Intent, (length cmds <= 1)%nat /\
            Forall (channelCommand d) cmds /\
            forall (s : State) (e : Env),
              ret (St := State) tt (s, e) = (Returned tt, (s, postedAll cmds e))).
  { exists []. split; [simpl; lia | split; [constructor|]].
    intros s e. now rewrite postedAll_nil. }
  destruct (getFeatureByTypeOrNameOrId d id) as [feature|]; [|exact Hnone].
  destruct (extractNumberFromArray (types feature)) as [|n rest]; [exact Hnone|].
  destruct (truthy (JNum n)); [|exact Hnone].
  destruct (booleanLike value).
  - eexists [_]. split; [simpl; lia | split].
    2: { intros s e. reflexivity. }
    constructor; [|constructor]. do 3 eexists. reflexivity.
  - cbv zeta. destruct (isNaN (PrimFloat.mul 2.5 (parseInt value))); [exact Hnone|].
    unfold EspPwm.getPWMFadeTime.
    destruct (conf d) as [c|]; [|congruence].
    destruct (props c !! ("fade_channel_" +:+ numberToString n)) as [v|].
    + eexists [_]. split; [simpl; lia | split].
      2: { intros s e. reflexivity. }
      constructor; [|constructor]. do 3 eexists. reflexivity.
    + eexists [_]. split; [simpl; lia | split].
      2: { intros s e. reflexivity. }
      constructor; [|constructor]. do 3 eexists. reflexivity.
Qed.

(** The commands of a batch depend on the device document and the batch
    only; the handler itself leaves the state as it is. *)
Lemma pwm_batch_commands (d : DeviceDocument)
    (entries : list (string * jsval)) :
  conf d <> None ->
  exists cmds, (length cmds <= length entries)%nat /\
    Forall (channelCommand d) cmds /\
    forall (s : State) (e : Env),
      EspPwm.handleRedisMessage (Some entries) d (s, e)
      = (Returned tt, (s, postedAll cmds e)).
Proof.
  intros Hc. simpl. induction entries as [|[id value] rest IH].
  - exists []. split; [simpl; lia | split; [constructor|]].
    intros s e. simpl. now rewrite postedAll_nil.
  - destruct (pwm_entry_commands d id value Hc) as (c1 & L1 & F1 & E1).
    destruct IH as (c2 & L2 & F2 & E2).
    exists (c1 ++ c2). repeat split.
    + rewrite length_app. simpl. lia.
    + apply List.Forall_app. now split.
    + intros s e. simpl. unfold bind. rewrite E1, E2, postedAll_app. reflexivity.
Qed.

(** *** Status reports *)

Lemma rearm_posts_nothing (clear : bool) (w : State * Env) :
  exists w', EspPwm.offlineTimeoutStart clear w = (Returned tt, w')
    /\ outbox (snd w') = outbox (snd w)
    /\ deviceStatus (fst w') = deviceStatus (fst w)
    /\ device (fst w') = device (fst w)
    /\ searching (fst w') = searching (fst w).
Proof.
  destruct w as [[sg st dv so rq afp fv] [nw nt ts ob]].
  unfold EspPwm.offlineTimeoutStart.
  destruct clear, so as [a|], rq as [b|];
    cbn -[Z.add requestStatusTimeoutTime setOffineTimeoutTime];
    eexists; (split; [reflexivity|]); repeat split; reflexivity.
Qed.

Lemma status_topic_dispatch (d : DeviceDocument) (topic : string) :
  startsWith topic (deviceTopic d "status") = true ->
  startsWith topic (deviceTopic d "temperature") = false
  /\ startsWith topic (deviceTopic d "humidity") = false
  /\ startsWith topic (deviceTopic d "info") = false.
Proof.
  intros Hs. repeat split;
    (apply (topics_apart d "status" _ topic); [|exact Hs]);
    intros u; apply first_letter_apart; discriminate.
Qed.

Definition infosRequest (d : DeviceDocument) : Intent :=
  PublishMessage (deviceTopic d "request") (PText "infos").

Definition statusReport (status : string) : Intent :=
  SetData None (Some status) [].

(** X19.  The esp-pwm driver asks a registered device for its settings
    when it comes online, not while it stays online.  A status message
    "online" for a device whose recorded status is something else posts the
    request for the device's infos and then the status; the same message
    again posts the status alone. *)
Theorem settings_requested_on_coming_online (topic : string) (s : State) (e : Env) :
  searching s = false ->
  startsWith topic (deviceTopic (device s) "status") = true ->
  deviceStatus s <> "online" ->
  exists w1 w2,
    EspPwm.onMessage (Mqtt topic "online") (s, e) = (Returned tt, w1)
    /\ outbox (snd w1) = outbox e ++ [infosRequest (device s); statusReport "online"]
    /\ EspPwm.onMessage (Mqtt topic "online") w1 = (Returned tt, w2)
    /\ outbox (snd w2) = outbox (snd w1) ++ [statusReport "online"].
Proof.
  intros Hs Ht Hst.
  assert (Hturn : forall s0 e0,
            searching s0 = false -> device s0 = device s ->
            exists w', EspPwm.onMessage (Mqtt topic "online") (s0, e0) = (Returned tt, w')
              /\ outbox (snd w')
                 = outbox e0 ++ (if String.eqb (deviceStatus s0) "online" then []
                                 else [infosRequest (device s)])
                             ++ [statusReport "online"]
              /\ deviceStatus (fst w') = "online"
              /\ device (fst w') = device s
              /\ searching (fst w') = false).
  { intros s0 e0 Hs0 Hd0.
    unfold EspPwm.onMessage. unfold bind at 1. unfold getState. cbn [fst snd].
    rewrite Hs0. unfold EspPwm.handleMqttMessage. rewrite Hd0.
    destruct (status_topic_dispatch (device s) topic Ht) as (T1 & T2 & T3).
    rewrite T1, T2, T3, Ht.
    set (mid := EspPwm.handleStatus "online" (s0, e0)).
    assert (Hmid : exists s1 e1, mid = (Returned tt, (s1, e1))
              /\ outbox e1
                 = outbox e0 ++ (if String.eqb (deviceStatus s0) "online" then []
                                 else [infosRequest (device s)])
                             ++ [statusReport "online"]
              /\ deviceStatus s1 = "online" /\ device s1 = device s
              /\ searching s1 = false).
    { unfold mid, EspPwm.handleStatus, EspPwm.sendDeviceSettings.
      destruct s0 as [sg st dv so rq afp fv]. simpl in Hs0, Hd0. subst.
      destruct e0 as [nw nt ts ob].
      cbn -[String.eqb deviceTopic].
      destruct (String.eqb st "online");
        cbn -[deviceTopic]; eexists _, _; (split; [reflexivity|]);
        cbn -[deviceTopic]; rewrite <- ?app_assoc; repeat split; reflexivity. }
    destruct Hmid as (s1 & e1 & Em & O1 & S1 & D1 & G1).
    destruct (rearm_posts_nothing true (s1, e1)) as (wa & Ea & Oa & Sa & Da & Ga).
    destruct (rearm_posts_nothing false wa) as (wb & Eb & Ob & Sb & Db & Gb).
    exists wb. unfold bind. fold mid. rewrite Em, Ea. unfold ret. cbv beta iota.
    rewrite Eb. split; [reflexivity|].
    simpl in Oa, Sa, Da, Ga. rewrite Ob, Oa, Sb, Sa, Db, Da, Gb, Ga. auto. }
  destruct (Hturn s e Hs eq_refl) as (w1 & E1 & O1 & S1 & D1 & G1).
  destruct w1 as [s1 e1]. simpl in *.
  destruct (Hturn s1 e1 G1 D1) as (w2 & E2 & O2 & _).
  exists (s1, e1), w2. cbn [fst snd]. split; [exact E1|]. split.
  - rewrite O1. apply String.eqb_neq in Hst. now rewrite Hst.
  - split; [exact E2|]. rewrite O2, S1. reflexivity.
Qed.

(** *** A repeated state update *)

Lemma rearm_keeps_cache (w : State * Env) :
  exists w', EspPwm.offlineTimeoutStart false w = (Returned tt, w')
    /\ outbox (snd w') = outbox (snd w)
    /\ device (fst w') = device (fst w)
    /\ searching (fst w') = searching (fst w)
    /\ featureValue (fst w') = featureValue (fst w).
Proof.
  destruct w as [[sg st dv so rq afp fv] [nw nt ts ob]].
  unfold EspPwm.offlineTimeoutStart.
  destruct so as [a|], rq as [b|];
    cbn -[Z.add requestStatusTimeoutTime setOffineTimeoutTime];
    eexists; (split; [reflexivity|]); repeat split; reflexivity.
Qed.

(** X6.  The esp-pwm driver does not suppress a repeated state update.
    In the registered phase, for a device with a configuration, the
    listener translates a batch of feature values into at most one command
    per entry, each a publish of a numeric value and a fade time on a
    channel topic [/device/<id>/pwm/<n>]; the same batch delivered again
    publishes the same commands again, in full, and the value cache is as
    it was.  In the searching phase a state update posts nothing and
    changes nothing. *)
Theorem registered_batch_published_again (entries : list (string * jsval))
    (s : State) (e : Env) :
  conf (device s) <> None ->
  if searching s
  then EspPwm.onMessage (Redis (Some entries)) (s, e) = (Returned tt, (s, e))
  else exists cmds w1 w2,
      (length cmds <= length entries)%nat
      /\ Forall (channelCommand (device s)) cmds
      /\ EspPwm.onMessage (Redis (Some entries)) (s, e) = (Returned tt, w1)
      /\ outbox (snd w1) = outbox e ++ cmds
      /\ EspPwm.onMessage (Redis (Some entries)) w1 = (Returned tt, w2)
      /\ outbox (snd w2) = outbox (snd w1) ++ cmds
      /\ featureValue (fst w2) = featureValue s.
Proof.
  intros Hc. destruct (searching s) eqn:Hs.
  - unfold EspPwm.onMessage. unfold bind, getState. cbn [fst snd]. now rewrite Hs.
  - destruct (pwm_batch_commands (device s) entries Hc) as (cmds & L & F & E).
    assert (Hturn : forall s0 e0,
              searching s0 = false -> device s0 = device s ->
              exists w', EspPwm.onMessage (Redis (Some entries)) (s0, e0)
                         = (Returned tt, w')
                /\ outbox (snd w') = outbox e0 ++ cmds
                /\ device (fst w') = device s
                /\ searching (fst w') = false
                /\ featureValue (fst w') = featureValue s0).
    { intros s0 e0 Hs0 Hd0.
      destruct (rearm_keeps_cache (s0, postedAll cmds e0)) as (w' & R & O & D & G & V).
      exists w'. unfold EspPwm.onMessage. unfold bind, getState, ret. cbn [fst snd].
      rewrite Hs0. cbn [fst snd]. rewrite Hd0, E. cbn [fst snd]. rewrite R.
      simpl in O, D, G, V.
      rewrite O, D, G, V. auto. }
    destruct (Hturn s e Hs eq_refl) as ([s1 e1] & E1 & O1 & D1 & G1 & V1).
    simpl in O1, D1, G1, V1.
    destruct (Hturn s1 e1 G1 D1) as (w2 & E2 & O2 & _ & _ & V2).
    exists cmds, (s1, e1), w2. cbn [fst snd].
    repeat (split; [assumption|]). congruence.
Qed.

End PwmMore.

(** ** The pin/neopixel driver: colours, the value cache, the watchdog *)

Section PinMore.
Context `{JsRuntime}.
Import Esp.
Local Open Scope handler_scope.

(** *** Colour strings *)

Definition str1 (a : ascii) : string := String a EmptyString.
Definition str2 (a b : ascii) : string := String a (str1 b).
Definition str3 (a b c : ascii) : string := String a (str2 b c).
Definition str6 (a b c d e f : ascii) : string :=
  String a (String b (String c (str3 d e f))).

Fixpoint noLineTerminator (s : string) : bool :=
  match s with
  | EmptyString => true
  | String c r => negb (isLineTerminator c) && noLineTerminator r
  end.

(** Text of ASCII characters: on it the length in bytes, which
    [EspPin.hexToRgb] counts, is the length the engine counts. *)
Fixpoint asciiText (s : string) : bool :=
  match s with
  | EmptyString => true
  | String c r => (nat_of_ascii c <? 128)%nat && asciiText r
  end.

(** X7.  How the pin driver reads a colour of ASCII characters.  Three
    characters stand for the six with each one doubled, and one leading
    [#] is dropped: [abc], [#abc], [aabbcc] and [#aabbcc] all give the
    components [parseInt("aa", 16)], [parseInt("bb", 16)],
    [parseInt("cc", 16)].  (The characters are ASCII and not line
    terminators, and the first is not [#].) *)
Theorem colour_shorthand_and_hash (a b c : ascii) (w : State * Env) :
  asciiText (str3 a b c) = true ->
  noLineTerminator (str3 a b c) = true -> a <> "#"%char ->
  let rgb := (Returned (parseIntHex (str2 a a), parseIntHex (str2 b b),
                        parseIntHex (str2 c c)), w) in
  EspPin.hexToRgb (JStr (str3 a b c)) w = rgb
  /\ EspPin.hexToRgb (JStr (String "#" (str3 a b c))) w = rgb
  /\ EspPin.hexToRgb (JStr (str6 a a b b c c)) w = rgb
  /\ EspPin.hexToRgb (JStr (String "#" (str6 a a b b c c))) w = rgb.
Proof.
  intros _ Hl Ha rgb. simpl in Hl.
  apply andb_prop in Hl as [La Hl]. apply andb_prop in Hl as [Lb Hl].
  apply andb_prop in Hl as [Lc _].
  apply negb_true_iff in La, Lb, Lc.
  assert (Hne : Ascii.eqb a "#" = false) by now apply Ascii.eqb_neq.
  unfold EspPin.hexToRgb, EspPin.stripHash, str6, str3, str2, str1.
  rewrite Hne. cbn -[isLineTerminator parseIntHex]. rewrite La, Lb, Lc.
  repeat split; reflexivity.
Qed.

Lemma doubled_length_three (h : string) :
  String.length h = 3%nat ->
  (String.length (EspPin.doubleChars h) =? 6)%nat = noLineTerminator h.
Proof.
  destruct h as [|a [|b [|c [|x r]]]]; try discriminate. intros _.
  simpl. destruct (isLineTerminator a), (isLineTerminator b), (isLineTerminator c);
    reflexivity.
Qed.

(** X8.  On a string of ASCII characters the only check [hexToRgb] makes
    is the length.  With the leading [#] dropped, a string of six
    characters, or of three that doubling turns into six, gives three
    components, whichever ASCII characters they are.  Any other ASCII
    string, and any value that is not a string, makes it throw.  Nothing is
    posted or stored either way. *)
Theorem colour_checked_by_length_only (value : jsval) (w : State * Env) :
  match value with
  | JStr s => asciiText s = true
  | _ => True
  end ->
  let accepted :=
    match value with
    | JStr s =>
        let h := EspPin.stripHash s in
        (String.length h =? 6)%nat
        || ((String.length h =? 3)%nat && noLineTerminator h)
    | _ => false
    end in
  match EspPin.hexToRgb value w with
  | (Returned _, w') => accepted = true /\ w' = w
  | (Thrown _, w') => accepted = false /\ w' = w
  end.
Proof.
  intros _ accepted. unfold accepted, EspPin.hexToRgb.
  destruct value as [| |b|x|s]; try (split; reflexivity).
  cbv zeta.
  destruct (String.length (EspPin.stripHash s) =? 3)%nat eqn:E3.
  - apply Nat.eqb_eq in E3. rewrite (doubled_length_three _ E3), E3. simpl.
    destruct (noLineTerminator (EspPin.stripHash s)); split; reflexivity.
  - rewrite orb_false_r.
    destruct (String.length (EspPin.stripHash s) =? 6)%nat; split; reflexivity.
Qed.

(** *** The value cache at initialisation *)









(** *** The watchdog of a silent device *)

Definition probeTimer (n : nat) (t : Z) : Timer :=
  {| timer_id := n; due := t + requestStatusTimeoutTime; cb := RequestStatusCb |}.

Definition offlineTimer (n : nat) (t : Z) : Timer :=
  {| timer_id := n; due := t + setOffineTimeoutTime; cb := SetOfflineCb |}.

(** Both timers armed at time [t], with the handles [n] and [n + 1]. *)
Definition Watching (w : State * Env) (t : Z) (n : nat) : Prop :=
  requestStatusTimeout (fst w) = Some n
  /\ setOffineTimeout (fst w) = Some (S n)
  /\ now (snd w) = t
  /\ next_timer (snd w) = S (S n)
  /\ pending (snd w) = [probeTimer n t; offlineTimer (S n) t].

(** The event loop runs [k] timers of the pin driver, one after the other. *)
Fixpoint runTimers (k : nat) (w : State * Env) : option (State * Env) :=
  match k with
  | O => Some w
  | S k' =>
      match EspPin.fireNext w with
      | Some (Returned _, w') => runTimers k' w'
      | _ => None
      end
  end.

Lemma runTimers_add (j k : nat) (w w' : State * Env) :
  runTimers j w = Some w' -> runTimers (j + k) w = runTimers k w'.
Proof.
  revert w. induction j as [|j IH]; intros w; simpl.
  - now intros [= ->].
  - destruct (EspPin.fireNext w) as [[[a|ex] w1]|]; try discriminate. apply IH.
Qed.

Definition probeIntent (d : DeviceDocument) : Intent :=
  PublishMessage (deviceTopic d "request") (PText "status").

Definition offlineIntent : Intent := SetData None (Some "offline") [].

Ltac tock :=
  cbn -[Z.add Z.ltb Z.max requestStatusTimeoutTime setOffineTimeoutTime deviceTopic
        Nat.eqb];
  rewrite ?offline_not_before_probe, ?clock_at_probe, ?clock_at_offline,
          ?Nat.eqb_refl;
  cbn -[Z.add Z.ltb Z.max requestStatusTimeoutTime setOffineTimeoutTime deviceTopic
        Nat.eqb].

Lemma succ_not_self (n : nat) : Nat.eqb (S n) n = false.
Proof. apply Nat.eqb_neq. lia. Qed.

Lemma self_not_succ (n : nat) : Nat.eqb n (S n) = false.
Proof. apply Nat.eqb_neq. lia. Qed.

Lemma watchdog_cycle (w : State * Env) (t : Z) (n : nat) :
  Watching w t n ->
  exists w', runTimers 2 w = Some w'
    /\ Watching w' (t + setOffineTimeoutTime) (S (S n))
    /\ device (fst w') = device (fst w)
    /\ outbox (snd w') = outbox (snd w) ++ [probeIntent (device (fst w)); offlineIntent].
Proof.
  destruct w as [[sg st dv so rq afp fv] [nw nt ts ob]].
  intros (Hr & Ho & Hn & Hnt & Hp). simpl in *. subst.
  unfold runTimers, EspPin.fireNext, popTimer, probeTimer, offlineTimer.
  tock. rewrite ?succ_not_self, ?self_not_succ. tock.
  rewrite ?succ_not_self, ?self_not_succ. tock.
  eexists. split; [reflexivity|].
  unfold Watching, probeTimer, offlineTimer. simpl.
  rewrite <- app_assoc. repeat split; reflexivity.
Qed.

Lemma init_starts_watchdog (d d0 : DeviceDocument)
    (values : option (list (string * jsval))) (t : Z) :
  exists w, EspPin.onMessage (Init d values) (loaded d0, env0 t) = (Returned tt, w)
    /\ Watching w t 0 /\ device (fst w) = d.
Proof.
  unfold EspPin.onMessage, EspPin.handleInitMessage, initSearching.
  destruct (conf d) as [c|];
    [destruct (Nat.eqb (confKeys c) 0
               || negb (looseEqFalse (getProp (props c) "searching")));
     [destruct (topics c) as [ts|]; [destruct (includes ts "/newdevice/#")|]|]|];
    cbn -[Z.add requestStatusTimeoutTime setOffineTimeoutTime deviceTopic
          EspPin.fillMissing EspPin.loadValues];
    (eexists; split; [reflexivity|]); unfold Watching, probeTimer, offlineTimer;
    cbn -[Z.add requestStatusTimeoutTime setOffineTimeoutTime deviceTopic
          EspPin.fillMissing EspPin.loadValues];
    repeat split; reflexivity.
Qed.

(** X10.  The watchdog of the pin driver runs for ever.  After [init] at
    time [t], in either phase, and with nothing arriving, the event loop
    finds a timer to run every time; after [2 k] of them the clock stands at
    [t] plus [k] times five minutes, the driver has posted [k] times a
    status request followed by the status "offline" and nothing else, and
    one probe and one offline timer are scheduled again, three and five
    minutes ahead. *)
Theorem silent_device_reported_every_five_minutes (d d0 : DeviceDocument)
    (values : option (list (string * jsval))) (t : Z) (k : nat) :
  exists w0 w,
    EspPin.onMessage (Init d values) (loaded d0, env0 t) = (Returned tt, w0)
    /\ runTimers (2 * k) w0 = Some w
    /\ now (snd w) = t + Z.of_nat k * setOffineTimeoutTime
    /\ outbox (snd w) =
         outbox (snd w0) ++ concat (repeat [probeIntent d; offlineIntent] k)
    /\ pending (snd w) =
         [probeTimer (2 * k) (now (snd w)); offlineTimer (S (2 * k)) (now (snd w))].
Proof.
  destruct (init_starts_watchdog d d0 values t) as (w0 & E0 & W0 & D0).
  exists w0.
  assert (Hk : exists w, runTimers (2 * k) w0 = Some w
            /\ Watching w (t + Z.of_nat k * setOffineTimeoutTime) (2 * k)
            /\ device (fst w) = d
            /\ outbox (snd w) =
                 outbox (snd w0) ++ concat (repeat [probeIntent d; offlineIntent] k)).
  { induction k as [|k IH].
    - exists w0. simpl. rewrite Z.add_0_r, app_nil_r.
      split; [reflexivity | split; [exact W0 | split; [exact D0 | reflexivity]]].
    - destruct IH as (w & R & W & D & O).
      destruct (watchdog_cycle w _ _ W) as (w' & R' & W' & D' & O').
      exists w'. split; [|split; [|split]].
      + replace (2 * S k)%nat with (2 * k + 2)%nat by lia.
        now rewrite (runTimers_add _ 2 _ _ R).
      + replace (2 * S k)%nat with (S (S (2 * k))) by lia.
        replace (t + Z.of_nat (S k) * setOffineTimeoutTime)
          with (t + Z.of_nat k * setOffineTimeoutTime + setOffineTimeoutTime) by lia.
        exact W'.
      + congruence.
      + rewrite O', O, D, <- app_assoc. f_equal.
        change (S k) with (1 + k)%nat. rewrite Nat.add_comm, repeat_app, concat_app.
        simpl. reflexivity. }
  destruct Hk as (w & R & (_ & _ & Hn & _ & Hp) & _ & O).
  exists w. rewrite Hn. repeat split; assumption.
Qed.

End PinMore.

(** ** The shutter driver: targets, the snapshot, the watchdog *)

Section ShutterMore.
Context `{JsRuntime}.
Import ShutterDriver.
Local Open Scope handler_scope.

(** *** Targets sent to the device *)

(** The guard of a turn of the loop: the entry takes a command and its
    cached value is not the target. *)
Definition pendingTarget (fs : DeviceFeatures) (id : string) (value : jsval) : bool :=
  match findEntryById fs id with
  | Some k =>
      negb (strictEq (entry_value (getEntry fs k)) (JNum (parseFloat (toString value))))
      && truthyId (entry_command (getEntry fs k))
  | None => false
  end.

(** The entries after a turn of the loop. *)
Definition afterTarget (fs : DeviceFeatures) (id : string) (value : jsval)
  : DeviceFeatures :=
  match findEntryById fs id with
  | Some k =>
      if pendingTarget fs id value
      then setEntry k (withValue (JNum (parseFloat (toString value))) (getEntry fs k)) fs
      else fs
  | None => fs
  end.

Lemma set_device_features_same (s : State) : set_device_features (device_features s) s = s.
Proof. now destruct s. Qed.

Lemma setEntry_same (fs : DeviceFeatures) (k : Key) :
  setEntry k (getEntry fs k) fs = fs.
Proof. destruct fs, k; reflexivity. Qed.

Lemma redisEntry_turn (d : DeviceDocument) (id : string) (value : jsval)
    (s : State) (e : Env) :
  exists cmds,
    redisEntry d id value (s, e)
    = (Returned tt,
       (set_device_features (afterTarget (device_features s) id value) s,
        postedAll cmds e))
    /\ (pendingTarget (device_features s) id value = false -> cmds = []).
Proof.
  unfold redisEntry, afterTarget, pendingTarget.
  cbn -[findEntryById findKeyById strictEq truthyId looseEqNumber deviceTopic].
  destruct (findEntryById (device_features s) id) as [k|].
  - destruct (negb (strictEq (entry_value (getEntry (device_features s) k))
                      (JNum (parseFloat (toString value))))
              && truthyId (entry_command (getEntry (device_features s) k))).
    + cbn -[findEntryById findKeyById strictEq truthyId looseEqNumber deviceTopic].
      match goal with
      | |- context [when ?c _] => destruct c
      end.
      * eexists [_; _]. split; [|discriminate].
        cbn -[findEntryById findKeyById strictEq truthyId looseEqNumber deviceTopic].
        unfold post, postedAll, posted. simpl. rewrite <- app_assoc. reflexivity.
      * eexists [_]. split; [reflexivity | discriminate].
    + exists []. rewrite postedAll_nil, set_device_features_same.
      split; reflexivity.
  - exists []. rewrite postedAll_nil, set_device_features_same. split; reflexivity.
Qed.

#[local] Instance Key_eq_dec : EqDecision Key.
Proof. solve_decision. Defined.

Lemma getEntry_setEntry (fs : DeviceFeatures) (k k' : Key) (en : Entry) :
  getEntry (setEntry k en fs) k' = if decide (k = k') then en else getEntry fs k'.
Proof. destruct k, k'; reflexivity. Qed.

Lemma findEntryById_id (fs : DeviceFeatures) (id : string) (k : Key) :
  findEntryById fs id = Some k -> entry_id (getEntry fs k) = Some id.
Proof.
  unfold findEntryById. intros Hf. apply List.find_some in Hf as [_ Hp].
  destruct (entry_id (getEntry fs k)) as [i|]; [|discriminate].
  apply String.eqb_eq in Hp. now subst.
Qed.

Lemma findEntryById_ext (fs fs' : DeviceFeatures) (id : string) :
  (forall k, entry_id (getEntry fs' k) = entry_id (getEntry fs k)) ->
  findEntryById fs' id = findEntryById fs id.
Proof.
  intros Hi. unfold findEntryById, keys.
  pose proof (Hi temperature) as H1. pose proof (Hi shutterY) as H2.
  pose proof (Hi shutterTilt) as H3. simpl in *. now rewrite H1, H2, H3.
Qed.

Lemma afterTarget_id (fs : DeviceFeatures) (id : string) (value : jsval) (k : Key) :
  entry_id (getEntry (afterTarget fs id value) k) = entry_id (getEntry fs k).
Proof.
  unfold afterTarget. destruct (findEntryById fs id) as [k0|]; [|reflexivity].
  destruct (pendingTarget fs id value); [|reflexivity].
  rewrite getEntry_setEntry. destruct (decide (k0 = k)) as [->|]; reflexivity.
Qed.

Lemma afterTarget_command (fs : DeviceFeatures) (id : string) (value : jsval) (k : Key) :
  entry_command (getEntry (afterTarget fs id value) k) = entry_command (getEntry fs k).
Proof.
  unfold afterTarget. destruct (findEntryById fs id) as [k0|]; [|reflexivity].
  destruct (pendingTarget fs id value); [|reflexivity].
  rewrite getEntry_setEntry. destruct (decide (k0 = k)) as [->|]; reflexivity.
Qed.

Lemma afterTarget_find (fs : DeviceFeatures) (id id' : string) (value : jsval) :
  findEntryById (afterTarget fs id value) id' = findEntryById fs id'.
Proof. apply findEntryById_ext. intros k. apply afterTarget_id. Qed.

Lemma number_equals_itself (x : float) : isNaN x = false -> PrimFloat.eqb x x = true.
Proof.
  unfold isNaN, PrimFloat.is_nan. now intros Hx%negb_false_iff.
Qed.

(** A turn of the loop leaves nothing to do for its own entry. *)
Lemma afterTarget_settles (fs : DeviceFeatures) (id : string) (value : jsval) :
  isNaN (parseFloat (toString value)) = false ->
  pendingTarget (afterTarget fs id value) id value = false.
Proof.
  intros Hn. unfold pendingTarget at 1. rewrite afterTarget_find.
  destruct (findEntryById fs id) as [k|] eqn:Ef; [|reflexivity].
  rewrite afterTarget_command. unfold afterTarget. rewrite Ef.
  destruct (pendingTarget fs id value) eqn:Ep.
  - rewrite getEntry_setEntry. destruct (decide (k = k)); [|congruence].
    simpl. now rewrite (number_equals_itself _ Hn).
  - unfold pendingTarget in Ep. now rewrite Ef in Ep.
Qed.

(** A turn of the loop for another identifier leaves it as it is. *)
Lemma afterTarget_apart (fs : DeviceFeatures) (id id' : string) (value value' : jsval) :
  id <> id' ->
  pendingTarget (afterTarget fs id' value') id value = pendingTarget fs id value.
Proof.
  intros Hne. unfold pendingTarget. rewrite afterTarget_find.
  destruct (findEntryById fs id) as [k|] eqn:Ef; [|reflexivity].
  rewrite afterTarget_command. f_equal. f_equal. f_equal.
  unfold afterTarget. destruct (findEntryById fs id') as [k'|] eqn:Ef'; [|reflexivity].
  destruct (pendingTarget fs id' value'); [|reflexivity].
  rewrite getEntry_setEntry. destruct (decide (k' = k)) as [->|]; [|reflexivity].
  apply findEntryById_id in Ef, Ef'. congruence.
Qed.

Definition settled (fs : DeviceFeatures) (entries : list (string * jsval)) : Prop :=
  Forall (fun kv => pendingTarget fs (fst kv) (snd kv) = false) entries.

Lemma settled_loop (d : DeviceDocument) (entries : list (string * jsval))
    (s : State) (e : Env) :
  settled (device_features s) entries ->
  redisLoop d entries (s, e) = (Returned tt, (s, e)).
Proof.
  induction entries as [|[id value] rest IH]; intros Hs; [reflexivity|].
  inversion Hs as [|? ? Hp Hr]; subst. simpl in Hp.
  destruct (redisEntry_turn d id value s e) as (cmds & E & Hc).
  simpl. unfold bind. rewrite E, (Hc Hp), postedAll_nil.
  unfold afterTarget, pendingTarget in *.
  destruct (findEntryById (device_features s) id) as [k|].
  - rewrite Hp, set_device_features_same. now apply IH.
  - rewrite set_device_features_same. now apply IH.
Qed.

Lemma loop_settles (d : DeviceDocument) (entries : list (string * jsval)) :
  List.NoDup (map fst entries) ->
  Forall (fun kv => isNaN (parseFloat (toString (snd kv))) = false) entries ->
  forall (s : State) (e : Env),
  exists s' e', redisLoop d entries (s, e) = (Returned tt, (s', e'))
    /\ settled (device_features s') entries
    /\ forall id value, ~ In id (map fst entries) ->
         pendingTarget (device_features s') id value
         = pendingTarget (device_features s) id value.
Proof.
  induction entries as [|[id value] rest IH]; intros Hd Hn s e.
  - exists s, e. split; [reflexivity | split; [constructor | reflexivity]].
  - inversion Hd as [|? ? Hnot Hd']; subst.
    inversion Hn as [|? ? Hv Hn']; subst. simpl in Hv.
    destruct (redisEntry_turn d id value s e) as (cmds & E & _).
    destruct (IH Hd' Hn'
                (set_device_features (afterTarget (device_features s) id value) s)
                (postedAll cmds e)) as (s' & e' & R & Hs & Hk).
    exists s', e'. simpl. unfold bind. rewrite E. split; [exact R|]. split.
    + constructor; [|exact Hs]. simpl.
      rewrite (Hk id value Hnot). simpl. now apply afterTarget_settles.
    + intros id' value' Hnin. rewrite Hk by (intros Hin; apply Hnin; now right).
      simpl. apply afterTarget_apart. intros ->. apply Hnin. now left.
Qed.

(** X11.  The shutter driver sends a target once.  When a state update
    whose values all parse as numbers has been handled, the same update
    again changes nothing and posts nothing: every entry finds its target
    in the cache.  (The keys of an update are distinct.) *)
Theorem shutter_update_replay_suppressed (d : DeviceDocument)
    (entries : list (string * jsval)) (w : State * Env) :
  List.NoDup (map fst entries) ->
  Forall (fun kv => isNaN (parseFloat (toString (snd kv))) = false) entries ->
  exists w1,
    handleRedisMessage (Some entries) d w = (Returned tt, w1)
    /\ handleRedisMessage (Some entries) d w1 = (Returned tt, w1).
Proof.
  intros Hd Hn. destruct w as [s e].
  destruct (loop_settles d entries Hd Hn s e) as (s' & e' & R & Hs & _).
  exists (s', e'). split; [exact R|]. simpl. now apply settled_loop.
Qed.

(** X12.  A value that does not parse as a number is never settled: the
    driver publishes NaN on the command topic of the entry each time the
    value arrives, because the cached NaN differs from every number. *)
Theorem unparsable_target_sent_every_time (d : DeviceDocument) (id : string)
    (value : jsval) (k : Key) (s : State) (e : Env) :
  findEntryById (device_features s) id = Some k ->
  truthyId (entry_command (getEntry (device_features s) k)) = true ->
  isNaN (parseFloat (toString value)) = true ->
  exists command s1 e1 s2 e2,
    entry_command (getEntry (device_features s) k) = Some command
    /\ redisEntry d id value (s, e) = (Returned tt, (s1, e1))
    /\ outbox e1 = outbox e ++ [PublishMessage (deviceTopic d command)
                                  (PValue (JNum (parseFloat (toString value))))]
    /\ redisEntry d id value (s1, e1) = (Returned tt, (s2, e2))
    /\ outbox e2 = outbox e1 ++ [PublishMessage (deviceTopic d command)
                                   (PValue (JNum (parseFloat (toString value))))].
Proof.
  intros Hf Hc Hn.
  assert (Hne : forall v, strictEq v (JNum (parseFloat (toString value))) = false).
  { intros v. destruct v; try reflexivity. simpl.
    unfold isNaN, PrimFloat.is_nan in Hn. apply negb_true_iff in Hn.
    destruct (PrimFloat.eqb x (parseFloat (toString value))) eqn:E; [|reflexivity].
    rewrite FloatAxioms.eqb_spec in E, Hn.
    unfold SpecFloat.SFeqb in E, Hn.
    destruct (Prim2SF x) as [[]|[]| |[] ? ?],
             (Prim2SF (parseFloat (toString value))) as [[]|[]| |[] ? ?];
      simpl in *; try discriminate.
    all: try (rewrite Z.compare_refl, Pos.compare_cont_refl in Hn; discriminate). }
  assert (Hz : PrimFloat.eqb (parseFloat (toString value)) 0 = false).
  { unfold isNaN, PrimFloat.is_nan in Hn. apply negb_true_iff in Hn.
    rewrite FloatAxioms.eqb_spec in Hn |- *. unfold SpecFloat.SFeqb in *.
    destruct (Prim2SF (parseFloat (toString value))) as [[]|[]| |[] ? ?];
      try reflexivity; simpl in Hn; try discriminate. }
  destruct (entry_command (getEntry (device_features s) k)) as [command|] eqn:Ec;
    [|discriminate].
  exists command.
  assert (Hturn : forall s0 e0,
             findEntryById (device_features s0) id = Some k ->
             entry_command (getEntry (device_features s0) k) = Some command ->
             redisEntry d id value (s0, e0)
             = (Returned tt,
                (assignValue k (JNum (parseFloat (toString value))) s0,
                 posted (PublishMessage (deviceTopic d command)
                           (PValue (JNum (parseFloat (toString value))))) e0))).
  { intros s0 e0 Hf0 Hc0. unfold redisEntry.
    cbn -[findEntryById findKeyById strictEq truthyId looseEqNumber deviceTopic].
    rewrite Hf0, Hne, Hc0, Hz, Hc.
    cbn -[findEntryById findKeyById strictEq truthyId looseEqNumber deviceTopic].
    rewrite !andb_false_r. reflexivity. }
  eexists _, _, _, _. split; [reflexivity|].
  split; [apply (Hturn s e Hf Ec)|]. split; [reflexivity|].
  split; [apply Hturn|reflexivity].
  - rewrite <- Hf. apply findEntryById_ext. intros k'. simpl.
    rewrite getEntry_setEntry. destruct (decide (k = k')) as [->|]; reflexivity.
  - simpl. rewrite getEntry_setEntry. destruct (decide (k = k)); [|congruence].
    simpl. exact Ec.
Qed.

(** *** The snapshot at initialisation *)




(** *** The watchdog *)

(** What the liveness timers consist of: the two variables, the clock, the
    next handle and the scheduled timers. *)
Definition timers (w : State * Env)
  : option nat * option nat * Z * nat * list Timer :=
  (requestStatusTimeout (fst w), setOffineTimeout (fst w),
   now (snd w), next_timer (snd w), pending (snd w)).

(** A computation that leaves the timers alone, whether it returns or
    throws. *)
Definition Frame {A} (m : M State A) : Prop :=
  forall w, timers (snd (m w)) = timers w.

Lemma Frame_ret {A} (a : A) : Frame (ret a).
Proof. intros w. reflexivity. Qed.

Lemma Frame_throw {A} (ex : Exn) : Frame (throw (A := A) ex).
Proof. intros w. reflexivity. Qed.

Lemma Frame_getState : Frame getState.
Proof. intros w. reflexivity. Qed.

Lemma Frame_post (i : Intent) : Frame (post i).
Proof. intros w. reflexivity. Qed.

Lemma Frame_bind {A B} (m : M State A) (k : A -> M State B) :
  Frame m -> (forall a, Frame (k a)) -> Frame (bind m k).
Proof.
  intros Hm Hk w. unfold bind. specialize (Hm w).
  destruct (m w) as [[a|ex] w1]; simpl in *.
  - now rewrite Hk.
  - exact Hm.
Qed.

Lemma Frame_when (b : bool) (m : M State unit) : Frame m -> Frame (when b m).
Proof. intros Hm. destruct b; [exact Hm | apply Frame_ret]. Qed.

Lemma Frame_assignValue (k : Key) (v : jsval) : Frame (modify (assignValue k v)).
Proof. intros w. reflexivity. Qed.

Lemma Frame_set_deviceStatus (x : string) : Frame (modify (set_deviceStatus x)).
Proof. intros w. reflexivity. Qed.

Ltac frame :=
  repeat first
    [ assumption | progress cbv zeta
    | apply Frame_ret | apply Frame_throw | apply Frame_getState | apply Frame_post
    | apply Frame_assignValue | apply Frame_set_deviceStatus
    | apply Frame_when
    | apply Frame_bind; [|intros ?]
    | match goal with
      | |- Frame (match ?x with _ => _ end) => destruct x
      | |- Frame (if ?x then _ else _) => destruct x
      end ].

Lemma Frame_sendDeviceSettings : Frame sendDeviceSettings.
Proof. unfold sendDeviceSettings, sendMovementTime, sendInitValue. frame. Qed.

Lemma Frame_handleMqttMessage (topic message : string) (d : DeviceDocument) :
  Frame (handleMqttMessage topic message d).
Proof.
  unfold handleMqttMessage, handleTemperature, handleInfo, handleStatus.
  pose proof Frame_sendDeviceSettings. frame.
Qed.

Lemma Frame_handleSearchingMqttMessage (topic message : string) (d : DeviceDocument) :
  Frame (handleSearchingMqttMessage topic message d).
Proof.
  unfold handleSearchingMqttMessage, handleNewDeviceMessage,
    Shutter.handleRegisteredDeviceMessage.
  frame.
Qed.

Lemma Frame_redisLoop (d : DeviceDocument) (entries : list (string * jsval)) :
  Frame (redisLoop d entries).
Proof.
  induction entries as [|[id value] rest IH]; simpl; [apply Frame_ret|].
  apply Frame_bind; [|intros _; exact IH].
  unfold redisEntry. frame.
Qed.

Definition isInit (m : Message) : bool :=
  match m with
  | Init _ _ => true
  | _ => false
  end.

Lemma Frame_onMessage (m : Message) : isInit m = false -> Frame (onMessage m).
Proof.
  destruct m as [d values|topic payload|feature|type]; intros Hm; try discriminate.
  - unfold onMessage. apply Frame_bind; [apply Frame_getState|]. intros s.
    destruct (searching s);
      [apply Frame_handleSearchingMqttMessage | apply Frame_handleMqttMessage].
  - unfold onMessage, handleRedisMessage.
    apply Frame_bind; [apply Frame_getState|]. intros s.
    destruct feature; [apply Frame_redisLoop | apply Frame_ret].
  - apply Frame_ret.
Qed.

(** A run of the driver after its initialisation: messages other than
    [init], timers that run, time that passes. *)
Inductive AfterInit (w0 : State * Env) : State * Env -> Prop :=
| after_init : AfterInit w0 w0
| after_message (m : Message) (r : Outcome unit) (w w' : State * Env) :
    AfterInit w0 w -> isInit m = false -> onMessage m w = (r, w') -> AfterInit w0 w'
| after_timer (r : Outcome unit) (w w' : State * Env) :
    AfterInit w0 w -> fireNext w = Some (r, w') -> AfterInit w0 w'
| after_elapse (ms : Z) (w : State * Env) :
    AfterInit w0 w -> 0 <= ms -> AfterInit w0 (fst w, elapse ms (snd w)).

Definition probeAt (t : Z) : Timer :=
  {| timer_id := 0; due := t + requestStatusTimeoutTime; cb := RequestStatusCb |}.

Definition offlineAt (t : Z) : Timer :=
  {| timer_id := 1; due := t + setOffineTimeoutTime; cb := SetOfflineCb |}.

Lemma init_arms (d d0 : DeviceDocument) (values : option (list (string * jsval)))
    (t : Z) (w0 : State * Env) :
  onMessage (Init d values) (loaded d0, env0 t) = (Returned tt, w0) ->
  requestStatusTimeout (fst w0) = Some 0%nat
  /\ setOffineTimeout (fst w0) = Some 1%nat
  /\ next_timer (snd w0) = 2%nat
  /\ pending (snd w0) = [probeAt t; offlineAt t].
Proof.
  unfold onMessage, handleInitMessage, initSearching.
  destruct (conf d) as [c|];
    [destruct (Nat.eqb (confKeys c) 0
               || negb (looseEqFalse (getProp (props c) "searching")));
     [destruct (topics c) as [ts|]; [destruct (includes ts "/newdevice/#")|]
     |destruct values as [values|]]|];
    vm_compute; intros E; inversion E; subst; clear E;
    repeat split; reflexivity.
Qed.

Lemma callback_schedules_nothing (c : Callback) (s : State) (e : Env) (a b : nat) :
  requestStatusTimeout s = Some a -> setOffineTimeout s = Some b ->
  exists out, runCallback c (s, e) = (Returned tt, (s, postedAll out e)).
Proof.
  intros Ha Hb. destruct s as [fs sg st dv so rq]. simpl in Ha, Hb. subst.
  destruct c; unfold runCallback, offlineTimeoutStart.
  - exists [PublishMessage (deviceTopic dv "request") (PText "status")]. reflexivity.
  - exists [SetData None (Some "offline") []]. reflexivity.
  - exists []. now rewrite postedAll_nil.
Qed.

(** X14.  The watchdog of the shutter driver runs once.  After [init],
    whatever messages arrive and however much time passes, no timer is ever
    scheduled again: the only timers there can be are the status probe
    three minutes and the offline declaration five minutes after [init].
    No transport message resets them, and neither closure schedules a new
    one when it has run. *)
Theorem shutter_watchdog_runs_once (d d0 : DeviceDocument)
    (values : option (list (string * jsval))) (t : Z) (w0 w : State * Env) :
  onMessage (Init d values) (loaded d0, env0 t) = (Returned tt, w0) ->
  AfterInit w0 w ->
  next_timer (snd w) = 2%nat
  /\ incl (pending (snd w)) [probeAt t; offlineAt t].
Proof.
  intros Hi Hr. apply init_arms in Hi as (Hq & Ho & Hn & Hp).
  assert (Inv : requestStatusTimeout (fst w) = Some 0%nat
                /\ setOffineTimeout (fst w) = Some 1%nat
                /\ next_timer (snd w) = 2%nat
                /\ incl (pending (snd w)) [probeAt t; offlineAt t]).
  { induction Hr as [|m r w w' _ IH Hm E|r w w' _ IH E|ms w _ IH Hms].
    - rewrite Hp. repeat split; auto. apply incl_refl.
    - pose proof (Frame_onMessage m Hm w) as F. rewrite E in F. simpl in F.
      unfold timers in F. injection F as F1 F2 F3 F4 F5.
      destruct IH as (I1 & I2 & I3 & I4). rewrite F1, F2, F4, F5. auto.
    - destruct IH as (I1 & I2 & I3 & I4).
      unfold fireNext, popTimer in E.
      destruct (nextDue (pending (snd w))) as [u|]; [|discriminate].
      destruct w as [s e]. simpl in *.
      match type of E with
      | Some (runCallback _ (_, ?e1)) = _ =>
          destruct (callback_schedules_nothing (cb u) s e1 _ _ I1 I2) as (out & R)
      end.
      rewrite R in E. injection E as _ <-. simpl.
      repeat split; auto.
      intros x Hx. apply List.filter_In in Hx as [Hx _]. now apply I4.
    - destruct IH as (I1 & I2 & I3 & I4). simpl. auto. }
  destruct Inv as (_ & _ & I3 & I4). auto.
Qed.

(** *** Movement times *)




End ShutterMore.

(** ** The zigbee driver: a repeated state update *)

Section ZigbeeMore.
Context `{JsRuntime}.
Import Zigbee.
Local Open Scope handler_scope.

(** A computation that only posts. *)
Definition PostsOnly (m : M State unit) : Prop :=
  forall s e, exists out, m (s, e) = (Returned tt, (s, postedAll out e)).

Lemma PostsOnly_ret : PostsOnly (ret tt).
Proof. intros s e. exists []. now rewrite postedAll_nil. Qed.

Lemma PostsOnly_post (i : Intent) : PostsOnly (post i).
Proof. intros s e. exists [i]. reflexivity. Qed.

Lemma PostsOnly_when (b : bool) (m : M State unit) : PostsOnly m -> PostsOnly (when b m).
Proof. intros Hm. destruct b; [exact Hm | apply PostsOnly_ret]. Qed.

Lemma PostsOnly_translate (d : DeviceDocument) (feature : Feature) (value : jsval) :
  PostsOnly (translate d feature value).
Proof.
  unfold translate.
  destruct (strictEq (confProp d "type") (JStr "E2204"));
    [apply PostsOnly_when, PostsOnly_post|].
  destruct (strictEq (confProp d "type") (JStr "LED1835C6")); [|apply PostsOnly_ret].
  destruct (includes (types feature) "state"); [apply PostsOnly_post|].
  destruct (includes (types feature) "brightness").
  - intros s e. unfold bind, getState, post. simpl.
    destruct (featureIdOf d "state") as [sid|].
    + destruct (truthyId (Some sid)
                && looseNeqBool (Map_get (featureValue s) sid) (truthy value)).
      * eexists [_; _]. unfold when, post, postedAll, posted. simpl.
        rewrite <- app_assoc. reflexivity.
      * eexists [_]. reflexivity.
    + eexists [_]. reflexivity.
  - destruct (includes (types feature) "color_temp");
      [apply PostsOnly_post | apply PostsOnly_ret].
Qed.

(** The loop always returns, and leaves the cached value of every
    identifier that is not in the batch as it was. *)
Lemma zigbee_loop_returns (d : DeviceDocument) (entries : list (string * jsval))
    (s : State) (e : Env) :
  exists b s' e',
    redisLoop d entries (s, e) = (Returned b, (s', e'))
    /\ forall id, ~ In id (map fst entries) ->
         Map_get (featureValue s') id = Map_get (featureValue s) id.
Proof.
  revert s e. induction entries as [|[id value] rest IH]; intros s e.
  - exists true, s, e. split; [reflexivity | auto].
  - cbn [redisLoop map fst]. unfold bind, getState, modify. cbn [fst snd].
    destruct (negb (isNullish (Map_get (featureValue s) id))
              && strictEq (Map_get (featureValue s) id) value).
    + exists false, s, e. split; [reflexivity | auto].
    + assert (Hp : PostsOnly
                     match getFeatureByTypeOrNameOrId d id with
                     | Some feature =>
                         if negb (Category_eqb (category feature) action)
                            || negb (truthy (confProp d "type"))
                         then ret tt
                         else translate d feature value
                     | None => ret tt
                     end).
      { destruct (getFeatureByTypeOrNameOrId d id) as [feature|];
          [|apply PostsOnly_ret].
        destruct (negb (Category_eqb (category feature) action)
                  || negb (truthy (confProp d "type")));
          [apply PostsOnly_ret | apply PostsOnly_translate]. }
      destruct (Hp (set_featureValue (Map_set (featureValue s) id value) s) e)
        as (out & E).
      cbn [fst snd]. rewrite E.
      destruct (IH (set_featureValue (Map_set (featureValue s) id value) s)
                  (postedAll out e)) as (b & s' & e' & R & K).
      exists b, s', e'. split; [exact R|].
      intros id' Hn. rewrite K by (intros Hin; apply Hn; now right).
      simpl. apply Map_get_set_other. intros ->. apply Hn. now left.
Qed.

(** X16.  The zigbee driver handles a state update once.  When an update
    has been handled, the same update again ends at its first entry:
    nothing is cached, translated or posted.  (The first value is neither
    [null] nor [undefined] and equals itself, and its key does not come
    again in the update.) *)
Theorem zigbee_update_replay_suppressed (d : DeviceDocument) (id : string)
    (value : jsval) (rest : list (string * jsval)) (w : State * Env) :
  isNullish value = false -> strictEq value value = true ->
  ~ In id (map fst rest) ->
  exists w1,
    handleRedisMessage (Some ((id, value) :: rest)) d w = (Returned tt, w1)
    /\ handleRedisMessage (Some ((id, value) :: rest)) d w1 = (Returned tt, w1).
Proof.
  intros Hnull Heq Hnot. destruct w as [s e].
  destruct (zigbee_loop_returns d ((id, value) :: rest) s e) as (b & s' & e' & R & _).
  exists (s', e').
  assert (Hcached : Map_get (featureValue s') id = value
                    \/ (isNullish (Map_get (featureValue s') id) = false
                        /\ strictEq (Map_get (featureValue s') id) value = true)).
  { revert R. cbn [redisLoop]. unfold bind, getState, modify. cbn [fst snd].
    destruct (negb (isNullish (Map_get (featureValue s) id))
              && strictEq (Map_get (featureValue s) id) value) eqn:Eg.
    - intros [= <- <- <-]. right.
      apply andb_prop in Eg as [E1 E2]. now apply negb_true_iff in E1.
    - cbn [fst snd].
      match goal with
      | |- context [match ?m ?x with _ => _ end] =>
          destruct (m x) as [[[]|ex] [s1 e1]] eqn:Em
      end; [|discriminate].
      assert (Hs1 : featureValue s1 = Map_set (featureValue s) id value).
      { revert Em.
        destruct (getFeatureByTypeOrNameOrId d id) as [feature|];
          [|now intros [= <- <-]].
        destruct (negb (Category_eqb (category feature) action)
                  || negb (truthy (confProp d "type"))); [now intros [= <- <-]|].
        destruct (PostsOnly_translate d feature value
                    (set_featureValue (Map_set (featureValue s) id value) s) e)
          as (out & E).
        rewrite E. now intros [= <- <-]. }
      intros R.
      destruct (zigbee_loop_returns d rest s1 e1) as (b' & s2 & e2 & R' & K).
      rewrite R' in R. injection R as _ <- _.
      left. rewrite (K id Hnot), Hs1. apply Map_get_set_same. }
  assert (Hguard : negb (isNullish (Map_get (featureValue s') id))
                   && strictEq (Map_get (featureValue s') id) value = true).
  { destruct Hcached as [->|[E1 E2]].
    - now rewrite Hnull, Heq.
    - now rewrite E1, E2. }
  split.
  - simpl. unfold bind at 1. simpl in R. rewrite R. reflexivity.
  - simpl. unfold bind, getState. simpl. now rewrite Hguard.
Qed.

End ZigbeeMore.

(** ** The FritzBox login: outcomes *)

Section LoginMore.
Context `{JsRuntime}.
Import Fritzbox.

Ltac login_cases :=
  repeat match goal with
         | |- context [if ?b then _ else _] => destruct b eqn:?
         | |- context [match matchBetween ?a ?b ?c with _ => _ end] =>
             destruct (matchBetween a b c) as [[|? ?]|] eqn:?
         end.

(** X17.  What a login call leaves behind.  It resolves to [true] only
    after a request, with a session identifier stored that is not the
    sixteen zeroes, and with the times of the last attempt and of the last
    success set to the time of the call.  In every other case the time of
    the last success is as before, and the stored session is as before or
    has been overwritten with the sixteen zeroes of a rejected login. *)
Theorem login_success_stores_session (t : Z) (net : Network) (s : State) :
  match getFritzBoxSID t net s with
  | (Resolved true, a, s') =>
      a = Requested
      /\ (exists x, sid s' = Some x /\ x <> zeroSid)
      /\ lastLoginSuccsess s' = Some t
      /\ lastLoginTry s' = Some t
  | (_, _, s') =>
      lastLoginSuccsess s' = lastLoginSuccsess s
      /\ (sid s' = sid s \/ sid s' = Some zeroSid)
  end.
Proof.
  unfold getFritzBoxSID. login_cases; simpl; auto.
  all: try (split; [reflexivity|]; split; [|split; reflexivity];
            eexists; split; [reflexivity|]; now apply String.eqb_neq).
  all: try (split; [reflexivity|]; right; f_equal; now apply String.eqb_eq).
Qed.

(** X18.  A login attempt opens the cooldown.  After a call that went
    out to the network at a time [t] other than 0, any call less than
    thirty seconds after [t] resolves to [false] without a request and
    changes nothing. *)
Theorem login_attempt_opens_cooldown (t t' : Z) (net net' : Network) (s : State) :
  snd (fst (getFritzBoxSID t net s)) = Requested ->
  t <> 0 -> t' - t < maxLoginInterval ->
  getFritzBoxSID t' net' (snd (getFritzBoxSID t net s))
  = (Resolved false, NoRequest, snd (getFritzBoxSID t net s)).
Proof.
  intros Hreq Ht Hlt.
  assert (Htry : lastLoginTry (snd (getFritzBoxSID t net s)) = Some t).
  { revert Hreq. unfold getFritzBoxSID. login_cases; simpl;
      (discriminate || reflexivity). }
  unfold getFritzBoxSID at 1. unfold recentTry. rewrite Htry.
  apply Z.eqb_neq in Ht. apply Z.ltb_lt in Hlt. now rewrite Ht, Hlt.
Qed.

End LoginMore.

(** ** Concrete runs for the further properties *)

Module EspRuns.
Import Esp Reference.

Definition fan : Feature :=
  {| _id := Some "f1"; name := "Fan"; category := action;
     verifyvalue := pwmVerify; types := ["pwm"; "channel1"];
     unit_ := None; icon := None; type_ := None |}.

Definition hubConf : DeviceConfiguration :=
  {| topics := Some ["/device/hub/#"];
     props := {[ "searching" := JBool false ]} |}.

(** A registered esp-pwm device with one channel and no sensor. *)
Definition hub : DeviceDocument :=
  {| dev_id := "hub"; dev_icon := EmptyString; conf := Some hubConf;
     features := [fan] |}.

Definition hubReady : State * Env :=
  snd (EspPwm.onMessage (Init hub None) (loaded hub, env0 1000)).

Definition hubOnline : State * Env :=
  snd (EspPwm.onMessage (Mqtt "/device/hub/status" "online") hubReady).

Lemma hubReady_reachable : Reachable hubReady.
Proof. apply (reach_init hub None 1000). vm_compute. reflexivity. Qed.

Lemma hubOnline_reachable : Reachable hubOnline.
Proof.
  apply (reach_message hubReady (Mqtt "/device/hub/status" "online"));
    [exact hubReady_reachable | vm_compute; reflexivity].
Qed.

Lemma pwm_driver_never_throws_witness :
  (forall m, exists w', EspPwm.onMessage m hubOnline = (Returned tt, w') /\ Reachable w')
  /\ (EspPwm.fireNext hubOnline = None
      \/ exists w', EspPwm.fireNext hubOnline = Some (Returned tt, w') /\ Reachable w').
Proof. exact (pwm_driver_never_throws hubOnline hubOnline_reachable). Defined.

Lemma one_timer_per_slot_witness :
  (length (scheduled RequestStatusCb (snd hubOnline)) <= 1)%nat
  /\ (length (scheduled SetOfflineCb (snd hubOnline)) <= 1)%nat.
Proof. exact (one_timer_per_slot hubOnline hubOnline_reachable). Defined.

Lemma transport_message_resets_timers_witness :
  exists w' h1 h2,
    EspPwm.onMessage (Mqtt "/device/hub/info" "{}") hubOnline = (Returned tt, w')
    /\ scheduled RequestStatusCb (snd w') =
         [{| timer_id := h1; due := now (snd hubOnline) + requestStatusTimeoutTime;
             cb := RequestStatusCb |}]
    /\ scheduled SetOfflineCb (snd w') =
         [{| timer_id := h2; due := now (snd hubOnline) + setOffineTimeoutTime;
             cb := SetOfflineCb |}].
Proof.
  assert (Hs : searching (fst hubOnline) = false) by (vm_compute; reflexivity).
  exact (transport_message_resets_timers hubOnline "/device/hub/info" "{}"
           hubOnline_reachable Hs).
Defined.


Definition newcomerConf : DeviceConfiguration :=
  {| topics := Some ["/newdevice/#"; "/device/new/#"];
     props := {[ "searching" := JBool true ]} |}.

(** A device the host has subscribed to the pairing topics. *)
Definition newcomer : DeviceDocument :=
  {| dev_id := "new"; dev_icon := EmptyString; conf := Some newcomerConf;
     features := [] |}.

Lemma init_edit_only_until_subscribed_witness :
  EspPwm.onMessage (Init newcomer None) (loaded newcomer, env0 0) =
  (Returned tt,
   (set_searching true (set_device newcomer (loaded newcomer)),
    postedAll
      (if true
       then SetData None (Some "searching") []
            :: (if includes ["/newdevice/#"; "/device/new/#"] "/newdevice/#"
                then [] else [searchingEdit newcomer])
       else []) (env0 0))).
Proof.
  assert (Hp : getProp (props newcomerConf) "searching" = JBool true)
    by (vm_compute; reflexivity).
  exact (init_edit_only_until_subscribed newcomer None newcomerConf
           ["/newdevice/#"; "/device/new/#"] true (loaded newcomer) (env0 0)
           eq_refl eq_refl Hp).
Defined.

(** The same value for the fan twice: the command goes out twice. *)
Lemma registered_batch_published_again_witness :
  if searching (fst hubReady)
  then EspPwm.onMessage (Redis (Some [("f1", JStr "50")])) (fst hubReady, snd hubReady)
       = (Returned tt, (fst hubReady, snd hubReady))
  else exists cmds w1 w2,
      (length cmds <= length [("f1", JStr "50")])%nat
      /\ Forall (channelCommand (device (fst hubReady))) cmds
      /\ EspPwm.onMessage (Redis (Some [("f1", JStr "50")])) (fst hubReady, snd hubReady)
         = (Returned tt, w1)
      /\ outbox (snd w1) = outbox (snd hubReady) ++ cmds
      /\ EspPwm.onMessage (Redis (Some [("f1", JStr "50")])) w1 = (Returned tt, w2)
      /\ outbox (snd w2) = outbox (snd w1) ++ cmds
      /\ featureValue (fst w2) = featureValue (fst hubReady).
Proof.
  assert (Hc : conf (device (fst hubReady)) <> None) by (vm_compute; discriminate).
  exact (registered_batch_published_again [("f1", JStr "50")]
           (fst hubReady) (snd hubReady) Hc).
Defined.

(** What the two deliveries post. *)
Example fan_command_published_twice :
  outbox (snd (snd (deliverAll EspPwm.onMessage
                      [Redis (Some [("f1", JStr "50")]); Redis (Some [("f1", JStr "50")])]
                      hubReady)))
  = [PublishMessage "/device/hub/pwm/1"
       (PObject [("value", JNum 125%float); ("fade", JNum 500%float)]);
     PublishMessage "/device/hub/pwm/1"
       (PObject [("value", JNum 125%float); ("fade", JNum 500%float)])].
Proof. vm_compute. reflexivity. Qed.

Lemma settings_requested_on_coming_online_witness :
  exists w1 w2,
    EspPwm.onMessage (Mqtt "/device/hub/status" "online") (fst hubReady, snd hubReady)
      = (Returned tt, w1)
    /\ outbox (snd w1)
       = outbox (snd hubReady)
         ++ [infosRequest (device (fst hubReady)); statusReport "online"]
    /\ EspPwm.onMessage (Mqtt "/device/hub/status" "online") w1 = (Returned tt, w2)
    /\ outbox (snd w2) = outbox (snd w1) ++ [statusReport "online"].
Proof.
  assert (Hs : searching (fst hubReady) = false) by (vm_compute; reflexivity).
  assert (Ht : startsWith "/device/hub/status"
                 (deviceTopic (device (fst hubReady)) "status") = true)
    by (vm_compute; reflexivity).
  assert (Hd : deviceStatus (fst hubReady) <> "online")
    by (vm_compute; discriminate).
  exact (settings_requested_on_coming_online "/device/hub/status"
           (fst hubReady) (snd hubReady) Hs Ht Hd).
Defined.

(** The colour [f80], with and without the hash, short and long. *)
Lemma colour_shorthand_and_hash_witness :
  let w := (loaded hub, env0 0) in
  let rgb := (Returned (parseIntHex "ff", parseIntHex "88", parseIntHex "00"), w) in
  EspPin.hexToRgb (JStr "f80") w = rgb
  /\ EspPin.hexToRgb (JStr "#f80") w = rgb
  /\ EspPin.hexToRgb (JStr "ff8800") w = rgb
  /\ EspPin.hexToRgb (JStr "#ff8800") w = rgb.
Proof.
  exact (colour_shorthand_and_hash "f" "8" "0" (loaded hub, env0 0)
           eq_refl eq_refl ltac:(discriminate)).
Defined.

(** Six ASCII characters that are no hexadecimal digits are accepted; five
    are not. *)
Lemma colour_checked_by_length_only_witness :
  let accepted :=
    match JStr "zzzzzz" with
    | JStr s =>
        let h := EspPin.stripHash s in
        (String.length h =? 6)%nat
        || ((String.length h =? 3)%nat && noLineTerminator h)
    | _ => false
    end in
  match EspPin.hexToRgb (JStr "zzzzzz") (loaded hub, env0 0) with
  | (Returned _, w') => accepted = true /\ w' = (loaded hub, env0 0)
  | (Thrown _, w') => accepted = false /\ w' = (loaded hub, env0 0)
  end.
Proof.
  exact (colour_checked_by_length_only (JStr "zzzzzz") (loaded hub, env0 0) eq_refl).
Defined.






End EspRuns.

Module ShutterRuns.
Import ShutterDriver Reference.

Definition outside : Feature :=
  {| _id := Some "st"; name := "Temperature"; category := sensor;
     verifyvalue := EmptyString; types := ["temperature"];
     unit_ := None; icon := None; type_ := None |}.

Definition position : Feature :=
  {| _id := Some "sy"; name := "ShutterY"; category := action;
     verifyvalue := EmptyString;
     types := ["percent"; "shutter"; "movement"; "shutterY"; "updown"];
     unit_ := None; icon := None; type_ := None |}.

Definition slats : Feature :=
  {| _id := Some "sl"; name := "ShutterTilt"; category := action;
     verifyvalue := EmptyString;
     types := ["percent"; "shutter"; "movement"; "shutterTilt"; "tilt"];
     unit_ := None; icon := None; type_ := None |}.

Definition blindConf : DeviceConfiguration :=
  {| topics := Some ["/device/blind/#"];
     props := {[ "searching" := JBool false;
                 "shutterMovementTime" := JNum 10000%float;
                 "tiltMovementTime" := JNum 2000%float ]} |}.

(** A registered shutter with its three features. *)
Definition blind : DeviceDocument :=
  {| dev_id := "blind"; dev_icon := EmptyString; conf := Some blindConf;
     features := [outside; position; slats] |}.

Definition snapshot : list (string * jsval) :=
  [("sy", JNum 50%float); ("sl", JNum 100%float)].

Definition blindReady : State * Env :=
  snd (onMessage (Init blind (Some snapshot)) (loaded blind, env0 0)).

Definition blindWarm : State * Env :=
  snd (onMessage (Mqtt "/device/blind/temperature" "21.5") blindReady).

Lemma shutter_update_replay_suppressed_witness :
  exists w1,
    handleRedisMessage (Some [("sy", JStr "0"); ("sl", JStr "30")]) blind blindReady
      = (Returned tt, w1)
    /\ handleRedisMessage (Some [("sy", JStr "0"); ("sl", JStr "30")]) blind w1
       = (Returned tt, w1).
Proof.
  assert (Hd : List.NoDup (map fst [("sy", JStr "0"); ("sl", JStr "30")])).
  { constructor; [intros [E|[]]; discriminate|].
    constructor; [intros [] | constructor]. }
  assert (Hn : Forall (fun kv => isNaN (parseFloat (toString (snd kv))) = false)
                 [("sy", JStr "0"); ("sl", JStr "30")]).
  { constructor; [vm_compute; reflexivity|].
    constructor; [vm_compute; reflexivity | constructor]. }
  exact (shutter_update_replay_suppressed blind [("sy", JStr "0"); ("sl", JStr "30")]
           blindReady Hd Hn).
Defined.

Lemma unparsable_target_sent_every_time_witness :
  exists command s1 e1 s2 e2,
    entry_command (getEntry (device_features (fst blindReady)) shutterY) = Some command
    /\ redisEntry blind "sy" (JStr "open") (fst blindReady, snd blindReady)
       = (Returned tt, (s1, e1))
    /\ outbox e1 = outbox (snd blindReady)
                   ++ [PublishMessage (deviceTopic blind command)
                         (PValue (JNum (parseFloat (toString (JStr "open")))))]
    /\ redisEntry blind "sy" (JStr "open") (s1, e1) = (Returned tt, (s2, e2))
    /\ outbox e2 = outbox e1
                   ++ [PublishMessage (deviceTopic blind command)
                         (PValue (JNum (parseFloat (toString (JStr "open")))))].
Proof.
  assert (Hf : findEntryById (device_features (fst blindReady)) "sy" = Some shutterY)
    by (vm_compute; reflexivity).
  assert (Hc : truthyId (entry_command
                           (getEntry (device_features (fst blindReady)) shutterY)) = true)
    by (vm_compute; reflexivity).
  assert (Hn : isNaN (parseFloat (toString (JStr "open"))) = true)
    by (vm_compute; reflexivity).
  exact (unparsable_target_sent_every_time blind "sy" (JStr "open") shutterY
           (fst blindReady) (snd blindReady) Hf Hc Hn).
Defined.


Lemma shutter_watchdog_runs_once_witness :
  next_timer (snd blindWarm) = 2%nat
  /\ incl (pending (snd blindWarm)) [probeAt 0; offlineAt 0].
Proof.
  assert (Hi : onMessage (Init blind (Some snapshot)) (loaded blind, env0 0)
               = (Returned tt, blindReady)) by (vm_compute; reflexivity).
  assert (Hm : onMessage (Mqtt "/device/blind/temperature" "21.5") blindReady
               = (Returned tt, blindWarm)) by (vm_compute; reflexivity).
  exact (shutter_watchdog_runs_once blind blind (Some snapshot) 0 blindReady blindWarm
           Hi (after_message blindReady (Mqtt "/device/blind/temperature" "21.5")
                 (Returned tt) blindReady blindWarm (after_init blindReady)
                 eq_refl Hm)).
Defined.


End ShutterRuns.

Module ZigbeeRuns.
Import Zigbee Reference.

Definition power : Feature :=
  {| _id := Some "zs"; name := "State"; category := action;
     verifyvalue := EmptyString; types := ["state"];
     unit_ := None; icon := None; type_ := None |}.

Definition level : Feature :=
  {| _id := Some "zb"; name := "Brightness"; category := action;
     verifyvalue := EmptyString; types := ["brightness"];
     unit_ := None; icon := None; type_ := None |}.

(** An initialised IKEA bulb. *)
Definition ceiling : DeviceDocument :=
  {| dev_id := "ceiling"; dev_icon := EmptyString;
     conf := Some {| topics := Some ["zigbee2mqtt/ceiling/#"];
                     props := {[ "friendly_name" := JStr "ceiling";
                                 "type" := JStr "LED1835C6";
                                 "inited" := JBool true ]} |};
     features := [power; level] |}.

Definition ceilingFresh : State * Env :=
  ({| device := ceiling; featureValue := [] |}, env0 0).

Lemma zigbee_update_replay_suppressed_witness :
  exists w1,
    handleRedisMessage (Some [("zb", JNum 120%float); ("zs", JBool true)])
      ceiling ceilingFresh = (Returned tt, w1)
    /\ handleRedisMessage (Some [("zb", JNum 120%float); ("zs", JBool true)])
         ceiling w1 = (Returned tt, w1).
Proof.
  assert (He : strictEq (JNum 120%float) (JNum 120%float) = true)
    by (vm_compute; reflexivity).
  assert (Hn : ~ In "zb" (map fst [("zs", JBool true)])).
  { intros [E|[]]. discriminate. }
  exact (zigbee_update_replay_suppressed ceiling "zb" (JNum 120%float)
           [("zs", JBool true)] ceilingFresh eq_refl He Hn).
Defined.

End ZigbeeRuns.

Module LoginRuns.
Import Fritzbox Reference.

(** The box answers with a challenge and accepts the response. *)
Definition granting : Network :=
  {| data := "<SID>0000000000000000</SID><Challenge>1234567z</Challenge>";
     dataWithCredentials := "<SID>9c7a1f3e5b2d4860</SID>" |}.

Lemma login_attempt_opens_cooldown_witness :
  getFritzBoxSID 20000 granting (snd (getFritzBoxSID 1000 granting loaded))
  = (Resolved false, NoRequest, snd (getFritzBoxSID 1000 granting loaded)).
Proof.
  assert (Hr : snd (fst (getFritzBoxSID 1000 granting loaded)) = Requested)
    by (vm_compute; reflexivity).
  exact (login_attempt_opens_cooldown 1000 20000 granting granting loaded
           Hr ltac:(discriminate) eq_refl).
Defined.

(** A granted login stores the session. *)
Example granted_login_stores_session :
  getFritzBoxSID 1000 granting loaded
  = (Resolved true, Requested,
     {| sid := Some "9c7a1f3e5b2d4860"; lastLoginTry := Some 1000;
        loginTryCount := JNum nan; lastLoginSuccsess := Some 1000 |}).
Proof. vm_compute. reflexivity. Qed.

End LoginRuns.

(** ** The myStrom driver: the polling period *)

Section MystromMore.
Context `{JsRuntime}.
Import Mystrom.

Lemma not_below_is_at_least_spec (x y : SpecFloat.spec_float) :
  SpecFloat.SFeqb x x = true -> SpecFloat.SFeqb y y = true ->
  SpecFloat.SFltb x y = false -> SpecFloat.SFleb y x = true.
Proof.
  unfold SpecFloat.SFeqb, SpecFloat.SFltb, SpecFloat.SFleb.
  destruct x as [sx|sx| |sx mx ex], y as [sy|sy| |sy my ey]; simpl;
    intros Hx Hy Hlt; try discriminate; try reflexivity;
    repeat match goal with b : bool |- _ => destruct b end;
    simpl in *; try discriminate; try reflexivity.
  all: rewrite (Z.compare_antisym ex ey);
    destruct (ex ?= ey)%Z eqn:E; simpl in *; try (discriminate || reflexivity);
    change (Pos.compare_cont Eq my mx) with (Pos.compare my mx);
    change (Pos.compare_cont Eq mx my) with (Pos.compare mx my) in Hlt;
    rewrite (Pos.compare_antisym mx my);
    destruct (Pos.compare mx my); simpl in *; (discriminate || reflexivity).
Qed.

(** Of two numbers, the first is at least the second when it is not below
    it. *)
Lemma not_below_is_at_least (x y : float) :
  isNaN x = false -> isNaN y = false ->
  PrimFloat.ltb x y = false -> PrimFloat.leb y x = true.
Proof.
  unfold isNaN, PrimFloat.is_nan. intros Hx%negb_false_iff Hy%negb_false_iff.
  rewrite FloatAxioms.eqb_spec in Hx, Hy.
  rewrite FloatAxioms.ltb_spec, FloatAxioms.leb_spec.
  now apply not_below_is_at_least_spec.
Qed.

(** A zero is below every positive bound. *)
Lemma zero_is_below_thousand (x : float) :
  PrimFloat.eqb x 0 = true -> PrimFloat.ltb x 1000 = true.
Proof.
  rewrite FloatAxioms.eqb_spec, FloatAxioms.ltb_spec.
  unfold SpecFloat.SFeqb, SpecFloat.SFltb.
  change (Prim2SF 0) with (SpecFloat.S754_zero false).
  assert (Hk : exists m ex, Prim2SF 1000 = SpecFloat.S754_finite false m ex)
    by (vm_compute; eauto).
  destruct Hk as (m & ex & ->).
  destruct (Prim2SF x) as [sx|sx| |sx mx ex']; simpl;
    try discriminate; try reflexivity; destruct sx; discriminate.
Qed.

(** X20.  The period at which the myStrom driver polls its device.  Let
    the interval read be the configured [requestInterval] (a string is
    parsed, a number is taken as it is, anything else leaves the previous
    value).  The period handed to [setInterval] is 30000 milliseconds when
    the interval read is below 1000, above 120000 or no number, and the
    interval read itself otherwise; so it always lies between 1000 and
    120000 milliseconds, whatever the configuration holds. *)
Theorem poll_period_within_bounds (c : gmap string jsval) (s : State) :
  let read := match getProp c "requestInterval" with
              | JStr text => parseIntStr text
              | JNum x => x
              | _ => requestInterval s
              end in
  let period := pollPeriod (readSettings c s) in
  period = (if PrimFloat.ltb read 1000%float || PrimFloat.ltb 120000%float read
               || isNaN read
            then 30000%float else read)
  /\ PrimFloat.leb 1000%float period = true
  /\ PrimFloat.leb period 120000%float = true.
Proof.
  unfold pollPeriod, readSettings. cbv zeta. cbn [requestInterval].
  set (r := match getProp c "requestInterval" with
            | JStr text => parseIntStr text
            | JNum x => x
            | _ => requestInterval s
            end).
  destruct (PrimFloat.ltb r 1000) eqn:E1; [repeat split; reflexivity|].
  destruct (PrimFloat.ltb 120000 r) eqn:E2; [repeat split; reflexivity|].
  cbn [orb]. unfold truthy.
  destruct (isNaN r) eqn:En; [rewrite orb_true_r; repeat split; reflexivity|].
  destruct (PrimFloat.eqb r 0) eqn:Ez.
  - apply zero_is_below_thousand in Ez. congruence.
  - cbn [orb negb]. split; [reflexivity|]. split.
    + now apply not_below_is_at_least.
    + now apply not_below_is_at_least.
Qed.

End MystromMore.
